(** * Video retrieval scripts: a shallow embedding and its properties

    The three Python scripts of the repository are embedded here:

    - [youtube_batch_downloader.py]: keyword filter, duplicate heuristic,
      filter pipeline, search loop, ranking, download and record files
      ([Module Batch]);
    - [youtube_excel_downloader.py]: duration parsing, video ids, segment
      download, segmentation of long videos, the spreadsheet reader, the
      main loop ([Module Excel]);
    - [vtt_to_txt.py]: text extraction from caption files ([Module Vtt]).

    Python strings are sequences of Unicode code points, integers are
    unbounded ([Z]), sets are [gset]s.  What the interpreter and the
    outside world decide (the Unicode tables behind [str.lower], the JSON
    decoder, the external download agent, the file system) is an interface
    the definitions are parametric in. *)

From Stdlib Require Import ZArith NArith List Lia Bool Sorted.
From Stdlib Require Import Strings.String Strings.Ascii.
From Stdlib Require Import Floats.SpecFloat.
From stdpp Require Import base option list gmap sets.

Local Open Scope Z_scope.

(** ** Python built-ins *)

Module Py.

(** A [str] is its sequence of code points. *)
Definition str := list N.

(** [len] of a string or of a list *)
Definition len {A} (s : list A) : Z := Z.of_nat (length s).

(** UTF-8 decoding of the source literals, so that they can be written
    as they stand in the scripts. *)
Fixpoint utf8_decode (bs : list N) : str :=
  match bs with
  | [] => []
  | b0 :: r0 =>
      if (b0 <? 128)%N then b0 :: utf8_decode r0
      else match r0 with
      | [] => [b0]
      | b1 :: r1 =>
          if (b0 <? 224)%N
          then ((b0 - 192) * 64 + (b1 - 128))%N :: utf8_decode r1
          else match r1 with
          | [] => [b0; b1]
          | b2 :: r2 =>
              if (b0 <? 240)%N
              then ((b0 - 224) * 4096 + (b1 - 128) * 64 + (b2 - 128))%N
                     :: utf8_decode r2
              else match r2 with
              | [] => [b0; b1; b2]
              | b3 :: r3 =>
                  ((b0 - 240) * 262144 + (b1 - 128) * 4096
                   + (b2 - 128) * 64 + (b3 - 128))%N :: utf8_decode r3
              end
          end
      end
  end.

Definition lit (s : string) : str :=
  utf8_decode (List.map N_of_ascii (list_ascii_of_string s)).
Global Arguments lit s%_string_scope : simpl never.

(** [str.isspace] on one code point; [str.strip] and [str.split] with no
    argument use the same set. *)
Definition isspace (c : N) : bool :=
  ((9 <=? c) && (c <=? 13) || (28 <=? c) && (c <=? 32)
   || (c =? 133) || (c =? 160) || (c =? 5760)
   || (8192 <=? c) && (c <=? 8202)
   || (c =? 8232) || (c =? 8233) || (c =? 8239) || (c =? 8287)
   || (c =? 12288))%N.

Fixpoint lstrip (s : str) : str :=
  match s with
  | c :: s' => if isspace c then lstrip s' else s
  | [] => []
  end.

Definition rstrip (s : str) : str := rev (lstrip (rev s)).

(** [s.strip()] *)
Definition strip (s : str) : str := rstrip (lstrip s).

(** [s.split()]: maximal runs of non-space code points. [cur] holds the
    run being read, last code point first. *)
Fixpoint split_aux (cur : str) (s : str) : list str :=
  match s with
  | [] => match cur with [] => [] | _ => [rev cur] end
  | c :: s' =>
      if isspace c
      then match cur with
           | [] => split_aux [] s'
           | _ => rev cur :: split_aux [] s'
           end
      else split_aux (c :: cur) s'
  end.

Definition split (s : str) : list str := split_aux [] s.

(** [s.split(sep)] for a one-character separator. *)
Fixpoint split_on (sep : N) (s : str) : list str :=
  match s with
  | [] => [[]]
  | c :: s' =>
      if (c =? sep)%N then [] :: split_on sep s'
      else match split_on sep s' with
           | l :: ls => (c :: l) :: ls
           | [] => [[c]]
           end
  end.

(** Line boundaries of [str.splitlines]. *)
Definition islinebreak (c : N) : bool :=
  ((10 <=? c) && (c <=? 13) || (28 <=? c) && (c <=? 30)
   || (c =? 133) || (c =? 8232) || (c =? 8233))%N.

Fixpoint splitlines_aux (cur : str) (s : str) : list str :=
  match s with
  | [] => match cur with [] => [] | _ => [rev cur] end
  | c :: s' =>
      if (c =? 13)%N
      then match s' with
           | 10%N :: s'' => rev cur :: splitlines_aux [] s''
           | _ => rev cur :: splitlines_aux [] s'
           end
      else if islinebreak c then rev cur :: splitlines_aux [] s'
      else splitlines_aux (c :: cur) s'
  end.

(** [s.splitlines()] *)
Definition splitlines (s : str) : list str := splitlines_aux [] s.

(** [s.startswith(p)] *)
Fixpoint startswith (p s : str) : bool :=
  match p, s with
  | [], _ => true
  | a :: p', b :: s' => (a =? b)%N && startswith p' s'
  | _ :: _, [] => false
  end.

(** [needle in hay] *)
Fixpoint contains (needle hay : str) : bool :=
  startswith needle hay
  || match hay with
     | [] => false
     | _ :: hay' => contains needle hay'
     end.

(** [sep.join(parts)] *)
Fixpoint join (sep : str) (parts : list str) : str :=
  match parts with
  | [] => []
  | [p] => p
  | p :: ps => p ++ sep ++ join sep ps
  end.

(** [a < b] on strings: lexicographic on code points. *)
Fixpoint lt (a b : str) : bool :=
  match a, b with
  | _, [] => false
  | [], _ :: _ => true
  | x :: a', y :: b' => (x <? y)%N || (x =? y)%N && lt a' b'
  end.

(** [l.sort(key=key)] for string keys.  Python's sort is stable and
    compares keys with [<] only; insertion in front of the first element
    whose key is not smaller gives the same list. *)
Fixpoint insert_by {A} (key : A -> str) (x : A) (l : list A) : list A :=
  match l with
  | [] => [x]
  | y :: l' =>
      if lt (key y) (key x) then y :: insert_by key x l' else x :: l
  end.

Fixpoint sort_by {A} (key : A -> str) (l : list A) : list A :=
  match l with
  | [] => []
  | x :: l' => insert_by key x (sort_by key l')
  end.

(** [l[:n]] *)
Definition slice_to {A} (n : Z) (l : list A) : list A :=
  if 0 <=? n then take (Z.to_nat n) l
  else take (length l - Z.to_nat (- n)) l.

(** [s[-n:]] for a positive literal [n]. *)
Definition last_chars (n : nat) (s : str) : str :=
  drop (length s - n) s.

(** Decimal digits of a natural number, for f-strings. *)
Fixpoint digits_aux (fuel : nat) (n : N) (acc : str) : str :=
  match fuel with
  | O => acc
  | S fuel' =>
      let acc' := (48 + n mod 10)%N :: acc in
      if (n <? 10)%N then acc' else digits_aux fuel' (n / 10)%N acc'
  end.

Definition digits (n : N) : str := digits_aux (S (N.to_nat (N.log2 n))) n [].

(** [f"{z}"] *)
Definition str_of_int (z : Z) : str :=
  if z <? 0 then 45%N :: digits (Z.to_N (- z)) else digits (Z.to_N z).

(** [f"{z:0wd}"]: sign first, then zeros up to the width [w]. *)
Definition format_0d (w : nat) (z : Z) : str :=
  let ds := digits (Z.to_N (Z.abs z)) in
  if z <? 0
  then 45%N :: (replicate (w - 1 - length ds) 48%N ++ ds)
  else replicate (w - length ds) 48%N ++ ds.
Global Arguments format_0d : simpl never.
Global Arguments str_of_int : simpl never.

(** Exceptions the scripts can meet. *)
Inductive exn := ValueError | OverflowError | AttributeError | TypeError.

Inductive result (A : Type) :=
| Ok (a : A)
| Raise (e : exn).
Arguments Ok {A} a.
Arguments Raise {A} e.

(** Sequencing: an exception ends the computation. *)
Definition bind {A B} (r : result A) (k : A -> result B) : result B :=
  match r with
  | Ok a => k a
  | Raise e => Raise e
  end.

(** Python's [float] is IEEE binary64; [int(f)] truncates toward zero
    and raises on NaN and on the infinities. *)
Definition float := spec_float.

Definition int_of_float (f : float) : result Z :=
  match f with
  | S754_zero _ => Ok 0
  | S754_nan => Raise ValueError
  | S754_infinity _ => Raise OverflowError
  | S754_finite s m e =>
      let mag := if 0 <=? e then Z.shiftl (Z.pos m) e
                 else Z.shiftr (Z.pos m) (- e) in
      Ok (if s then - mag else mag)
  end.

(** [a / b] on integers, for [b > 0] and a quotient in the normal
    range: the binary64 nearest to the quotient, ties to even.  The
    quotient of [n = |a|] by [b] is brought between [2^52] and [2^53] by
    a power of two, then rounded to an integer [m]; the result is
    [m * 2^e]. *)
Definition scaled (n b e : Z) : Z * Z :=
  if e <? 0 then (n * 2 ^ (- e), b) else (n, b * 2 ^ e).

Definition quotient_exponent (n b : Z) : Z :=
  let e := Z.log2 n - Z.log2 b - 53 in
  let e := if 2 ^ 53 <=? (scaled n b e).1 / (scaled n b e).2
           then e + 1 else e in
  if 2 ^ 53 <=? (scaled n b e).1 / (scaled n b e).2 then e + 1 else e.

Definition round_half_even (num den : Z) : Z :=
  let m := num / den in
  let r := num mod den in
  if (den <? 2 * r) || (den =? 2 * r) && Z.odd m then m + 1 else m.

Definition true_div (a b : Z) : float :=
  if a =? 0 then S754_zero false
  else
    let n := Z.abs a in
    let e := quotient_exponent n b in
    let '(num, den) := scaled n b e in
    S754_finite (a <? 0) (Z.to_pos (round_half_even num den)) e.

(** [f"{z:,}"]: the digits in groups of three from the right, a comma
    between the groups.  [group_thousands] works on the digits from the
    last to the first. *)
Fixpoint group_thousands (reversed : str) : str :=
  match reversed with
  | a :: b :: c :: ((_ :: _) as rest) =>
      a :: b :: c :: 44%N :: group_thousands rest
  | _ => reversed
  end.

Definition format_thousands (z : Z) : str :=
  let ds := rev (group_thousands (rev (digits (Z.to_N (Z.abs z))))) in
  if z <? 0 then 45%N :: ds else ds.
Global Arguments format_thousands : simpl never.

End Py.


(** ** What the interpreter and its libraries decide *)

(** One decoded line of [yt-dlp --dump-json --flat-playlist]: the fields
    [search_videos] reads with [.get], with the defaults it gives for a
    key that is not there.  [None] is JSON [null], which [.get] returns
    as it is.  The id is taken to be a string; an upload date that is
    [null] is as good as the empty string, both being false in
    [if upload_date]. *)
Record video_info := {
  vi_id : Py.str;
  vi_title : option Py.str;
  vi_duration : option Z;
  vi_uploader : option Py.str;
  vi_upload_date : Py.str;
  vi_view_count : option Z;
}.

(** [json.loads(line)]: a decoding error, a value that is not an object
    (its [.get] raises [AttributeError]), or an object. *)
Inductive json_line :=
| JSONDecodeError
| JsonNotObject
| JsonObject (o : video_info).

Class Runtime := {
  (** [str.lower] (not a per-character map: it may change the length) *)
  lower : Py.str -> Py.str;
  (** the decimal value of a code point of category Nd: [\d], [int] *)
  decimal : N -> option N;
  (** [str.isdigit] on one code point *)
  isdigit : N -> bool;
  (** [sys.get_int_max_str_digits()]; 0 switches the limit off *)
  int_max_str_digits : nat;
  (** [int(s)] on arbitrary text, [None] for [ValueError] *)
  int_of_text : Py.str -> option Z;
  json_loads : Py.str -> json_line;
  (** [datetime.strptime(s, '%Y%m%d').strftime('%Y-%m-%d')], [None] when
      it raises *)
  reformat_upload_date : Py.str -> option Py.str;
}.

(** ** The outside world: the download agent and the file system *)

(** How [subprocess.run(cmd, capture_output=True, text=True, timeout=t)]
    ends. *)
Inductive run_result :=
| Completed (returncode : Z) (stdout stderr : Py.str)
| TimeoutExpired
| OtherException.

Class Agent (World : Type) := {
  subprocess_run : list Py.str -> Z -> World -> run_result * World;
  (** [Path.exists] *)
  path_exists : Py.str -> World -> bool;
  (** [Path.mkdir(parents=True, exist_ok=True)], taken to succeed *)
  mkdir : Py.str -> World -> World;
  (** [open(path, 'r', encoding=e).read()], [None] for a
      [UnicodeDecodeError] or [UnicodeError] *)
  read_text : Py.str -> Py.str -> World -> option Py.str;
}.

(** ** youtube_batch_downloader.py *)

Module Batch.

(** The module-level filter configuration.  Python looks these names up
    when a method runs, so the methods take them as a record;
    [module_globals] holds the values the script assigns. *)
Record config := {
  TITLE_MUST_CONTAIN : list Py.str;
  TITLE_EXCLUDE_KEYWORDS : list Py.str;
  POLITICAL_KEYWORDS : list Py.str;
  MIN_DURATION_SECONDS : Z;
}.

Definition module_globals : config := {|
  TITLE_MUST_CONTAIN := List.map Py.lit
    ["Hong Kong"; "hong kong"; "HK"; "hk"; "香港"; "🇭🇰"]%string;
  TITLE_EXCLUDE_KEYWORDS := List.map Py.lit
    ["Full review"; "full review"; "Apartment"; "apartment";
     "Cage"; "cage"]%string;
  POLITICAL_KEYWORDS := List.map Py.lit
    ["protest"; "demonstration"; "riot"; "march"; "rally";
     "umbrella"; "占中"; "雨伞";
     "politics"; "political"; "election"; "vote";
     "日軍"; "侵港"; "占領"; "日军"; "日本军"; "sars";
     "independence"; "independenc"; "autonomy";
     "freedom"; "democracy"; "human rights abuse";
     "BBC News 中文"; "RTHK"]%string;
  MIN_DURATION_SECONDS := 4 * 60;
|}.

(** The dict [search_videos] builds for one search hit.  The title, the
    duration and the uploader are stored as the search gave them, [None]
    included. *)
Record video_dict := {
  id : Py.str;
  title : option Py.str;
  url : Py.str;
  duration : option Z;
  uploader : option Py.str;
  upload_time : Py.str;
  views : Z;
}.

(** The fields of the class that filtering and searching read. *)
Record YouTubeDocumentaryDownloader := {
  max_downloads : Z;
  exclude_titles : gset Py.str;
}.

(** The counters [_filter_videos] prints. *)
Record counters := {
  excluded_by_title : Z;
  excluded_by_duration : Z;
  excluded_by_political : Z;
  excluded_by_duplicate : Z;
  excluded_by_filter : Z;
}.

(** The local list of [search_videos]. *)
Definition search_terms : list Py.str :=
  List.map Py.lit
  [
    "Hong Kong documentary"; "Hong Kong history documentary"; "香港纪录片";
    "Hong Kong culture documentary"; "Hong Kong food documentary";
    "Hong Kong travel documentary"; "Hong Kong city documentary";
    "Hong Kong lifestyle documentary"; "Hong Kong urban exploration";
    "Hong Kong heritage documentary"; "Hong Kong travel vlog";
    "Hong Kong tourism guide"; "Hong Kong travel guide"; "Hong Kong vlog";
    "Hong Kong trip"; "visit Hong Kong"; "Hong Kong vacation";
    "Hong Kong 4K travel"; "Hong Kong scenic";
    "Kennedy Town Hong Kong travel"; "Shek Tong Tsui Hong Kong";
    "Sai Ying Pun Hong Kong vlog"; "Sheung Wan Hong Kong travel";
    "Central Hong Kong travel"; "Admiralty Hong Kong documentary";
    "Mid-Levels Hong Kong"; "Peak Tram Hong Kong travel";
    "Wan Chai Hong Kong travel"; "Causeway Bay Hong Kong vlog";
    "Happy Valley Hong Kong"; "Tai Hang Hong Kong";
    "Jardine's Lookout Hong Kong"; "Tin Hau Hong Kong";
    "North Point Hong Kong travel"; "Quarry Bay Hong Kong";
    "Sai Wan Ho Hong Kong"; "Shau Kei Wan Hong Kong";
    "Chai Wan Hong Kong travel"; "Aberdeen Hong Kong travel";
    "Ap Lei Chau Hong Kong"; "Repulse Bay Hong Kong travel";
    "Stanley Hong Kong documentary"; "Shek O Hong Kong";
    "Wong Chuk Hang Hong Kong"; "Tsim Sha Tsui Hong Kong travel";
    "Yau Ma Tei Hong Kong"; "Mong Kok Hong Kong vlog";
    "West Kowloon Hong Kong"; "Mei Foo Hong Kong"; "Lai Chi Kok Hong Kong";
    "Cheung Sha Wan Hong Kong"; "Sham Shui Po Hong Kong";
    "Shek Kip Mei Hong Kong"; "Hung Hom Hong Kong travel";
    "To Kwa Wan Hong Kong"; "Kai Tak Hong Kong"; "Ho Man Tin Hong Kong";
    "Kowloon Tong Hong Kong"; "San Po Kong Hong Kong";
    "Wong Tai Sin Hong Kong"; "Diamond Hill Hong Kong";
    "Tsz Wan Shan Hong Kong"; "Kowloon Bay Hong Kong";
    "Ngau Tau Kok Hong Kong"; "Kwun Tong Hong Kong travel";
    "Lam Tin Hong Kong"; "Yau Tong Hong Kong"; "Lei Yue Mun Hong Kong";
    "Kwai Chung Hong Kong travel"; "Tsing Yi Hong Kong";
    "Tsuen Wan Hong Kong travel"; "Ma Wan Hong Kong"; "Ting Kau Hong Kong";
    "Tuen Mun Hong Kong travel"; "Lam Tei Hong Kong";
    "Yuen Long Hong Kong travel"; "Tin Shui Wai Hong Kong";
    "Lok Ma Chau Hong Kong"; "Kam Tin Hong Kong";
    "Fanling Hong Kong travel"; "Sheung Shui Hong Kong";
    "Sha Tau Kok Hong Kong"; "Tai Po Hong Kong travel";
    "Tai Mei Tuk Hong Kong"; "Tai Wai Hong Kong";
    "Sha Tin Hong Kong travel"; "Ma On Shan Hong Kong";
    "Wu Kai Sha Hong Kong"; "Clear Water Bay Hong Kong";
    "Sai Kung Hong Kong travel"; "Tseung Kwan O Hong Kong";
    "Hang Hau Hong Kong"; "Cheung Chau Hong Kong travel";
    "Lamma Island Hong Kong vlog"; "Lantau Island Hong Kong travel";
    "Tung Chung Hong Kong"; "Hong Kong neighborhoods travel";
    "Hong Kong local guide vlog"; "Hong Kong off the beaten path";
    "Hong Kong hidden gems travel"
  ]%string.

Section Methods.
Context `{RT : Runtime} (G : config).

(** [__init__], from the stems of the [*.mp4] files of [exclude_dir]
    (none when the directory is not given or does not exist). *)
Definition __init__ (max_downloads : Z) (stems : list Py.str)
  : YouTubeDocumentaryDownloader :=
  {| max_downloads := max_downloads;
     exclude_titles :=
       list_to_set (List.map (fun stem => Py.strip (lower stem)) stems) |}.

Fixpoint _contains_keyword_loop (text_lower : Py.str)
    (keywords : list Py.str) : bool :=
  match keywords with
  | [] => false
  | kw :: rest =>
      if Py.contains (lower kw) text_lower then true
      else _contains_keyword_loop text_lower rest
  end.

Definition _contains_keyword (text : Py.str) (keywords : list Py.str)
  : bool :=
  let text_lower := lower text in
  _contains_keyword_loop text_lower keywords.

Definition _is_excluded (title : Py.str) : bool :=
  if _contains_keyword title (TITLE_EXCLUDE_KEYWORDS G) then true
  else if _contains_keyword title (POLITICAL_KEYWORDS G) then true
  else false.

Definition _is_valid_title (title : Py.str) : bool :=
  if _is_excluded title then false
  else if _contains_keyword title (TITLE_MUST_CONTAIN G) then true
  else false.

(** [set(a.split()) & set(b.split())] *)
Definition common_words (a b : Py.str) : gset Py.str :=
  list_to_set (Py.split a) ∩ list_to_set (Py.split b).

Fixpoint _is_duplicate_loop (normalized_title : Py.str)
    (titles : list Py.str) : bool :=
  match titles with
  | [] => false
  | downloaded :: rest =>
      if (20 <? Py.len normalized_title) && (20 <? Py.len downloaded)
      then
        let common := common_words normalized_title downloaded in
        if 3 <=? Z.of_nat (size common) then true
        else _is_duplicate_loop normalized_title rest
      else _is_duplicate_loop normalized_title rest
  end.

Definition _is_duplicate (self : YouTubeDocumentaryDownloader)
    (title : Py.str) : bool :=
  let normalized_title := Py.strip (lower title) in
  _is_duplicate_loop normalized_title (elements (exclude_titles self)).

Definition no_counts : counters :=
  {| excluded_by_title := 0; excluded_by_duration := 0;
     excluded_by_political := 0; excluded_by_duplicate := 0;
     excluded_by_filter := 0 |}.

(** One round of the loop of [_filter_videos].  [_is_duplicate] and
    [_contains_keyword] start with [.lower()] on their text, which
    raises [AttributeError] on [None]; the [or] of the second check
    reaches the uploader only when the title holds no sensitive term. *)
Definition _filter_videos_body (self : YouTubeDocumentaryDownloader)
    (st : list video_dict * counters) (video : video_dict)
  : Py.result (list video_dict * counters) :=
  let '(filtered, n) := st in
  let title := title video in
  let uploader := uploader video in
  match title with
  | None => Py.Raise Py.AttributeError
  | Some title =>
      if _is_duplicate self title then
        Py.Ok
          (filtered,
           {| excluded_by_title := excluded_by_title n;
              excluded_by_duration := excluded_by_duration n;
              excluded_by_political := excluded_by_political n;
              excluded_by_duplicate := excluded_by_duplicate n + 1;
              excluded_by_filter := excluded_by_filter n |})
      else
        Py.bind
          (if _contains_keyword title (POLITICAL_KEYWORDS G) then Py.Ok true
           else
             match uploader with
             | None => Py.Raise Py.AttributeError
             | Some uploader =>
                 Py.Ok (_contains_keyword uploader (POLITICAL_KEYWORDS G))
             end)
          (fun sensitive : bool =>
             if sensitive then
               Py.Ok
                 (filtered,
                  {| excluded_by_title := excluded_by_title n;
                     excluded_by_duration := excluded_by_duration n;
                     excluded_by_political := excluded_by_political n + 1;
                     excluded_by_duplicate := excluded_by_duplicate n;
                     excluded_by_filter := excluded_by_filter n |})
             else if negb (_is_valid_title title) then
               Py.Ok
                 (filtered,
                  {| excluded_by_title := excluded_by_title n + 1;
                     excluded_by_duration := excluded_by_duration n;
                     excluded_by_political := excluded_by_political n;
                     excluded_by_duplicate := excluded_by_duplicate n;
                     excluded_by_filter := excluded_by_filter n |})
             else
               let duration := default 0 (duration video) in
               if duration <? MIN_DURATION_SECONDS G then
                 Py.Ok
                   (filtered,
                    {| excluded_by_title := excluded_by_title n;
                       excluded_by_duration := excluded_by_duration n + 1;
                       excluded_by_political := excluded_by_political n;
                       excluded_by_duplicate := excluded_by_duplicate n;
                       excluded_by_filter := excluded_by_filter n |})
               else Py.Ok (filtered ++ [video], n))
  end.

(** [_filter_videos]: the list it returns and the counts it prints, or
    the exception that ends the loop. *)
Definition _filter_videos (self : YouTubeDocumentaryDownloader)
    (videos : list video_dict)
  : Py.result (list video_dict * counters) :=
  fold_left
    (fun st video =>
       Py.bind st (fun st => _filter_videos_body self st video))
    videos (Py.Ok ([], no_counts)).

End Methods.

Section Search.
Context `{RT : Runtime} {World : Type} `{AG : !Agent World} (G : config).

(** The variables of the search loop, the world the agent acts on, and
    the history of the commands it was given (the history is not read
    by any definition). *)
Record search_state := {
  all_videos : list video_dict;
  seen_ids : gset Py.str;
  world : World;
  calls : list (list Py.str);
}.

Definition video_of_info (video_info : video_info) : video_dict :=
  let video_id := vi_id video_info in
  let upload_date := vi_upload_date video_info in
  let upload_time :=
    match upload_date with
    | [] => []
    | _ => default [] (reformat_upload_date upload_date)
    end in
  let view_count := default 0 (vi_view_count video_info) in
  {| id := video_id;
     title := vi_title video_info;
     url := Py.lit "https://www.youtube.com/watch?v=" ++ video_id;
     duration := vi_duration video_info;
     uploader := vi_uploader video_info;
     upload_time := upload_time;
     views := view_count |}.

(** The loop over the lines of one search result.  A line that
    decodes to something else than an object raises in [.get]; the
    [except Exception] of the caller ends the work on this term, and
    what was appended before stays. *)
Fixpoint read_lines (lines : list Py.str) (all_videos : list video_dict)
    (seen_ids : gset Py.str) : list video_dict * gset Py.str :=
  match lines with
  | [] => (all_videos, seen_ids)
  | line :: rest =>
      match Py.strip line with
      | [] => read_lines rest all_videos seen_ids
      | _ =>
          match json_loads line with
          | JSONDecodeError => read_lines rest all_videos seen_ids
          | JsonNotObject => (all_videos, seen_ids)
          | JsonObject video_info =>
              let video_id := vi_id video_info in
              if bool_decide (video_id ∈ seen_ids)
              then read_lines rest all_videos seen_ids
              else read_lines rest
                     (all_videos ++ [video_of_info video_info])
                     ({[video_id]} ∪ seen_ids)
          end
      end
  end.

Definition search_cmd (term : Py.str) : list Py.str :=
  [Py.lit "yt-dlp"; Py.lit "--dump-json"; Py.lit "--no-download";
   Py.lit "--flat-playlist"; Py.lit "ytsearch100:" ++ term].

(** The body of the loop over the search terms, after the test of
    the bound. *)
Definition search_term (term : Py.str) (st : search_state)
  : search_state :=
  let cmd := search_cmd term in
  let '(result, w) := subprocess_run cmd 180 (world st) in
  let calls := calls st ++ [cmd] in
  match result with
  | Completed returncode stdout _ =>
      if negb (returncode =? 0)
      then {| all_videos := all_videos st; seen_ids := seen_ids st;
              world := w; calls := calls |}
      else
        let '(videos, ids) :=
          read_lines (Py.split_on 10 (Py.strip stdout))
            (all_videos st) (seen_ids st) in
        {| all_videos := videos; seen_ids := ids;
           world := w; calls := calls |}
  | TimeoutExpired | OtherException =>
      {| all_videos := all_videos st; seen_ids := seen_ids st;
         world := w; calls := calls |}
  end.

Fixpoint search_loop (max_results : Z) (terms : list Py.str)
    (st : search_state) : search_state :=
  match terms with
  | [] => st
  | term :: rest =>
      if max_results * 3 <=? Py.len (all_videos st) then st
      else search_loop max_results rest (search_term term st)
  end.

(** [search_videos]: the list it returns, or the exception the filter
    ends it with, and the state the search loop ended in. *)
Definition search_videos (self : YouTubeDocumentaryDownloader)
    (keyword : Py.str) (max_results : option Z) (w : World)
  : Py.result (list video_dict) * search_state :=
  let max_results := default (max_downloads self) max_results in
  let st := search_loop max_results search_terms
              {| all_videos := []; seen_ids := ∅;
                 world := w; calls := [] |} in
  (Py.bind (_filter_videos G self (all_videos st))
     (fun '(filtered_videos, _) =>
        let filtered_videos := Py.sort_by upload_time filtered_videos in
        let final_videos := Py.slice_to max_results filtered_videos in
        Py.Ok final_videos),
   st).

End Search.

Global Arguments search_state : clear implicits.

(** *** download_video, download_all, save_records *)

(** What these methods use besides the agent. *)
Class Library (World : Type) := {
  (** [str.isalnum] on one code point *)
  isalnum : N -> bool;
  (** [datetime.now().strftime(format)] *)
  strftime_now : Py.str -> World -> Py.str;
  (** [str(Path(directory) / name)] *)
  joinpath : Py.str -> Py.str -> Py.str;
  (** [csv.DictWriter] on the file opened for writing, and
      [Workbook.save]: the header and the rows that end up in [path],
      [None] for a cell left empty; taken to succeed *)
  write_table : Py.str -> list (list (option Py.str)) -> World -> World;
}.

(** A hit as the download methods see it: the dict of [search_videos]
    and the two keys [download_video] sets ([None]: the key is not
    there). *)
Record entry := {
  hit : video_dict;
  status : option Py.str;
  downloaded_at : option Py.str;
}.

(** A dict as [search_videos] returns it. *)
Definition found (video : video_dict) : entry :=
  {| hit := video; status := None; downloaded_at := None |}.

(** What the three methods print. *)
Inductive event :=
| Announce (safe_title url : Py.str)
| DownloadDone
| DownloadFailed
| DownloadTimedOut
| DownloadErrored
| NothingFound
| Starting (n : Z)
| Progress (i n : Z)
| CsvSaved (csv_path : Py.str)
| ExcelSaved (excel_path : Py.str)
| Summary (success_count downloaded records : Z).

(** The header row of the CSV file and of the sheet. *)
Definition csv_headers : list Py.str :=
  List.map Py.lit
    ["title"; "upload_time"; "uploader"; "views"; "video_length";
     "web_link"]%string.

Definition headers : list Py.str :=
  List.map Py.lit
    ["标题"; "上传时间"; "上传者"; "观看次数"; "时长"; "链接"]%string.

(** One row of the CSV file, in the order of [csv_headers]: the loop
    over [csv_field_map].  A duration that is [None] counts as 0, and
    the writer turns a value that is [None] into the empty string. *)
Definition csv_row (video : entry) : list Py.str :=
  let views_value :=
    let value := views (hit video) in
    if value =? 0 then [] else Py.format_thousands value in
  let video_length_value :=
    let duration := default 0 (duration (hit video)) in
    if duration =? 0 then []
    else
      let minutes := duration / 60 in
      let seconds := duration mod 60 in
      Py.str_of_int minutes ++ Py.lit ":" ++ Py.format_0d 2 seconds in
  [default [] (title (hit video)); upload_time (hit video);
   default [] (uploader (hit video));
   views_value; video_length_value; url (hit video)].

(** One row of the sheet; a value that is [None] leaves its cell
    empty. *)
Definition excel_row (video : entry) : list (option Py.str) :=
  let duration := default 0 (duration (hit video)) in
  let duration_str :=
    if duration =? 0 then []
    else Py.str_of_int (duration / 60) ++ Py.lit ":"
         ++ Py.format_0d 2 (duration mod 60) in
  let views := views (hit video) in
  let views_str := Py.format_thousands views in
  [title (hit video); Some (upload_time (hit video)); uploader (hit video);
   Some views_str; Some duration_str; Some (url (hit video))].

Section Downloads.
Context `{RT : Runtime} {World : Type} `{AG : !Agent World}.
Context `{LB : !Library World}.
Context (G : config) (EXCEL_AVAILABLE : bool) (output_dir : Py.str).

(** The lists the object keeps, the world, what was printed, and two
    histories that no definition reads: the commands handed to the agent
    and the tables written. *)
Record session := {
  downloaded_info : list entry;
  filtered_info : list entry;
  outside : World;
  console : list event;
  commands : list (list Py.str);
  saved : list (Py.str * list (list (option Py.str)));
}.

Definition print (ev : event) (s : session) : session :=
  {| downloaded_info := downloaded_info s;
     filtered_info := filtered_info s;
     outside := outside s; console := console s ++ [ev];
     commands := commands s; saved := saved s |}.

(** [subprocess.run(cmd, ..., timeout=timeout)] *)
Definition run (cmd : list Py.str) (timeout : Z) (s : session)
  : run_result * session :=
  let '(result, w) := subprocess_run cmd timeout (outside s) in
  (result,
   {| downloaded_info := downloaded_info s;
      filtered_info := filtered_info s;
      outside := w; console := console s;
      commands := commands s ++ [cmd]; saved := saved s |}).

Definition write (path : Py.str) (table : list (list (option Py.str)))
    (s : session) : session :=
  {| downloaded_info := downloaded_info s;
     filtered_info := filtered_info s;
     outside := write_table path table (outside s); console := console s;
     commands := commands s; saved := saved s ++ [(path, table)] |}.

(** The title [download_video] prints. *)
Definition safe_title (title : Py.str) : Py.str :=
  let safe_title :=
    Py.strip
      (List.filter
         (fun c => isalnum c || bool_decide (c ∈ [32; 45; 95; 46]%N))
         title) in
  Py.slice_to 80 safe_title.

Definition download_cmd (url : Py.str) : list Py.str :=
  [Py.lit "yt-dlp"; Py.lit "-f"; Py.lit "best[height<=360]";
   Py.lit "-o"; joinpath output_dir (Py.lit "%(title)s.%(ext)s");
   Py.lit "--no-playlist"; Py.lit "--no-check-certificate";
   Py.lit "--merge-output-format"; Py.lit "mp4";
   Py.lit "--add-metadata"; url].

(** What [download_video] does once the title is cleaned: what it
    returns, the dict after the call, and the session. *)
Definition download_titled (video_info : entry) (title : Py.str)
    (s : session) : bool * entry * session :=
  let url := url (hit video_info) in
  let s := print (Announce (safe_title title) url) s in
  let '(result, s) := run (download_cmd url) 900 s in
  match result with
  | Completed returncode _ _ =>
      if returncode =? 0 then
        let s := print DownloadDone s in
        (true,
         {| hit := hit video_info;
            status := Some (Py.lit "成功");
            downloaded_at :=
              Some (strftime_now (Py.lit "%Y-%m-%d %H:%M:%S") (outside s)) |},
         s)
      else
        (false,
         {| hit := hit video_info;
            status := Some (Py.lit "失败");
            downloaded_at := downloaded_at video_info |},
         print DownloadFailed s)
  | TimeoutExpired =>
      (false,
       {| hit := hit video_info;
          status := Some (Py.lit "超时");
          downloaded_at := downloaded_at video_info |},
       print DownloadTimedOut s)
  | OtherException =>
      (false,
       {| hit := hit video_info;
          status := Some (Py.lit "错误");
          downloaded_at := downloaded_at video_info |},
       print DownloadErrored s)
  end.

(** [download_video]; [for c in title] raises [TypeError] on [None],
    before anything is printed. *)
Definition download_video (video_info : entry) (s : session)
  : Py.result (bool * entry * session) :=
  match title (hit video_info) with
  | None => Py.Raise Py.TypeError
  | Some title => Py.Ok (download_titled video_info title s)
  end.

Definition save_records (keyword : Py.str) (s : session) : session :=
  let timestamp := strftime_now (Py.lit "%Y%m%d_%H%M%S") (outside s) in
  let base_name :=
    Py.lit "doc_collection_" ++ Py.slice_to 15 keyword ++ Py.lit "_"
    ++ timestamp in
  let csv_path := joinpath output_dir (base_name ++ Py.lit ".csv") in
  let data_to_save :=
    match filtered_info s with
    | [] => downloaded_info s
    | _ => filtered_info s
    end in
  let s :=
    write csv_path
      (List.map (List.map Some) (csv_headers :: List.map csv_row data_to_save))
      s in
  let s := print (CsvSaved csv_path) s in
  let s :=
    if EXCEL_AVAILABLE then
      let excel_path := joinpath output_dir (base_name ++ Py.lit ".xlsx") in
      let s :=
        write excel_path
          (List.map Some headers :: List.map excel_row data_to_save) s in
      print (ExcelSaved excel_path) s
    else s in
  let success_count :=
    Py.len
      (List.filter (fun v => bool_decide (status v = Some (Py.lit "成功")))
         (downloaded_info s)) in
  print
    (Summary success_count (Py.len (downloaded_info s))
       (Py.len data_to_save)) s.

(** One round of the loop of [download_all]. *)
Definition download_all_body (n : Z) (st : Z * session)
    (video : video_dict) : Py.result (Z * session) :=
  let '(i, s) := st in
  let s := print (Progress i n) s in
  Py.bind (download_video (found video) s)
    (fun '(_, video, s) =>
       Py.Ok
         (i + 1,
          {| downloaded_info := downloaded_info s ++ [video];
             filtered_info := filtered_info s;
             outside := outside s; console := console s;
             commands := commands s; saved := saved s |})).

(** [download_all]: the session it ends in, or the exception that ends
    it (nothing catches it, and the script stops there). *)
Definition download_all (self : YouTubeDocumentaryDownloader)
    (keyword : Py.str) (max_downloads : option Z) (s : session)
  : Py.result session :=
  let max_downloads := default (Batch.max_downloads self) max_downloads in
  let '(videos, st) :=
    search_videos G self keyword (Some max_downloads) (outside s) in
  let s :=
    {| downloaded_info := downloaded_info s;
       filtered_info := filtered_info s;
       outside := world st; console := console s;
       commands := commands s ++ calls st; saved := saved s |} in
  Py.bind videos
    (fun videos =>
       match videos with
       | [] => Py.Ok (print NothingFound s)
       | _ =>
           let s :=
             {| downloaded_info := downloaded_info s;
                filtered_info := List.map found videos;
                outside := outside s; console := console s;
                commands := commands s; saved := saved s |} in
           let s := print (Starting (Py.len videos)) s in
           Py.bind
             (fold_left
                (fun st video =>
                   Py.bind st
                     (fun st => download_all_body (Py.len videos) st video))
                videos (Py.Ok (1, s)))
             (fun '(_, s) => Py.Ok (save_records keyword s))
       end).

End Downloads.

Global Arguments session : clear implicits.

End Batch.

(** ** youtube_excel_downloader.py *)

Module Excel.

Definition OUTPUT_DIR : Py.str :=
  Py.lit "/Volumes/T7 Shield/纪录片collection_1.9".

Definition SEGMENT_THRESHOLD_SECONDS : Z := 30 * 60.
Definition SEGMENT_DURATION_SECONDS : Z := 10 * 60.

Definition VIDEO_QUALITY : Py.str := Py.lit "best[height<=360]".

(** The four strings [get_url_platform] returns. *)
Inductive platform := youtube | bilibili | rthk | other.

Global Instance platform_eq_dec : EqDecision platform.
Proof. solve_decision. Defined.

(** The fields of a [datetime.datetime] and of a [datetime.timedelta]
    that [parse_duration] reads. *)
Record datetime := { hour : Z; minute : Z; second : Z }.
Record timedelta := { days : Z; seconds : Z; microseconds : Z }.

(** The values [parse_duration] tells apart; [VOther] is any other
    object, given by its [str()]. *)
Inductive value :=
| VNone
| VDatetime (d : datetime)
| VTimedelta (t : timedelta)
| VInt (n : Z)
| VFloat (f : Py.float)
| VStr (s : Py.str)
| VOther (str_ : Py.str).

(** [t.total_seconds()] *)
Definition total_seconds (t : timedelta) : Py.float :=
  Py.true_div ((days t * 86400 + seconds t) * 10 ^ 6 + microseconds t)
    (10 ^ 6).

(** What [download_video_segment] and [process_video] print. *)
Inductive event :=
| AlreadyExists (output_name : Py.str)
| Downloading (p : platform) (output_name : Py.str)
| Finished (output_name : Py.str)
| Failed (output_name : Py.str)
| ReasonPrivate
| ReasonNotAvailable
| ReasonLoginRequired
| ReasonOther (tail : Py.str)
| TimedOut (output_name : Py.str)
| Errored (output_name : Py.str)
| Heading (video_id_str title : Py.str) (p : platform)
| Duration (minutes seconds : Z)
| NeedsSegments
| SegmentsDone (success_count num_segments : Z)
| Progress (i n : Z).

(** One call of [download_video_segment]: the unit of work. *)
Record unit_of_work := {
  output_name : Py.str;
  start_time : option Z;
  end_time : option Z;
}.

(** A row of the spreadsheet, as [read_excel_videos] returns it. *)
Record row := {
  no : Z;
  title : Py.str;
  url : Py.str;
}.

(** The counts [main] prints at the end. *)
Record tally := {
  success_count : Z;
  fail_count : Z;
  skip_count : Z;
}.

Section Functions.
Context `{RT : Runtime} {World : Type} `{AG : !Agent World}.

(** The world, what was printed, and two histories that no definition
    reads: the commands handed to the agent, and the units
    [download_video_segment] was called on, each with what the call
    returned. *)
Record machine := {
  world : World;
  console : list event;
  agent_calls : list (list Py.str);
  dispatched : list (unit_of_work * bool);
}.

Definition print (ev : event) (m : machine) : machine :=
  {| world := world m; console := console m ++ [ev];
     agent_calls := agent_calls m; dispatched := dispatched m |}.

(** [subprocess.run(cmd, ..., timeout=timeout)] *)
Definition run (cmd : list Py.str) (timeout : Z) (m : machine)
  : run_result * machine :=
  let '(result, w) := subprocess_run cmd timeout (world m) in
  (result,
   {| world := w; console := console m;
      agent_calls := agent_calls m ++ [cmd]; dispatched := dispatched m |}).

Definition returned (u : unit_of_work) (b : bool) (m : machine)
  : bool * machine :=
  (b, {| world := world m; console := console m;
         agent_calls := agent_calls m;
         dispatched := dispatched m ++ [(u, b)] |}).

Definition get_url_platform (url : Py.str) : platform :=
  let url_str := lower url in
  if Py.contains (Py.lit "youtube.com") url_str
     || Py.contains (Py.lit "youtu.be") url_str then youtube
  else if Py.contains (Py.lit "bilibili.com") url_str then bilibili
  else if Py.contains (Py.lit "rthk.hk") url_str then rthk
  else other.

(** *** parse_duration *)

Definition is_decimal (c : N) : bool :=
  match decimal c with Some _ => true | None => false end.

(** The longest run of decimal digits at the head, and what follows. *)
Fixpoint span_digits (s : Py.str) : Py.str * Py.str :=
  match s with
  | c :: s' =>
      if is_decimal c
      then let '(ds, rest) := span_digits s' in (c :: ds, rest)
      else ([], s)
  | [] => ([], [])
  end.

(** [min] under [re.IGNORECASE]: besides the two ASCII cases, [i] also
    matches U+0130 and U+0131. *)
Definition starts_with_min (s : Py.str) : bool :=
  match s with
  | m :: i :: n :: _ =>
      ((m =? 109) || (m =? 77))%N
      && ((i =? 105) || (i =? 73) || (i =? 304) || (i =? 305))%N
      && ((n =? 110) || (n =? 78))%N
  | _ => false
  end.

(** [re.search(r'(\d+)\s*mins?', s, re.IGNORECASE)], group 1.  The
    search tries the start positions from the left; at a digit, [\d+]
    takes the whole run and [\s*] all the white space.  Giving back a
    digit or a space never helps, since the next pattern item matches
    neither. *)
Fixpoint search_mins (s : Py.str) : option Py.str :=
  match s with
  | [] => None
  | _ :: s' =>
      match span_digits s with
      | ([], _) => search_mins s'
      | (ds, rest) =>
          if starts_with_min (Py.lstrip rest) then Some ds
          else search_mins s'
      end
  end.

(** [re.search(r'(\d+):(\d+)', s)], groups 1 and 2. *)
Fixpoint search_time (s : Py.str) : option (Py.str * Py.str) :=
  match s with
  | [] => None
  | _ :: s' =>
      let '(ds, rest) := span_digits s in
      match ds, rest with
      | _ :: _, 58%N :: rest' =>
          let '(ds2, _) := span_digits rest' in
          match ds2 with
          | _ :: _ => Some (ds, ds2)
          | [] => search_time s'
          end
      | _, _ => search_time s'
      end
  end.

(** [int(ds)] for a run of decimal digits: the interpreter refuses
    more digits than its limit, when the limit is on. *)
Definition int_of_digits (ds : Py.str) : Py.result Z :=
  if negb (int_max_str_digits =? 0)%nat
     && (int_max_str_digits <? length ds)%nat
  then Py.Raise Py.ValueError
  else Py.Ok (fold_left
                (fun acc c => acc * 10 + Z.of_N (default 0%N (decimal c)))
                ds 0).

Definition parse_duration (duration : value) : Py.result Z :=
  match duration with
  | VNone => Py.Ok 0
  | VDatetime d => Py.Ok (hour d * 3600 + minute d * 60 + second d)
  | VTimedelta t => Py.int_of_float (total_seconds t)
  | VInt n => Py.Ok n
  | VFloat f => Py.int_of_float f
  | VStr duration_str | VOther duration_str =>
      match search_mins duration_str with
      | Some g1 =>
          Py.bind (int_of_digits g1) (fun n => Py.Ok (n * 60))
      | None =>
          match search_time duration_str with
          | Some (g1, g2) =>
              Py.bind (int_of_digits g1) (fun minutes =>
              Py.bind (int_of_digits g2) (fun seconds =>
              Py.Ok (minutes * 60 + seconds)))
          | None => Py.Ok 0
          end
      end
  end.

(** *** download_video_segment *)

(** [output_dir / f"{output_name}.mp4"] *)
Definition output_path (output_dir output_name : Py.str) : Py.str :=
  output_dir ++ Py.lit "/" ++ output_name ++ Py.lit ".mp4".

Definition truthy (z : option Z) : bool :=
  match z with Some n => negb (n =? 0) | None => false end.

Definition download_cmd (url output_name output_dir : Py.str)
    (start_time end_time : option Z) (p : platform) : list Py.str :=
  [Py.lit "yt-dlp"]
  ++ (if decide (p = youtube)
      then [Py.lit "--remote-components"; Py.lit "ejs:github"] else [])
  ++ (if decide (p = youtube \/ p = bilibili)
      then [Py.lit "-f"; VIDEO_QUALITY] else [])
  ++ [Py.lit "--no-playlist"; Py.lit "--no-check-certificate";
      Py.lit "--merge-output-format"; Py.lit "mp4";
      Py.lit "-o"; output_path output_dir output_name]
  ++ (if decide (p = youtube \/ p = bilibili)
      then [Py.lit "--write-subs";
            Py.lit "--sub-lang"; Py.lit "en,zh-Hans,zh-Hant,zh";
            Py.lit "--convert-subs"; Py.lit "vtt"] else [])
  ++ (match start_time with
      | Some start =>
          if decide (p = youtube)
          then [Py.lit "--download-sections";
                if truthy end_time
                then Py.lit "*" ++ Py.str_of_int start ++ Py.lit "-"
                     ++ Py.str_of_int (default 0 end_time)
                else Py.lit "*" ++ Py.str_of_int start ++ Py.lit "-"]
          else []
      | None => []
      end)
  ++ [url].

(** The lines printed after a non-zero exit code. *)
Definition report_failure (output_name stderr : Py.str) (m : machine)
  : machine :=
  let m := print (Failed output_name) m in
  match stderr with
  | [] => m
  | _ =>
      let stderr_lower := lower stderr in
      if Py.contains (Py.lit "private video") stderr_lower
         || Py.contains (Py.lit "privat") stderr_lower
      then print ReasonPrivate m
      else if Py.contains (Py.lit "is not available") stderr_lower
      then print ReasonNotAvailable m
      else if Py.contains (Py.lit "login required") stderr_lower
      then print ReasonLoginRequired m
      else print (ReasonOther (Py.last_chars 200 stderr)) m
  end.

Definition download_video_segment (url output_name output_dir : Py.str)
    (start_time end_time : option Z) (p : platform) (m : machine)
  : bool * machine :=
  let u := {| output_name := output_name;
              start_time := start_time; end_time := end_time |} in
  let output_path := output_path output_dir output_name in
  if path_exists output_path (world m) then
    returned u true (print (AlreadyExists output_name) m)
  else
    let m := print (Downloading p output_name) m in
    let cmd :=
      download_cmd url output_name output_dir start_time end_time p in
    let '(result, m) := run cmd 900 m in
    match result with
    | Completed returncode _ stderr =>
        if returncode =? 0
        then returned u true (print (Finished output_name) m)
        else returned u false (report_failure output_name stderr m)
    | TimeoutExpired => returned u false (print (TimedOut output_name) m)
    | OtherException => returned u false (print (Errored output_name) m)
    end.

(** *** process_video *)

(** The duration probe at the head of [process_video]; every
    exception leaves 0. *)
Definition probe_duration (url : Py.str) (p : platform) (m : machine)
  : Z * machine :=
  if decide (p = youtube \/ p = bilibili) then
    let cmd := [Py.lit "yt-dlp"; Py.lit "--print"; Py.lit "%(duration)s";
                Py.lit "--no-download"; url] in
    let '(result, m) := run cmd 30 m in
    let duration_seconds :=
      match result with
      | Completed returncode stdout _ =>
          if (returncode =? 0) && negb (bool_decide (Py.strip stdout = []))
          then default 0 (int_of_text (Py.strip stdout))
          else 0
      | TimeoutExpired | OtherException => 0
      end in
    (duration_seconds,
     print (Duration (duration_seconds / 60) (duration_seconds mod 60)) m)
  else (0, m).

(** The loop over [range(num_segments)], from [seg_idx] on; [todo]
    counts the rounds left. *)
Fixpoint segments_loop (url video_id_str output_dir : Py.str)
    (p : platform) (duration_seconds : Z) (todo : nat) (seg_idx : Z)
    (success_count : Z) (m : machine) : Z * machine :=
  match todo with
  | O => (success_count, m)
  | S todo' =>
      let seg_start := seg_idx * SEGMENT_DURATION_SECONDS in
      let seg_end :=
        Z.min ((seg_idx + 1) * SEGMENT_DURATION_SECONDS) duration_seconds in
      let seg_name :=
        video_id_str ++ Py.lit "_" ++ Py.format_0d 2 (seg_idx + 1) in
      let '(ok, m) :=
        download_video_segment url seg_name output_dir
          (Some seg_start) (Some seg_end) p m in
      segments_loop url video_id_str output_dir p duration_seconds
        todo' (seg_idx + 1)
        (if ok then success_count + 1 else success_count) m
  end.

Definition process_video (video_no : Z) (title url output_dir : Py.str)
    (m : machine) : bool * machine :=
  let video_id_str := Py.format_0d 3 video_no in
  let p := get_url_platform url in
  let m := print (Heading video_id_str (take 45 title) p) m in
  let '(duration_seconds, m) := probe_duration url p m in
  let m := {| world := mkdir output_dir (world m); console := console m;
              agent_calls := agent_calls m; dispatched := dispatched m |} in
  if bool_decide (p = youtube)
     && (SEGMENT_THRESHOLD_SECONDS <? duration_seconds)
  then
    let m := print NeedsSegments m in
    let num_segments :=
      (duration_seconds + SEGMENT_DURATION_SECONDS - 1)
      / SEGMENT_DURATION_SECONDS in
    let '(success_count, m) :=
      segments_loop url video_id_str output_dir p duration_seconds
        (Z.to_nat num_segments) 0 0 m in
    let m := print (SegmentsDone success_count num_segments) m in
    (0 <? success_count, m)
  else
    download_video_segment url video_id_str output_dir None None p m.

(** *** main: the download loop *)

Definition main_body (n : Z) (st : Z * tally * machine) (video : row)
  : Z * tally * machine :=
  let '(i, t, m) := st in
  let m := print (Progress i n) m in
  let video_id_str := Py.format_0d 3 (no video) in
  let output_path := output_path OUTPUT_DIR video_id_str in
  if path_exists output_path (world m) then
    (i + 1,
     {| success_count := success_count t; fail_count := fail_count t;
        skip_count := skip_count t + 1 |},
     print (AlreadyExists video_id_str) m)
  else
    let '(ok, m) :=
      process_video (no video) (title video) (url video) OUTPUT_DIR m in
    if ok
    then (i + 1,
          {| success_count := success_count t + 1;
             fail_count := fail_count t; skip_count := skip_count t |}, m)
    else (i + 1,
          {| success_count := success_count t;
             fail_count := fail_count t + 1; skip_count := skip_count t |},
          m).

Definition main_loop (videos : list row) (m : machine) : tally * machine :=
  let '(_, t, m) :=
    fold_left (main_body (Py.len videos)) videos
      (1, {| success_count := 0; fail_count := 0; skip_count := 0 |}, m) in
  (t, m).

End Functions.

Global Arguments machine : clear implicits.

(** *** format_video_id *)

(** The class [[a-zA-Z0-9_-]] *)
Definition is_id_char (c : N) : bool :=
  ((97 <=? c) && (c <=? 122) || (65 <=? c) && (c <=? 90)
   || (48 <=? c) && (c <=? 57) || (c =? 95) || (c =? 45))%N.

(** The group [([a-zA-Z0-9_-]{11})] at the head of [s] *)
Definition id_group (s : Py.str) : option Py.str :=
  let g := take 11 s in
  if (length g =? 11)%nat && forallb is_id_char g then Some g else None.

(** A pattern [(?:p1|p2|...)([a-zA-Z0-9_-]{11})] at the head of [s]: the
    alternatives are tried in their order, the next one when the group
    does not follow. *)
Fixpoint match_at (alternatives : list Py.str) (s : Py.str)
  : option Py.str :=
  match alternatives with
  | [] => None
  | p :: rest =>
      if Py.startswith p s
      then match id_group (drop (length p) s) with
           | Some g => Some g
           | None => match_at rest s
           end
      else match_at rest s
  end.

(** [re.search(pattern, s)], group 1: the start positions are tried from
    the left. *)
Fixpoint search_id (alternatives : list Py.str) (s : Py.str)
  : option Py.str :=
  match match_at alternatives s with
  | Some g => Some g
  | None =>
      match s with
      | [] => None
      | _ :: s' => search_id alternatives s'
      end
  end.

Definition format_video_id (url : Py.str) : option Py.str :=
  match search_id [Py.lit "v="; Py.lit "/v/"; Py.lit "youtu.be/"] url with
  | Some g => Some g
  | None => search_id [Py.lit "watch?v="] url
  end.

(** *** read_excel_videos *)

Definition EXCEL_FILE : Py.str :=
  Py.lit "/Volumes/T7 Shield/Tour-related Video Info.xlsx".

(** The value of a cell: empty, an integer, a string, or any other
    object, given by what [not], [str] and [int] make of it ([None]:
    [int] raises). *)
Inductive cell :=
| CNone
| CInt (n : Z)
| CStr (s : Py.str)
| COther (truth : bool) (text : Py.str) (number : option Z).

(** The counts [read_excel_videos] prints. *)
Record platform_counts := {
  youtube_count : Z;
  bilibili_count : Z;
  rthk_count : Z;
  other_count : Z;
}.

(** The active sheet of [openpyxl.load_workbook(path)]: the rows
    [iter_rows(min_row=2, values_only=True)] yields, [None] when loading
    raises. *)
Class Spreadsheet (World : Type) := {
  load_rows : Py.str -> World -> option (list (list cell));
}.

(** How [main] ends: [sys.exit(code)], an exception that nothing
    catches, or the summary. *)
Inductive ending :=
| Exit (code : Z)
| Uncaught
| Summary (t : tally) (total : Z).

Section Sheet.
Context `{RT : Runtime} {World : Type} `{AG : !Agent World}.
Context `{SP : !Spreadsheet World}.

(** [bool(c)] *)
Definition cell_truth (c : cell) : bool :=
  match c with
  | CNone => false
  | CInt n => negb (n =? 0)
  | CStr s => negb (bool_decide (s = []))
  | COther truth _ _ => truth
  end.

(** [str(c)] *)
Definition cell_str (c : cell) : Py.str :=
  match c with
  | CNone => Py.lit "None"
  | CInt n => Py.str_of_int n
  | CStr s => s
  | COther _ text _ => text
  end.

(** [int(c)], [None] when it raises *)
Definition cell_int (c : cell) : option Z :=
  match c with
  | CNone => None
  | CInt n => Some n
  | CStr s => int_of_text s
  | COther _ _ number => number
  end.

Definition count_platform (p : platform) (n : platform_counts)
  : platform_counts :=
  match p with
  | youtube =>
      {| youtube_count := youtube_count n + 1;
         bilibili_count := bilibili_count n;
         rthk_count := rthk_count n; other_count := other_count n |}
  | bilibili =>
      {| youtube_count := youtube_count n;
         bilibili_count := bilibili_count n + 1;
         rthk_count := rthk_count n; other_count := other_count n |}
  | rthk =>
      {| youtube_count := youtube_count n;
         bilibili_count := bilibili_count n;
         rthk_count := rthk_count n + 1; other_count := other_count n |}
  | other =>
      {| youtube_count := youtube_count n;
         bilibili_count := bilibili_count n;
         rthk_count := rthk_count n; other_count := other_count n + 1 |}
  end.

(** One round of the loop over the rows; [None] when an exception
    leaves the function: [IndexError] from a row of fewer than seven
    cells, or what [int(no)] raises. *)
Definition read_excel_videos_body
    (st : list (row * platform) * platform_counts) (cells : list cell)
  : option (list (row * platform) * platform_counts) :=
  let '(videos, n) := st in
  match cells !! 0%nat, cells !! 1%nat, cells !! 6%nat with
  | Some no, Some title, Some url =>
      if negb (cell_truth url) then Some st
      else
        let url_str := cell_str url in
        let platform := get_url_platform (cell_str url) in
        if bool_decide (platform = youtube)
           && Py.contains (Py.lit "&list=") url_str
        then Some st
        else
          match (if cell_truth no then cell_int no
                 else Some (Py.len videos + 1)) with
          | None => None
          | Some no =>
              let title :=
                if cell_truth title then Py.strip (cell_str title)
                else Py.lit "Video_" ++ Py.str_of_int (Py.len videos + 1) in
              Some (videos
                    ++ [({| no := no; title := title; url := url_str |},
                         platform)],
                    count_platform platform n)
          end
  | _, _, _ => None
  end.

Fixpoint read_excel_videos_loop (rows : list (list cell))
    (st : list (row * platform) * platform_counts)
  : option (list (row * platform) * platform_counts) :=
  match rows with
  | [] => Some st
  | cells :: rest =>
      match read_excel_videos_body st cells with
      | Some st => read_excel_videos_loop rest st
      | None => None
      end
  end.

(** [read_excel_videos], on the rows of the sheet: the list of dicts
    (the keys [no], [title], [url], and [platform] beside them) and the
    counts it prints. *)
Definition read_excel_videos (rows : list (list cell))
  : option (list (row * platform) * platform_counts) :=
  read_excel_videos_loop rows
    ([], {| youtube_count := 0; bilibili_count := 0;
            rthk_count := 0; other_count := 0 |}).

(** *** main *)

Definition main (m : machine World) : ending * machine World :=
  let m := {| world := mkdir OUTPUT_DIR (world m); console := console m;
              agent_calls := agent_calls m; dispatched := dispatched m |} in
  if negb (path_exists EXCEL_FILE (world m)) then (Exit 1, m)
  else
    match load_rows EXCEL_FILE (world m) with
    | None => (Uncaught, m)
    | Some rows =>
        match read_excel_videos rows with
        | None => (Uncaught, m)
        | Some ([], _) => (Exit 1, m)
        | Some (videos, _) =>
            let '(t, m) := main_loop (List.map fst videos) m in
            (Summary t (Py.len videos), m)
        end
    end.

End Sheet.

End Excel.

(** ** vtt_to_txt.py *)

Module Vtt.

Definition encodings : list Py.str :=
  List.map Py.lit ["utf-8"; "utf-8-sig"; "gbk"; "gb2312"; "latin1"]%string.

Section Functions.
Context `{RT : Runtime} {World : Type} `{AG : !Agent World}.

(** The loop over the encodings: the first that decodes the file. *)
Fixpoint read_content (vtt_path : Py.str) (encodings : list Py.str)
    (w : World) : option Py.str :=
  match encodings with
  | [] => None
  | encoding :: rest =>
      match read_text vtt_path encoding w with
      | Some content => Some content
      | None => read_content vtt_path rest w
      end
  end.

(** [line.isdigit()] *)
Definition str_isdigit (line : Py.str) : bool :=
  match line with
  | [] => false
  | _ => forallb isdigit line
  end.

(** The loop over the lines. *)
Fixpoint collect (lines : list Py.str) (text_lines : list Py.str)
  : list Py.str :=
  match lines with
  | [] => text_lines
  | line :: rest =>
      let line := Py.strip line in
      if bool_decide (line = [])
         || bool_decide (line = Py.lit "WEBVTT")
         || Py.contains (Py.lit "-->") line
      then collect rest text_lines
      else if str_isdigit line then collect rest text_lines
      else collect rest (text_lines ++ [line])
  end.

Definition vtt_to_text (vtt_path : Py.str) (w : World) : Py.str :=
  match read_content vtt_path encodings w with
  | None => []
  | Some content =>
      let lines := Py.splitlines content in
      Py.join [10%N] (collect lines [])
  end.

End Functions.

End Vtt.

(** ** A concrete runtime and world

    An instance of the two interfaces on which the definitions above can
    be run: ASCII case folding and digits (what Python does on ASCII
    text), the interpreter's default digit limit, a line format standing
    for the agent's JSON, and a world made of the files present and of the
    replies the agent will give. *)

Module Sample.

Definition ascii_lower (s : Py.str) : Py.str :=
  List.map
    (fun c => if ((65 <=? c) && (c <=? 90))%N then (c + 32)%N else c) s.

Definition ascii_decimal (c : N) : option N :=
  if ((48 <=? c) && (c <=? 57))%N then Some (c - 48)%N else None.

Definition ascii_isdigit (c : N) : bool :=
  ((48 <=? c) && (c <=? 57))%N.

Definition int_of_ascii (s : Py.str) : option Z :=
  match s with
  | [] => None
  | _ =>
      if forallb ascii_isdigit s
      then Some (fold_left (fun acc c => acc * 10 + Z.of_N (c - 48)) s 0)
      else None
  end.

(** A line [idDATE] stands for the object of id [id] (three code points)
    uploaded on [DATE]; a line starting with [!] does not decode, one
    starting with [#] decodes to a number. *)
Definition decode_line (line : Py.str) : json_line :=
  match line with
  | 33%N :: _ => JSONDecodeError
  | 35%N :: _ => JsonNotObject
  | _ =>
      JsonObject
        {| vi_id := take 3 line;
           vi_title := Some (Py.lit "Hong Kong " ++ line);
           vi_duration := Some 600;
           vi_uploader := Some [];
           vi_upload_date := drop 3 line;
           vi_view_count := None |}
  end.

Definition reformat_date (s : Py.str) : option Py.str :=
  if (length s =? 8)%nat && forallb ascii_isdigit s
  then Some (take 4 s ++ Py.lit "-" ++ take 2 (drop 4 s)
             ++ Py.lit "-" ++ drop 6 s)
  else None.

Definition runtime : Runtime :=
  {| lower := ascii_lower;
     decimal := ascii_decimal;
     isdigit := ascii_isdigit;
     int_max_str_digits := 4300;
     int_of_text := int_of_ascii;
     json_loads := decode_line;
     reformat_upload_date := reformat_date |}.

Record world := {
  files : list Py.str;
  replies : list run_result;
  texts : list (Py.str * Py.str * Py.str);
}.

(** The agent gives its replies in turn and creates no file; a text is
    read under the encoding it is stored with. *)
Definition agent : Agent world :=
  {| subprocess_run _ _ w :=
       match replies w with
       | [] => (OtherException, w)
       | r :: rs =>
           (r, {| files := files w; replies := rs; texts := texts w |})
       end;
     path_exists path w := bool_decide (path ∈ files w);
     mkdir _ w := w;
     read_text path encoding w :=
       match List.find (fun t => bool_decide (t.1 = (path, encoding)))
               (texts w) with
       | Some t => Some t.2
       | None => None
       end |}.

(** *** Inputs *)

Definition text (lines : list string) : Py.str :=
  Py.join [10%N] (List.map Py.lit lines).

Definition known_stems : list Py.str :=
  [Py.lit "Hong Kong Hidden Markets Tour Full Episode 2024";
   Py.lit "Hong Kong Transit"].

(** A downloader with two known titles. *)
Definition downloader : Batch.YouTubeDocumentaryDownloader :=
  Batch.__init__ (RT := runtime) 50 known_stems.

(** The filter configuration of the script with every list reversed. *)
Definition reversed_globals : Batch.config :=
  {| Batch.TITLE_MUST_CONTAIN :=
       rev (Batch.TITLE_MUST_CONTAIN Batch.module_globals);
     Batch.TITLE_EXCLUDE_KEYWORDS :=
       rev (Batch.TITLE_EXCLUDE_KEYWORDS Batch.module_globals);
     Batch.POLITICAL_KEYWORDS :=
       rev (Batch.POLITICAL_KEYWORDS Batch.module_globals);
     Batch.MIN_DURATION_SECONDS :=
       Batch.MIN_DURATION_SECONDS Batch.module_globals |}.

(** A hit whose uploader, not its title, holds an excluded term. *)
Definition harbour_walk : Batch.video_dict :=
  {| Batch.id := Py.lit "v01";
     Batch.title := Some (Py.lit "Hong Kong harbour walk");
     Batch.url := Py.lit "https://www.youtube.com/watch?v=v01";
     Batch.duration := Some 600;
     Batch.uploader := Some (Py.lit "Cage Films");
     Batch.upload_time := Py.lit "2020-01-01";
     Batch.views := 10 |}.

(** A hit whose title holds a must-contain term and an excluded one. *)
Definition apartment_walk : Batch.video_dict :=
  {| Batch.id := Py.lit "v02";
     Batch.title := Some (Py.lit "Hong Kong Apartment walk");
     Batch.url := Py.lit "https://www.youtube.com/watch?v=v02";
     Batch.duration := Some 600;
     Batch.uploader := Some (Py.lit "Walker");
     Batch.upload_time := Py.lit "2021-01-01";
     Batch.views := 10 |}.

(** The first search returns five lines that decode, one of them twice
    the same id; the second search times out. *)
Definition search_world : world :=
  {| files := [];
     replies :=
       [Completed 0
          (text ["aaa20210501"; "bbb"; "!bad"; ""; "ccc20190202";
                 "aaa20200101"; "fff"; ""]%string) [];
        TimeoutExpired];
     texts := [] |}.

(** Video 005 is there already; the agent reports 2150 seconds, then
    downloads one segment and fails on the others. *)
Definition excel_world : world :=
  {| files := [Py.lit "out/005.mp4"; Excel.OUTPUT_DIR ++ Py.lit "/005.mp4"];
     replies :=
       [Completed 0 (Py.lit "2150") [];
        Completed 0 [] [];
        Completed 1 [] (Py.lit "ERROR: Private video");
        TimeoutExpired];
     texts := [] |}.

(** The agent reports 2150 seconds and fails on every segment. *)
Definition failing_world : world :=
  {| files := [];
     replies := [Completed 0 (Py.lit "2150") []; Completed 1 [] []];
     texts := [] |}.

Definition machine_of (w : world) : Excel.machine world :=
  {| Excel.world := w; Excel.console := [];
     Excel.agent_calls := []; Excel.dispatched := [] |}.

Definition youtube_url : Py.str :=
  Py.lit "https://youtube.com/watch?v=abcdefghijk".

Definition rthk_url : Py.str := Py.lit "https://www.rthk.hk/tv/programme".

Definition captions : Py.str :=
  text ["WEBVTT"; ""; "1"; "00:00:01.000 --> 00:00:02.000";
        " Hello there "; "2"; "00:00:02.000 --> 00:00:03.000";
        "world 12"]%string.

(** A caption file that decodes as gbk only. *)
Definition caption_world : world :=
  {| files := []; replies := [];
     texts := [(Py.lit "a.vtt", Py.lit "gbk", captions)] |}.

(** The text extracted from that file, stored as utf-8. *)
Definition text_world : world :=
  {| files := []; replies := [];
     texts :=
       [(Py.lit "a.txt", Py.lit "utf-8",
         Vtt.vtt_to_text (RT := runtime) (AG := agent) (Py.lit "a.vtt")
           caption_world)] |}.

Definition empty_world : world :=
  {| files := []; replies := []; texts := [] |}.

(** *** The libraries *)

Definition ascii_isalnum (c : N) : bool :=
  ((48 <=? c) && (c <=? 57) || (65 <=? c) && (c <=? 90)
   || (97 <=? c) && (c <=? 122))%N.

(** A stopped clock, paths joined with [/], and tables whose writing
    creates their file. *)
Definition library : Batch.Library world :=
  {| Batch.isalnum := ascii_isalnum;
     Batch.strftime_now format _ :=
       if bool_decide (format = Py.lit "%Y%m%d_%H%M%S")
       then Py.lit "20240101_000000"
       else Py.lit "2024-01-01 00:00:00";
     Batch.joinpath directory name := directory ++ Py.lit "/" ++ name;
     Batch.write_table path _ w :=
       {| files := path :: files w; replies := replies w;
          texts := texts w |} |}.

(** Four rows of a sheet: a numbered YouTube video, a row without a
    link, a Bilibili video without number and title, and a YouTube
    playlist. *)
Definition sheet_rows : list (list Excel.cell) :=
  [[Excel.CInt 7; Excel.CStr (Py.lit " Harbour "); Excel.CNone; Excel.CNone;
    Excel.CNone; Excel.CNone;
    Excel.CStr (Py.lit "https://www.youtube.com/watch?v=abcdefghijk")];
   [Excel.CInt 8; Excel.CStr (Py.lit "No link"); Excel.CNone; Excel.CNone;
    Excel.CNone; Excel.CNone; Excel.CNone];
   [Excel.CNone; Excel.CNone; Excel.CNone; Excel.CNone;
    Excel.CNone; Excel.CNone;
    Excel.CStr (Py.lit "https://www.bilibili.com/video/BV1")];
   [Excel.CInt 9; Excel.CStr (Py.lit "All of them"); Excel.CNone;
    Excel.CNone; Excel.CNone; Excel.CNone;
    Excel.CStr
      (Py.lit "https://www.youtube.com/watch?v=abcdefghijk&list=PL1")]].

(** Every workbook that is there holds these rows. *)
Definition spreadsheet : Excel.Spreadsheet world :=
  {| Excel.load_rows path w :=
       if bool_decide (path ∈ files w) then Some sheet_rows else None |}.

End Sample.

(** ** Vocabulary of the specification *)

Section Vocabulary.
Context `{RT : Runtime}.

(** The number a list of ASCII digits denotes. *)
Definition ascii_number (ds : Py.str) : N :=
  fold_left (fun acc c => acc * 10 + (c - 48))%N ds 0%N.

(** [kw] occurs in [text], case-insensitively: the lowered keyword is a
    contiguous part of the lowered text. *)
Definition occurs_in (kw text : Py.str) : Prop :=
  ∃ before after, lower text = before ++ lower kw ++ after.

(** Normalization of a title: lowercase, then trim. *)
Definition normalize (title : Py.str) : Py.str := Py.strip (lower title).

(** Two strings share at least [n] distinct white-space separated
    words. *)
Definition share_words (n : nat) (a b : Py.str) : Prop :=
  ∃ ws : list Py.str,
    NoDup ws ∧ length ws = n
    ∧ ∀ w, w ∈ ws → w ∈ Py.split a ∧ w ∈ Py.split b.

(** The outcome of filtering one search hit.  [NotText]: the title, or
    the uploader when the filter comes to read it, is not a string. *)
Inductive verdict :=
| Accepted
| Duplicate
| SensitiveTerm
| ExcludedTerm
| TitleMismatch
| TooShort
| NotText.

Global Instance verdict_eq_dec : EqDecision verdict.
Proof. solve_decision. Defined.

(** The checks in the order the filter applies them: duplicate, then
    sensitive term in the title or the uploader, then excluded term in
    the title, then must-contain term in the title, then the minimum
    duration. *)
Definition first_failing_check (G : Batch.config)
    (self : Batch.YouTubeDocumentaryDownloader) (v : Batch.video_dict)
  : verdict :=
  match Batch.title v with
  | None => NotText
  | Some title =>
      if Batch._is_duplicate self title then Duplicate
      else if Batch._contains_keyword title (Batch.POLITICAL_KEYWORDS G)
      then SensitiveTerm
      else
        match Batch.uploader v with
        | None => NotText
        | Some uploader =>
            if Batch._contains_keyword uploader (Batch.POLITICAL_KEYWORDS G)
            then SensitiveTerm
            else if Batch._contains_keyword title
                      (Batch.TITLE_EXCLUDE_KEYWORDS G)
            then ExcludedTerm
            else if negb (Batch._contains_keyword title
                            (Batch.TITLE_MUST_CONTAIN G))
            then TitleMismatch
            else if default 0 (Batch.duration v)
                    <? Batch.MIN_DURATION_SECONDS G
            then TooShort
            else Accepted
        end
  end.

(** The order as the specification words it, for a hit of the given
    title, uploader and duration: the second check looks for sensitive
    and for excluded terms, in the title or the uploader, and the third
    one for a must-contain term in the title. *)
Definition first_failing_check_as_worded (G : Batch.config)
    (self : Batch.YouTubeDocumentaryDownloader)
    (title uploader : Py.str) (duration : option Z)
  : verdict :=
  let unwanted :=
    Batch.POLITICAL_KEYWORDS G ++ Batch.TITLE_EXCLUDE_KEYWORDS G in
  if Batch._is_duplicate self title then Duplicate
  else if Batch._contains_keyword title unwanted
          || Batch._contains_keyword uploader unwanted
  then SensitiveTerm
  else if negb (Batch._contains_keyword title (Batch.TITLE_MUST_CONTAIN G))
  then TitleMismatch
  else if default 0 duration <? Batch.MIN_DURATION_SECONDS G
  then TooShort
  else Accepted.

(** How many of [videos] get the verdict [r]. *)
Definition tally_of (check : Batch.video_dict -> verdict) (r : verdict)
    (videos : list Batch.video_dict) : Z :=
  Z.of_nat (length (List.filter (fun v => bool_decide (check v = r)) videos)).

(** Ascending order of upload times, as strings. *)
Definition upload_time_le (a b : Batch.video_dict) : Prop :=
  Py.lt (Batch.upload_time b) (Batch.upload_time a) = false.

(** Segment [i] of a video of [duration] seconds, saved under the number
    [video_id_str]. *)
Definition segment (video_id_str : Py.str) (duration : Z) (i : nat)
  : Excel.unit_of_work :=
  {| Excel.output_name :=
       video_id_str ++ Py.lit "_" ++ Py.format_0d 2 (Z.of_nat i + 1);
     Excel.start_time := Some (Z.of_nat i * Excel.SEGMENT_DURATION_SECONDS);
     Excel.end_time :=
       Some (Z.min ((Z.of_nat i + 1) * Excel.SEGMENT_DURATION_SECONDS)
               duration) |}.

(** The whole video as one unit. *)
Definition whole (video_id_str : Py.str) : Excel.unit_of_work :=
  {| Excel.output_name := video_id_str;
     Excel.start_time := None; Excel.end_time := None |}.

(** Second [t] lies in the unit [u]. *)
Definition covers (u : Excel.unit_of_work) (t : Z) : Prop :=
  ∃ a b, Excel.start_time u = Some a ∧ Excel.end_time u = Some b
         ∧ a <= t < b.

(** A float that is a number. *)
Definition is_finite (f : Py.float) : Prop :=
  match f with
  | S754_zero _ | S754_finite _ _ _ => True
  | S754_infinity _ | S754_nan => False
  end.

(** A run of digits [int] accepts. *)
Definition within_digit_limit (ds : Py.str) : Prop :=
  int_max_str_digits = 0%nat ∨ (length ds <= int_max_str_digits)%nat.

(** The number a run of decimal digits denotes. *)
Definition number (ds : Py.str) : Z :=
  fold_left (fun acc c => acc * 10 + Z.of_N (default 0%N (decimal c))) ds 0.

(** [rest] starts with [min], in any case. *)
Definition reads_min (rest : Py.str) : Prop :=
  ∃ m i n tail,
    rest = m :: i :: n :: tail
    ∧ m ∈ [109%N; 77%N] ∧ i ∈ [105%N; 73%N; 304%N; 305%N]
    ∧ n ∈ [110%N; 78%N].

(** [s] holds a match of the minutes pattern with the digits [g]: digits,
    white space, then [min]. *)
Definition matches_mins (s g : Py.str) : Prop :=
  ∃ before ws rest,
    s = before ++ g ++ ws ++ rest
    ∧ g ≠ [] ∧ Forall (fun c => is_Some (decimal c)) g
    ∧ Forall (fun c => Py.isspace c = true) ws
    ∧ reads_min rest.

(** [s] holds a match of the minutes:seconds pattern with the digits [g1]
    and [g2]. *)
Definition matches_time (s g1 g2 : Py.str) : Prop :=
  ∃ before after,
    s = before ++ g1 ++ [58%N] ++ g2 ++ after
    ∧ g1 ≠ [] ∧ Forall (fun c => is_Some (decimal c)) g1
    ∧ g2 ≠ [] ∧ Forall (fun c => is_Some (decimal c)) g2.

(** No decimal digit is white space, a colon, or the letter [m]. *)
Definition digits_apart : Prop :=
  ∀ c, is_Some (decimal c) →
       Py.isspace c = false ∧ c ≠ 58%N ∧ c ≠ 109%N ∧ c ≠ 77%N.

(** [tail] starts with a match of the minutes pattern with the digits
    [g]. *)
Definition mins_at (tail g : Py.str) : Prop :=
  ∃ ws rest,
    tail = g ++ ws ++ rest
    ∧ g ≠ [] ∧ Forall (fun c => is_Some (decimal c)) g
    ∧ Forall (fun c => Py.isspace c = true) ws
    ∧ reads_min rest.

(** The match of the minutes pattern that [re.search] returns has the
    digits [g]: no match starts further left, and no match at the same
    place has more digits. *)
Definition first_mins (s g : Py.str) : Prop :=
  ∃ before tail,
    s = before ++ tail ∧ mins_at tail g
    ∧ (∀ before' tail' g',
         s = before' ++ tail' → mins_at tail' g' →
         (length before <= length before')%nat)
    ∧ (∀ g', mins_at tail g' → (length g' <= length g)%nat).

(** [tail] starts with a match of the minutes:seconds pattern with the
    digits [g1] and [g2]. *)
Definition time_at (tail g1 g2 : Py.str) : Prop :=
  ∃ after,
    tail = g1 ++ [58%N] ++ g2 ++ after
    ∧ g1 ≠ [] ∧ Forall (fun c => is_Some (decimal c)) g1
    ∧ g2 ≠ [] ∧ Forall (fun c => is_Some (decimal c)) g2.

(** The match of the minutes:seconds pattern that [re.search] returns
    has the digits [g1] and [g2]: no match starts further left, and no
    match at the same place has more digits in its first group, or as
    many there and more in its second. *)
Definition first_time (s g1 g2 : Py.str) : Prop :=
  ∃ before tail,
    s = before ++ tail ∧ time_at tail g1 g2
    ∧ (∀ before' tail' h1 h2,
         s = before' ++ tail' → time_at tail' h1 h2 →
         (length before <= length before')%nat)
    ∧ (∀ h1 h2, time_at tail h1 h2 →
         (length h1 <= length g1)%nat
         ∧ (h1 = g1 → (length h2 <= length g2)%nat)).

(** A caption line the extractor drops, once stripped: empty, the
    header, a timestamp line, or digits only. *)
Definition dropped (line : Py.str) : Prop :=
  line = []
  ∨ line = Py.lit "WEBVTT"
  ∨ (∃ before after, line = before ++ Py.lit "-->" ++ after)
  ∨ (line ≠ [] ∧ Forall (fun c => isdigit c = true) line).

Definition kept (line : Py.str) : bool :=
  negb (bool_decide (line = [])
        || bool_decide (line = Py.lit "WEBVTT")
        || Py.contains (Py.lit "-->") line
        || Vtt.str_isdigit line).

(** The candidates and the set of seen ids go together: the ids of the
    candidates are pairwise distinct, they are the seen ids, and the link
    of a candidate is the watch page of its id. *)
Definition coherent (videos : list Batch.video_dict)
    (seen : gset Py.str) : Prop :=
  NoDup (Batch.id <$> videos)
  ∧ (∀ x, x ∈ seen ↔ x ∈ Batch.id <$> videos)
  ∧ Forall
      (fun v => Batch.url v
                = Py.lit "https://www.youtube.com/watch?v=" ++ Batch.id v)
      videos.

(** [g] is a run of eleven id characters that follows one of [markers]
    somewhere in [url]. *)
Definition id_after (markers : list Py.str) (url g : Py.str) : Prop :=
  ∃ before marker after,
    url = before ++ marker ++ g ++ after
    ∧ marker ∈ markers
    ∧ length g = 11%nat
    ∧ Forall (fun c => Excel.is_id_char c = true) g.

(** How many of [videos] are of platform [p]. *)
Definition count_of (p : Excel.platform)
    (videos : list (Excel.row * Excel.platform)) : Z :=
  Z.of_nat (length (List.filter (fun v => bool_decide (v.2 = p)) videos)).

(** The three counts of [main] together. *)
Definition total (t : Excel.tally) : Z :=
  Excel.success_count t + Excel.fail_count t + Excel.skip_count t.

(** What [read_excel_videos] keeps between two rows. *)
Definition sheet_invariant (videos : list (Excel.row * Excel.platform))
    (n : Excel.platform_counts) : Prop :=
  Forall
    (fun v => v.2 = Excel.get_url_platform (Excel.url v.1)
              ∧ (v.2 = Excel.youtube →
                 Py.contains (Py.lit "&list=") (Excel.url v.1) = false))
    videos
  ∧ Excel.youtube_count n = count_of Excel.youtube videos
  ∧ Excel.bilibili_count n = count_of Excel.bilibili videos
  ∧ Excel.rthk_count n = count_of Excel.rthk videos
  ∧ Excel.other_count n = count_of Excel.other videos.

(** A row that makes [read_excel_videos] raise. *)
Definition unreadable (cells : list Excel.cell) : Prop :=
  (length cells < 7)%nat
  ∨ ∃ c, cells !! 0%nat = Some c
         ∧ Excel.cell_truth c = true ∧ Excel.cell_int c = None.

(** The numbers are the positions, counted from 1. *)
Definition numbered (videos : list (Excel.row * Excel.platform)) : Prop :=
  ∀ (i : nat) v, videos !! i = Some v → Excel.no v.1 = Z.of_nat i + 1.

(** A code point [str.splitlines] does not break at. *)
Definition no_break (c : N) : Prop := Py.islinebreak c = false.

End Vocabulary.

(** * Properties *)

(** ** Built-ins *)

Section BuiltinFacts.

Lemma startswith_spec (p s : Py.str) :
  Py.startswith p s = true ↔ ∃ after, s = p ++ after.
Proof.
  revert s. induction p as [|a p IH]; intros s; simpl.
  - split; [intros _; by exists s | done].
  - destruct s as [|b s].
    + split; [done | intros [after H]; discriminate].
    + rewrite andb_true_iff, N.eqb_eq, IH. split.
      * intros [-> [after ->]]. by exists after.
      * intros [after H]. injection H as -> ->. eauto.
Qed.

Lemma contains_spec (needle hay : Py.str) :
  Py.contains needle hay = true
  ↔ ∃ before after, hay = before ++ needle ++ after.
Proof.
  induction hay as [|c hay IH]; simpl.
  - rewrite orb_false_r, startswith_spec. split.
    + intros [after H]. by exists [], after.
    + intros [before [after H]].
      destruct before; [by exists after | discriminate].
  - rewrite orb_true_iff, startswith_spec, IH. split.
    + intros [[after H] | [before [after H]]].
      * by exists [], after.
      * exists (c :: before), after. by rewrite H.
    + intros [[|c' before] [after H]].
      * left. by exists after.
      * right. injection H as -> ->. eauto.
Qed.

Lemma ascii_number_snoc ds c :
  ascii_number (ds ++ [c]) = (ascii_number ds * 10 + (c - 48))%N.
Proof. unfold ascii_number. by rewrite fold_left_app. Qed.

Lemma digits_aux_spec (fuel : nat) (n : N) (acc : Py.str) :
  (n < 10 ^ N.of_nat (S fuel))%N →
  ∃ ds, Py.digits_aux (S fuel) n acc = ds ++ acc
        ∧ ds ≠ [] ∧ ascii_number ds = n
        ∧ Forall (fun c => 48 <= c <= 57)%N ds.
Proof.
  revert n acc. induction fuel as [|fuel IH]; intros n acc Hn;
    pose proof (N.mod_lt n 10 ltac:(lia)) as Hmod;
    pose proof (N.div_mod n 10 ltac:(lia)) as Hdiv;
    cbn [Py.digits_aux];
    set (q := (n / 10)%N) in *; set (r := (n mod 10)%N) in *;
    clearbody q r; destruct (n <? 10)%N eqn:E.
  1, 3: apply N.ltb_lt in E; exists [(48 + r)%N];
    (split; [done |]); (split; [done |]); split;
    [unfold ascii_number; simpl; lia | repeat constructor; lia].
  - apply N.ltb_ge in E. simpl in Hn. lia.
  - apply N.ltb_ge in E.
    assert (Hn' : (q < 10 ^ N.of_nat (S fuel))%N).
    { rewrite (Nat2N.inj_succ (S fuel)), N.pow_succ_r' in Hn. lia. }
    destruct (IH q ((48 + r)%N :: acc) Hn')
      as (ds & Heq & _ & Hval & Hall).
    exists (ds ++ [(48 + r)%N]).
    cbn [Py.digits_aux] in Heq. rewrite Heq, <- app_assoc.
    split; [done |]. split; [by destruct ds |]. split.
    + rewrite ascii_number_snoc, Hval. lia.
    + apply Forall_app. split; [done |]. repeat constructor; lia.
Qed.

(** The fuel of [digits] is enough: the digits denote the number. *)
Lemma digits_spec (n : N) :
  ascii_number (Py.digits n) = n
  ∧ Py.digits n ≠ [] ∧ Forall (fun c => 48 <= c <= 57)%N (Py.digits n).
Proof.
  unfold Py.digits.
  destruct (digits_aux_spec (N.to_nat (N.log2 n)) n [])
    as (ds & Heq & Hne & Hval & Hall).
  - rewrite Nat2N.inj_succ, N2Nat.id.
    destruct (decide (n = 0%N)) as [-> | Hpos]; [done |].
    pose proof (N.log2_spec n ltac:(lia)) as [_ Hlt].
    eapply N.lt_le_trans; [exact Hlt |].
    apply N.pow_le_mono_l. lia.
  - rewrite Heq, app_nil_r. done.
Qed.

End BuiltinFacts.

(** ** Keyword filter *)

Section KeywordFilter.
Context `{RT : Runtime}.

Lemma _contains_keyword_loop_spec text_lower keywords :
  Batch._contains_keyword_loop text_lower keywords = true
  ↔ ∃ kw, kw ∈ keywords ∧ Py.contains (lower kw) text_lower = true.
Proof.
  induction keywords as [|kw rest IH]; simpl.
  - split; [done | intros [kw [H _]]; by apply elem_of_nil in H].
  - destruct (Py.contains (lower kw) text_lower) eqn:E.
    + split; [intros _ | done]. exists kw. split; [left | done].
    + rewrite IH. split.
      * intros [kw' [Hin H]]. exists kw'. split; [by right | done].
      * intros [kw' [Hin H]]. apply elem_of_cons in Hin as [-> | Hin];
          [congruence | eauto].
Qed.

Lemma _contains_keyword_spec text keywords :
  Batch._contains_keyword text keywords = true
  ↔ ∃ kw, kw ∈ keywords ∧ occurs_in kw text.
Proof.
  unfold Batch._contains_keyword. rewrite _contains_keyword_loop_spec.
  unfold occurs_in. by setoid_rewrite contains_spec.
Qed.

Lemma _contains_keyword_false text keywords :
  Batch._contains_keyword text keywords = false
  ↔ ∀ kw, kw ∈ keywords → ¬ occurs_in kw text.
Proof.
  rewrite <- not_true_iff_false, _contains_keyword_spec. split.
  - intros Hno kw Hin Hocc. apply Hno. by exists kw.
  - intros Hno (kw & Hin & Hocc). by apply (Hno kw).
Qed.

Lemma _contains_keyword_perm text keywords keywords' :
  keywords ≡ₚ keywords' →
  Batch._contains_keyword text keywords
  = Batch._contains_keyword text keywords'.
Proof.
  intros HP. apply eq_true_iff_eq. rewrite !_contains_keyword_spec.
  by setoid_rewrite HP.
Qed.

Lemma _contains_keyword_app text ks ks' :
  Batch._contains_keyword text (ks ++ ks')
  = Batch._contains_keyword text ks || Batch._contains_keyword text ks'.
Proof.
  apply eq_true_iff_eq.
  rewrite orb_true_iff, !_contains_keyword_spec.
  split.
  - intros (kw & Hin & Hocc). apply elem_of_app in Hin as [Hin | Hin];
      [left | right]; by exists kw.
  - intros [(kw & Hin & Hocc) | (kw & Hin & Hocc)]; exists kw;
      (split; [apply elem_of_app; auto | done]).
Qed.

Lemma _is_excluded_app G title :
  Batch._is_excluded G title
  = Batch._contains_keyword title
      (Batch.TITLE_EXCLUDE_KEYWORDS G ++ Batch.POLITICAL_KEYWORDS G).
Proof.
  rewrite _contains_keyword_app. unfold Batch._is_excluded.
  by repeat destruct (Batch._contains_keyword _ _).
Qed.

Lemma _is_valid_title_eq G title :
  Batch._is_valid_title G title
  = negb (Batch._contains_keyword title
            (Batch.TITLE_EXCLUDE_KEYWORDS G ++ Batch.POLITICAL_KEYWORDS G))
    && Batch._contains_keyword title (Batch.TITLE_MUST_CONTAIN G).
Proof.
  unfold Batch._is_valid_title. rewrite _is_excluded_app.
  by repeat destruct (Batch._contains_keyword _ _).
Qed.

(** C1.  A title is accepted exactly when some must-contain term occurs
    in it and no excluded or sensitive term does, where a term occurs when
    its lowered form is a contiguous part of the lowered title; and the
    result does not change when the three term lists are permuted. *)
Theorem valid_title_iff (G : Batch.config) (title : Py.str) :
  (Batch._is_valid_title G title = true
   ↔ (∃ kw, kw ∈ Batch.TITLE_MUST_CONTAIN G ∧ occurs_in kw title)
     ∧ (∀ kw, kw ∈ Batch.TITLE_EXCLUDE_KEYWORDS G
                   ++ Batch.POLITICAL_KEYWORDS G →
              ¬ occurs_in kw title))
  ∧ (∀ G' : Batch.config,
       Batch.TITLE_MUST_CONTAIN G ≡ₚ Batch.TITLE_MUST_CONTAIN G' →
       Batch.TITLE_EXCLUDE_KEYWORDS G ≡ₚ Batch.TITLE_EXCLUDE_KEYWORDS G' →
       Batch.POLITICAL_KEYWORDS G ≡ₚ Batch.POLITICAL_KEYWORDS G' →
       Batch._is_valid_title G title = Batch._is_valid_title G' title).
Proof.
  split.
  - rewrite _is_valid_title_eq, andb_true_iff, negb_true_iff.
    rewrite _contains_keyword_false, _contains_keyword_spec. tauto.
  - intros G' Hm He Hp. rewrite !_is_valid_title_eq.
    rewrite (_contains_keyword_perm title _ _ Hm).
    f_equal. f_equal. apply _contains_keyword_perm. by rewrite He, Hp.
Qed.

End KeywordFilter.

(** ** Duplicate detector *)

Section DuplicateDetector.
Context `{RT : Runtime}.

Lemma share_words_size (n : nat) (a b : Py.str) :
  share_words n a b ↔ (n <= size (Batch.common_words a b))%nat.
Proof.
  unfold share_words, Batch.common_words. split.
  - intros (ws & Hnd & <- & Hin).
    rewrite <- (size_list_to_set (C:=gset Py.str) ws Hnd).
    apply subseteq_size. intros w Hw.
    apply elem_of_list_to_set, Hin in Hw as [? ?].
    apply elem_of_intersection. by rewrite !elem_of_list_to_set.
  - intros Hn.
    set (X := list_to_set (Py.split a) ∩ list_to_set (Py.split b)) in *.
    exists (take n (elements X)). split; [|split].
    + eapply sublist_NoDup; [apply (NoDup_elements X) | apply sublist_take].
    + rewrite length_take. unfold size, set_size in Hn. simpl in Hn. lia.
    + intros w Hw. apply (subseteq_take n (elements X)), elem_of_elements in Hw.
      apply elem_of_intersection in Hw.
      by rewrite !elem_of_list_to_set in Hw.
Qed.

Lemma _is_duplicate_loop_spec normalized_title titles :
  Batch._is_duplicate_loop normalized_title titles = true
  ↔ ∃ downloaded, downloaded ∈ titles
      ∧ 20 < Py.len normalized_title ∧ 20 < Py.len downloaded
      ∧ share_words 3 normalized_title downloaded.
Proof.
  induction titles as [|d rest IH]; simpl.
  - split; [done | intros (? & H & _); by apply elem_of_nil in H].
  - assert (Hd : (20 <? Py.len normalized_title) && (20 <? Py.len d)
                 && (3 <=? Z.of_nat
                             (size (Batch.common_words normalized_title d)))
                 = true
                 ↔ 20 < Py.len normalized_title ∧ 20 < Py.len d
                   ∧ share_words 3 normalized_title d).
    { rewrite !andb_true_iff, !Z.ltb_lt, Z.leb_le, share_words_size.
      split; intros [[? ?] ?] || intros (? & ? & ?); repeat split; auto; lia. }
    destruct ((20 <? Py.len normalized_title) && (20 <? Py.len d)) eqn:E1;
      [destruct (3 <=? Z.of_nat (size (Batch.common_words normalized_title d)))
         eqn:E2 |]; simpl in Hd.
    + split; [intros _ | done]. exists d. split; [left | by apply Hd].
    + rewrite IH. split.
      * intros (x & Hx & H). exists x. split; [by right | done].
      * intros (x & Hx & H). apply elem_of_cons in Hx as [-> | Hx]; [|eauto].
        apply Hd in H. discriminate.
    + rewrite IH. split.
      * intros (x & Hx & H). exists x. split; [by right | done].
      * intros (x & Hx & H). apply elem_of_cons in Hx as [-> | Hx]; [|eauto].
        apply Hd in H. discriminate.
Qed.

(** C5.  With the known titles taken from the file stems, a title is
    flagged duplicate exactly when for some known title both normalized
    strings are longer than 20 characters and share at least 3 distinct
    words; a title of 20 or fewer normalized characters is never
    flagged. *)
Theorem is_duplicate_iff (max_downloads : Z) (stems : list Py.str)
    (title : Py.str) :
  let self := Batch.__init__ max_downloads stems in
  (Batch._is_duplicate self title = true
   ↔ ∃ known, known ∈ stems
       ∧ 20 < Py.len (normalize title) ∧ 20 < Py.len (normalize known)
       ∧ share_words 3 (normalize title) (normalize known))
  ∧ (Py.len (normalize title) <= 20 →
     Batch._is_duplicate self title = false).
Proof.
  intros self.
  assert (Hiff : Batch._is_duplicate self title = true
   ↔ ∃ known, known ∈ stems
       ∧ 20 < Py.len (normalize title) ∧ 20 < Py.len (normalize known)
       ∧ share_words 3 (normalize title) (normalize known)).
  { unfold Batch._is_duplicate. rewrite _is_duplicate_loop_spec.
    fold (normalize title). split.
    - intros (d & Hd & H). apply elem_of_elements in Hd. simpl in Hd.
      apply elem_of_list_to_set, list_elem_of_In, in_map_iff in Hd
        as (known & <- & Hk).
      exists known. split; [by apply list_elem_of_In | done].
    - intros (known & Hk & H). exists (normalize known). split; [|done].
      apply elem_of_elements. simpl.
      apply elem_of_list_to_set, list_elem_of_In, in_map_iff.
      exists known. split; [done | by apply list_elem_of_In]. }
  split; [done |].
  intros Hshort. apply not_true_iff_false. rewrite Hiff.
  intros (? & _ & ? & _). lia.
Qed.

End DuplicateDetector.

(** ** Filter pipeline *)

Section FilterPipeline.
Context `{RT : Runtime} (G : Batch.config).
Context (self : Batch.YouTubeDocumentaryDownloader).

Let check := first_failing_check G self.

(** One round of the loop, read off the verdict. *)
Lemma _filter_videos_body_verdict filtered n video :
  Batch._filter_videos_body G self (filtered, n) video
  = match check video with
    | Accepted => Py.Ok (filtered ++ [video], n)
    | Duplicate =>
        Py.Ok
          (filtered,
           {| Batch.excluded_by_title := Batch.excluded_by_title n;
              Batch.excluded_by_duration := Batch.excluded_by_duration n;
              Batch.excluded_by_political := Batch.excluded_by_political n;
              Batch.excluded_by_duplicate :=
                Batch.excluded_by_duplicate n + 1;
              Batch.excluded_by_filter := Batch.excluded_by_filter n |})
    | SensitiveTerm =>
        Py.Ok
          (filtered,
           {| Batch.excluded_by_title := Batch.excluded_by_title n;
              Batch.excluded_by_duration := Batch.excluded_by_duration n;
              Batch.excluded_by_political :=
                Batch.excluded_by_political n + 1;
              Batch.excluded_by_duplicate := Batch.excluded_by_duplicate n;
              Batch.excluded_by_filter := Batch.excluded_by_filter n |})
    | ExcludedTerm | TitleMismatch =>
        Py.Ok
          (filtered,
           {| Batch.excluded_by_title := Batch.excluded_by_title n + 1;
              Batch.excluded_by_duration := Batch.excluded_by_duration n;
              Batch.excluded_by_political := Batch.excluded_by_political n;
              Batch.excluded_by_duplicate := Batch.excluded_by_duplicate n;
              Batch.excluded_by_filter := Batch.excluded_by_filter n |})
    | TooShort =>
        Py.Ok
          (filtered,
           {| Batch.excluded_by_title := Batch.excluded_by_title n;
              Batch.excluded_by_duration := Batch.excluded_by_duration n + 1;
              Batch.excluded_by_political := Batch.excluded_by_political n;
              Batch.excluded_by_duplicate := Batch.excluded_by_duplicate n;
              Batch.excluded_by_filter := Batch.excluded_by_filter n |})
    | NotText => Py.Raise Py.AttributeError
    end.
Proof.
  unfold check, first_failing_check, Batch._filter_videos_body.
  destruct (Batch.title video) as [title |]; [|done].
  destruct (Batch._is_duplicate self title); [done |].
  unfold Batch._is_valid_title, Batch._is_excluded.
  destruct (Batch._contains_keyword title (Batch.POLITICAL_KEYWORDS G))
    eqn:Epol; [done |].
  destruct (Batch.uploader video) as [uploader |]; [|done]. cbn [Py.bind].
  destruct (Batch._contains_keyword uploader _); [done |].
  destruct (Batch._contains_keyword title (Batch.TITLE_EXCLUDE_KEYWORDS G));
    [done |].
  destruct (Batch._contains_keyword title (Batch.TITLE_MUST_CONTAIN G));
    [|done].
  cbn [negb]. by destruct (_ <? _).
Qed.

Lemma tally_of_cons r video videos :
  tally_of check r (video :: videos)
  = (if bool_decide (check video = r) then 1 else 0) + tally_of check r videos.
Proof.
  unfold tally_of. simpl. destruct (bool_decide _); simpl; lia.
Qed.

Lemma tally_of_nonneg r videos : 0 <= tally_of check r videos.
Proof. unfold tally_of. lia. Qed.

(** Once raised, an exception stays. *)
Lemma _filter_videos_raised videos e :
  fold_left
    (fun st video =>
       Py.bind st (fun st => Batch._filter_videos_body G self st video))
    videos (Py.Raise e)
  = Py.Raise e.
Proof. induction videos as [|video videos IH]; [done | exact IH]. Qed.

Lemma _filter_videos_loop videos filtered n :
  match
    fold_left
      (fun st video =>
         Py.bind st (fun st => Batch._filter_videos_body G self st video))
      videos (Py.Ok (filtered, n))
  with
  | Py.Ok (filtered', n') =>
      Forall (fun v => check v ≠ NotText) videos
      ∧ filtered'
        = filtered
          ++ List.filter (fun v => bool_decide (check v = Accepted)) videos
      ∧ Batch.excluded_by_title n'
        = Batch.excluded_by_title n + tally_of check TitleMismatch videos
          + tally_of check ExcludedTerm videos
      ∧ Batch.excluded_by_duration n'
        = Batch.excluded_by_duration n + tally_of check TooShort videos
      ∧ Batch.excluded_by_political n'
        = Batch.excluded_by_political n + tally_of check SensitiveTerm videos
      ∧ Batch.excluded_by_duplicate n'
        = Batch.excluded_by_duplicate n + tally_of check Duplicate videos
      ∧ Batch.excluded_by_filter n' = Batch.excluded_by_filter n
  | Py.Raise e =>
      e = Py.AttributeError ∧ ∃ video, video ∈ videos ∧ check video = NotText
  end.
Proof.
  revert filtered n. induction videos as [|video videos IH]; intros filtered n.
  - simpl. rewrite app_nil_r. unfold tally_of. simpl.
    repeat split; first [done | lia].
  - cbn [fold_left Py.bind List.filter].
    rewrite _filter_videos_body_verdict, !tally_of_cons.
    destruct (check video) eqn:E;
      try (match goal with
           | |- context [fold_left _ videos (Py.Ok (?f, ?m))] =>
               specialize (IH f m)
           end;
           destruct (fold_left _ videos _) as [[filtered' n'] | e];
           [ destruct IH as (Hall & -> & -> & -> & -> & -> & ->);
             cbn [Batch.excluded_by_title Batch.excluded_by_duration
                  Batch.excluded_by_political Batch.excluded_by_duplicate
                  Batch.excluded_by_filter bool_decide decide_rel];
             repeat split;
               first [ constructor; [by rewrite E | done]
                     | by rewrite <- app_assoc
                     | simpl; lia ]
           | destruct IH as (-> & v & Hv & Hn); split; [done |];
             exists v; split; [by right | done] ]).
    rewrite _filter_videos_raised. split; [done |].
    exists video. split; [by left | done].
Qed.

Lemma tally_of_total videos :
  tally_of check Accepted videos + tally_of check Duplicate videos
  + tally_of check SensitiveTerm videos + tally_of check ExcludedTerm videos
  + tally_of check TitleMismatch videos + tally_of check TooShort videos
  + tally_of check NotText videos
  = Py.len videos.
Proof.
  induction videos as [|video videos IH].
  - done.
  - rewrite !tally_of_cons. unfold Py.len in *. simpl length.
    destruct (check video); simpl; lia.
Qed.

Lemma tally_of_none r videos :
  Forall (fun v => check v ≠ r) videos → tally_of check r videos = 0.
Proof.
  induction 1 as [|video videos Hv Hall IH]; [done |].
  rewrite tally_of_cons, IH. by rewrite bool_decide_eq_false_2.
Qed.

(** C3, amended.  When the filter returns, it has kept, in their order,
    the videos that pass the checks taken in the order duplicate,
    sensitive term in the title or the uploader, excluded term in the
    title, must-contain term in the title, minimum duration; every other
    video has added one to exactly one counter: the duplicate, the
    sensitive-term or the duration counter when that check is its first
    failing one, the title counter when its title lacks a must-contain
    term, and one of the title counter and the filter-term counter when
    its title holds an excluded term.  The filter returns when the title
    and the uploader of every video are strings. *)
Theorem filter_pipeline_order (videos : list Batch.video_dict) :
  let tally := tally_of (first_failing_check G self) in
  match Batch._filter_videos G self videos with
  | Py.Ok (filtered, n) =>
      filtered
      = List.filter
          (fun v => bool_decide (first_failing_check G self v = Accepted))
          videos
      ∧ Batch.excluded_by_duplicate n = tally Duplicate videos
      ∧ Batch.excluded_by_political n = tally SensitiveTerm videos
      ∧ Batch.excluded_by_duration n = tally TooShort videos
      ∧ tally TitleMismatch videos <= Batch.excluded_by_title n
      ∧ 0 <= Batch.excluded_by_filter n
      ∧ Batch.excluded_by_title n + Batch.excluded_by_filter n
        = tally TitleMismatch videos + tally ExcludedTerm videos
      ∧ Batch.excluded_by_duplicate n + Batch.excluded_by_political n
        + Batch.excluded_by_title n + Batch.excluded_by_filter n
        + Batch.excluded_by_duration n
        = Py.len videos - Py.len filtered
  | Py.Raise _ =>
      ∃ video, video ∈ videos
               ∧ first_failing_check G self video = NotText
  end
  ∧ Batch.MIN_DURATION_SECONDS Batch.module_globals = 240.
Proof.
  intros tally. split; [|done].
  unfold Batch._filter_videos.
  pose proof (_filter_videos_loop videos [] Batch.no_counts) as H.
  destruct (fold_left _ videos _) as [[filtered n] | e].
  - destruct H as (Hall & -> & Ht & Hd & Hp & Hdup & Hf).
    simpl in Ht, Hd, Hp, Hdup, Hf.
    pose proof (tally_of_total videos) as Htot.
    rewrite (tally_of_none NotText videos Hall) in Htot.
    pose proof (tally_of_nonneg ExcludedTerm videos).
    pose proof (tally_of_nonneg TitleMismatch videos).
    fold check. subst tally. fold check.
    unfold tally_of at 1 in Htot. unfold Py.len at 2. simpl app.
    repeat split; first [done | lia].
  - destruct H as (_ & video & Hin & Hn). by exists video.
Qed.

End FilterPipeline.

(** ** Ranking and search *)

Section StringOrder.

Lemma lt_irrefl (a : Py.str) : Py.lt a a = false.
Proof.
  induction a as [|x a IH]; simpl; [done |].
  by rewrite N.ltb_irrefl, N.eqb_refl, IH.
Qed.

Lemma lt_asym (a b : Py.str) : Py.lt a b = true → Py.lt b a = false.
Proof.
  revert b. induction a as [|x a IH]; intros [|y b]; simpl; try done.
  rewrite orb_true_iff, andb_true_iff, N.ltb_lt, N.eqb_eq.
  intros [Hlt | [-> Hlt]].
  - apply orb_false_iff. split; [apply N.ltb_ge; lia |].
    apply andb_false_iff. left. apply N.eqb_neq. lia.
  - by rewrite N.ltb_irrefl, N.eqb_refl, (IH b Hlt).
Qed.

Lemma lt_trans (a b c : Py.str) :
  Py.lt a b = true → Py.lt b c = true → Py.lt a c = true.
Proof.
  revert b c. induction a as [|x a IH]; intros [|y b] [|z c]; simpl; try done.
  rewrite !orb_true_iff, !andb_true_iff, !N.ltb_lt, !N.eqb_eq.
  intros [H1 | [-> H1]] [H2 | [-> H2]]; try (left; lia).
  right. split; [done | by apply (IH b c)].
Qed.

Lemma lt_total (a b : Py.str) :
  Py.lt a b = false → Py.lt b a = false → a = b.
Proof.
  revert b. induction a as [|x a IH]; intros [|y b]; simpl; try done.
  rewrite !orb_false_iff, !andb_false_iff, !N.ltb_ge, !N.eqb_neq.
  intros [H1 [H1' | H1']] [H2 [H2' | H2']]; try lia.
  assert (x = y) as -> by lia. f_equal. by apply IH.
Qed.

Lemma lt_empty_l (a : Py.str) : Py.lt [] a = false → a = [].
Proof. by destruct a. Qed.

(** [b] is not before [a] and [c] not before [b]: then [c] is not
    before [a]. *)
Lemma not_lt_trans (a b c : Py.str) :
  Py.lt b a = false → Py.lt c b = false → Py.lt c a = false.
Proof.
  intros H1 H2. destruct (Py.lt c a) eqn:E; [|done].
  destruct (Py.lt a b) eqn:E'.
  - by rewrite (lt_trans c a b E E') in H2.
  - assert (a = b) as -> by by apply lt_total. congruence.
Qed.

End StringOrder.

Section StableSort.
Context {A : Type} (key : A → Py.str).

Let le (a b : A) : Prop := Py.lt (key b) (key a) = false.

Lemma insert_by_perm x l : Py.insert_by key x l ≡ₚ x :: l.
Proof.
  induction l as [|y l IH]; simpl; [done |].
  destruct (Py.lt (key y) (key x)); [|done].
  rewrite IH. apply Permutation_swap.
Qed.

Lemma sort_by_perm l : Py.sort_by key l ≡ₚ l.
Proof.
  induction l as [|x l IH]; simpl; [done |].
  by rewrite insert_by_perm, IH.
Qed.

Lemma insert_by_sorted x l : Sorted le l → Sorted le (Py.insert_by key x l).
Proof.
  induction 1 as [|y l Hs IH Hhd]; simpl.
  - by repeat constructor.
  - destruct (Py.lt (key y) (key x)) eqn:E.
    + constructor; [done |].
      destruct Hhd as [|z l Hz]; simpl.
      * constructor. by apply lt_asym.
      * destruct (Py.lt (key z) (key x)); constructor;
          [done | by apply lt_asym].
    + constructor; [by constructor | by constructor].
Qed.

Lemma sort_by_sorted l : Sorted le (Py.sort_by key l).
Proof.
  induction l as [|x l IH]; simpl; [constructor | by apply insert_by_sorted].
Qed.

Lemma le_trans : Transitive le.
Proof. intros a b c H1 H2. by apply (not_lt_trans _ (key b)). Qed.

Lemma sort_by_strongly_sorted l : StronglySorted le (Py.sort_by key l).
Proof.
  apply Sorted_StronglySorted; [apply le_trans | apply sort_by_sorted].
Qed.

(** Stability: elements of equal key keep their order. *)
Lemma insert_by_stable k x l :
  List.filter (fun a => bool_decide (key a = k)) (Py.insert_by key x l)
  = List.filter (fun a => bool_decide (key a = k)) (x :: l).
Proof.
  induction l as [|y l IH]; [done |].
  cbn [Py.insert_by]. destruct (Py.lt (key y) (key x)) eqn:E; [|done].
  cbn [List.filter] in *. rewrite IH.
  case_bool_decide as Hx; case_bool_decide as Hy; try done.
  rewrite Hx, Hy, lt_irrefl in E. done.
Qed.

Lemma sort_by_stable k l :
  List.filter (fun a => bool_decide (key a = k)) (Py.sort_by key l)
  = List.filter (fun a => bool_decide (key a = k)) l.
Proof.
  induction l as [|x l IH]; [done |].
  cbn [Py.sort_by]. rewrite insert_by_stable. simpl. by rewrite IH.
Qed.

(** In a sorted list the empty keys come first. *)
Lemma sorted_empty_first l i j a b :
  StronglySorted le l → (i < j)%nat →
  l !! i = Some a → l !! j = Some b → key b = [] → key a = [].
Proof.
  intros Hs. revert i j.
  induction Hs as [|x l Hs IH Hall]; intros i j Hij Hi Hj Hb.
  - done.
  - destruct j as [|j]; [lia |]. destruct i as [|i].
    + simpl in Hi, Hj. injection Hi as ->.
      rewrite List.Forall_forall in Hall.
      apply list_elem_of_lookup_2, list_elem_of_In, Hall in Hj.
      unfold le in Hj. rewrite Hb in Hj. by apply lt_empty_l.
    + simpl in Hi, Hj. apply (IH i j); [lia | done..].
Qed.

End StableSort.

Section Search.
Context `{RT : Runtime} {World : Type} `{AG : !Agent World}.

Lemma search_term_calls term (st : Batch.search_state World) :
  Batch.calls (Batch.search_term term st)
  = Batch.calls st ++ [Batch.search_cmd term].
Proof.
  unfold Batch.search_term.
  destruct (subprocess_run _ _ _) as [[rc out err| |] w']; simpl; try done.
  destruct (negb _); [done |]. by destruct (Batch.read_lines _ _ _).
Qed.

Lemma search_loop_stop n terms (st : Batch.search_state World) :
  n * 3 <= Py.len (Batch.all_videos st) → Batch.search_loop n terms st = st.
Proof.
  intros H. destruct terms; simpl; [done |].
  by apply Z.leb_le in H as ->.
Qed.

Lemma search_loop_app n terms1 terms2 (st : Batch.search_state World) :
  Batch.search_loop n (terms1 ++ terms2) st
  = Batch.search_loop n terms2 (Batch.search_loop n terms1 st).
Proof.
  revert st. induction terms1 as [|t terms1 IH]; intros st; simpl; [done |].
  destruct (n * 3 <=? Py.len (Batch.all_videos st)) eqn:E; [|apply IH].
  apply Z.leb_le in E. by rewrite search_loop_stop.
Qed.

Lemma search_loop_calls n terms (st : Batch.search_state World) :
  ∃ k : nat,
    (k <= length terms)%nat
    ∧ Batch.calls (Batch.search_loop n terms st)
      = Batch.calls st ++ List.map Batch.search_cmd (take k terms)
    ∧ (∀ j : nat, (j < k)%nat →
         Py.len (Batch.all_videos (Batch.search_loop n (take j terms) st))
         < n * 3)
    ∧ ((k < length terms)%nat →
         n * 3 <= Py.len (Batch.all_videos (Batch.search_loop n terms st))).
Proof.
  revert st. induction terms as [|t terms IH]; intros st.
  - exists 0%nat. simpl. rewrite app_nil_r. repeat split; intros; lia.
  - simpl. destruct (n * 3 <=? Py.len (Batch.all_videos st)) eqn:E.
    + exists 0%nat. simpl. rewrite app_nil_r.
      apply Z.leb_le in E. repeat split; intros; try done; lia.
    + apply Z.leb_gt in E.
      destruct (IH (Batch.search_term t st)) as (k & Hk & Hc & Hlt & Hge).
      exists (S k). repeat split.
      * lia.
      * rewrite Hc, search_term_calls. simpl. by rewrite <- app_assoc.
      * intros [|j] Hj; simpl; [done |].
        apply Z.leb_gt in E as ->. apply Hlt. lia.
      * intros Hk'. apply Hge. lia.
Qed.

(** C8.  The search commands issued are those of the first [k] search
    terms, in order; each was issued while fewer than three times the
    requested count of candidates had been gathered; the loop stops before
    the end of the list only with that bound reached; and once the bound
    is reached after [j] terms, the loop ends in the state it had then. *)
Theorem search_early_exit (G : Batch.config)
    (self : Batch.YouTubeDocumentaryDownloader)
    (keyword : Py.str) (max_results : option Z) (w : World) :
  let n := default (Batch.max_downloads self) max_results in
  let start := {| Batch.all_videos := []; Batch.seen_ids := ∅;
                  Batch.world := w; Batch.calls := [] |} in
  let gathered (j : nat) :=
    Py.len (Batch.all_videos
              (Batch.search_loop n (take j Batch.search_terms) start)) in
  let st := (Batch.search_videos G self keyword max_results w).2 in
  (∃ k : nat,
     (k <= length Batch.search_terms)%nat
     ∧ Batch.calls st
       = List.map Batch.search_cmd (take k Batch.search_terms)
     ∧ (∀ j : nat, (j < k)%nat → gathered j < n * 3)
     ∧ ((k < length Batch.search_terms)%nat
        → n * 3 <= Py.len (Batch.all_videos st)))
  ∧ (∀ j : nat, n * 3 <= gathered j →
       st = Batch.search_loop n (take j Batch.search_terms) start).
Proof.
  intros n start gathered st. split.
  - destruct (search_loop_calls n Batch.search_terms start)
      as (k & Hk & Hc & Hlt & Hge).
    exists k. repeat split; done.
  - intros j Hj. unfold st, Batch.search_videos. cbn [snd].
    fold n. fold start.
    rewrite <- (take_drop j Batch.search_terms) at 1.
    rewrite search_loop_app. by apply search_loop_stop.
Qed.

(** C6.  [search_videos] returns the first [max_results] elements of
    the filter survivors sorted by upload time: a permutation of the
    survivors, ascending in the string order, elements of equal upload
    time in their former order, those of empty upload time first; when
    the filter raises, so does [search_videos]; an upload date that
    cannot be reformatted gives the empty upload time. *)
Theorem search_videos_ranking (G : Batch.config)
    (self : Batch.YouTubeDocumentaryDownloader)
    (keyword : Py.str) (max_results : option Z) (w : World) :
  let n := default (Batch.max_downloads self) max_results in
  let st := (Batch.search_videos G self keyword max_results w).2 in
  match Batch._filter_videos G self (Batch.all_videos st) with
  | Py.Ok (survivors, _) =>
      let ranked := Py.sort_by Batch.upload_time survivors in
      (Batch.search_videos G self keyword max_results w).1
      = Py.Ok (take (Z.to_nat n) ranked)
      ∧ ranked ≡ₚ survivors
      ∧ StronglySorted upload_time_le ranked
      ∧ (∀ t, List.filter (fun v => bool_decide (Batch.upload_time v = t))
                ranked
              = List.filter (fun v => bool_decide (Batch.upload_time v = t))
                  survivors)
      ∧ (∀ (i j : nat) a b, (i < j)%nat →
           ranked !! i = Some a → ranked !! j = Some b →
           Batch.upload_time b = [] → Batch.upload_time a = [])
  | Py.Raise e =>
      (Batch.search_videos G self keyword max_results w).1 = Py.Raise e
  end
  ∧ (∀ o : video_info,
       reformat_upload_date (vi_upload_date o) = None →
       Batch.upload_time (Batch.video_of_info o) = [])
  ∧ Py.sort_by (fun t : Py.str => t)
      [Py.lit ""; Py.lit "2021-05-01"; Py.lit "2019-02-02"]
    = [Py.lit ""; Py.lit "2019-02-02"; Py.lit "2021-05-01"].
Proof.
  intros n st.
  split; [|split].
  - assert (Hfound : (Batch.search_videos G self keyword max_results w).1
             = Py.bind (Batch._filter_videos G self (Batch.all_videos st))
                 (fun '(filtered_videos, _) =>
                    Py.Ok (Py.slice_to n
                             (Py.sort_by Batch.upload_time filtered_videos))))
      by done.
    assert (Hneg : n < 0 → Batch.all_videos st = []).
    { intros Hn. unfold st, Batch.search_videos. cbn [snd]. fold n.
      by rewrite search_loop_stop by (unfold Py.len; simpl; lia). }
    destruct (Batch._filter_videos G self (Batch.all_videos st))
      as [[survivors counts] | e] eqn:Ef; [|exact Hfound].
    cbn zeta. split; [|split; [|split; [|split]]].
    + rewrite Hfound. cbn [Py.bind]. f_equal. unfold Py.slice_to.
      destruct (0 <=? n) eqn:E; [done |].
      apply Z.leb_gt in E. rewrite (Hneg E) in Ef.
      injection Ef as <- _. simpl.
      by replace (Z.to_nat n) with 0%nat by lia.
    + apply sort_by_perm.
    + apply sort_by_strongly_sorted.
    + intros t. apply sort_by_stable.
    + intros i j a b. apply sorted_empty_first, sort_by_strongly_sorted.
  - intros o Ho. unfold Batch.video_of_info. simpl.
    rewrite Ho. by destruct (vi_upload_date o).
  - by vm_compute.
Qed.

End Search.

(** ** Download orchestration *)

Section Orchestrator.
Context `{RT : Runtime} {World : Type} `{AG : !Agent World}.

Implicit Types m : Excel.machine World.

(** What a call of [download_video_segment] leaves in the history of
    dispatched units: the unit, with the value returned. *)
Lemma download_video_segment_dispatched url output_name output_dir
    start_time end_time p m :
  let '(ok, m') :=
    Excel.download_video_segment url output_name output_dir
      start_time end_time p m in
  Excel.dispatched m'
  = Excel.dispatched m
    ++ [({| Excel.output_name := output_name;
            Excel.start_time := start_time;
            Excel.end_time := end_time |}, ok)].
Proof.
  unfold Excel.download_video_segment.
  destruct (path_exists _ _); [done |].
  unfold Excel.run. simpl.
  destruct (subprocess_run _ _ _) as [[rc out err| |] w']; simpl; try done.
  destruct (rc =? 0); simpl; [done |].
  unfold Excel.report_failure. destruct err; [done |].
  repeat (destruct (Py.contains _ _); simpl; try done).
Qed.

(** When a call of [download_video_segment] returns [True]. *)
Lemma download_video_segment_true url output_name output_dir
    start_time end_time p m :
  (Excel.download_video_segment url output_name output_dir
     start_time end_time p m).1 = true
  ↔ path_exists (Excel.output_path output_dir output_name) (Excel.world m)
    = true
    ∨ ∃ stdout stderr,
        (subprocess_run
           (Excel.download_cmd url output_name output_dir
              start_time end_time p) 900 (Excel.world m)).1
        = Completed 0 stdout stderr.
Proof.
  unfold Excel.download_video_segment.
  destruct (path_exists _ _); [simpl; tauto |].
  unfold Excel.run. simpl.
  destruct (subprocess_run _ _ _) as [[rc out err| |] w']; simpl.
  - destruct (rc =? 0) eqn:E; simpl.
    + apply Z.eqb_eq in E as ->. split; [intros _; right; eauto | done].
    + apply Z.eqb_neq in E. split; [done |].
      intros [? | (? & ? & [= ? ? ?])]; [done | lia].
  - split; [done | intros [? | (? & ? & ?)]; done].
  - split; [done | intros [? | (? & ? & ?)]; done].
Qed.

(** C4.  When the file a unit is to be saved as exists already,
    [download_video_segment] returns [True] after printing that the file
    exists, hands no command to the agent and leaves the world as it is;
    so does a second call; and the loop of [main] counts a video whose
    file exists as skipped, without calling the agent or dispatching a
    unit. *)
Theorem skip_if_exists url output_name output_dir start_time end_time p m :
  path_exists (Excel.output_path output_dir output_name) (Excel.world m)
  = true →
  let '(ok, m') :=
    Excel.download_video_segment url output_name output_dir
      start_time end_time p m in
  let '(ok2, m'') :=
    Excel.download_video_segment url output_name output_dir
      start_time end_time p m' in
  (ok = true
   ∧ Excel.console m' = Excel.console m ++ [Excel.AlreadyExists output_name]
   ∧ Excel.agent_calls m' = Excel.agent_calls m
   ∧ Excel.world m' = Excel.world m)
  ∧ (ok2 = true
     ∧ Excel.agent_calls m'' = Excel.agent_calls m
     ∧ Excel.world m'' = Excel.world m)
  ∧ (∀ (n i : Z) (t : Excel.tally) (video : Excel.row),
       path_exists
         (Excel.output_path Excel.OUTPUT_DIR (Py.format_0d 3 (Excel.no video)))
         (Excel.world m) = true →
       let '(_, t', m1) := Excel.main_body n (i, t, m) video in
       Excel.skip_count t' = Excel.skip_count t + 1
       ∧ Excel.success_count t' = Excel.success_count t
       ∧ Excel.fail_count t' = Excel.fail_count t
       ∧ Excel.agent_calls m1 = Excel.agent_calls m
       ∧ Excel.dispatched m1 = Excel.dispatched m
       ∧ Excel.world m1 = Excel.world m).
Proof.
  intros Hex. unfold Excel.download_video_segment. rewrite Hex. simpl.
  rewrite Hex. simpl. repeat split; try done.
  intros n i t video Hv. unfold Excel.main_body. simpl. by rewrite Hv.
Qed.

End Orchestrator.

(** ** Segmentation *)

Section Segmentation.
Context `{RT : Runtime} {World : Type} `{AG : !Agent World}.

Implicit Types m : Excel.machine World.

Lemma segments_loop_spec url video_id_str output_dir p duration_seconds
    (todo i : nat) success_count m :
  let '(success_count', m') :=
    Excel.segments_loop url video_id_str output_dir p duration_seconds
      todo (Z.of_nat i) success_count m in
  ∃ outcomes : list (Excel.unit_of_work * bool),
    Excel.dispatched m' = Excel.dispatched m ++ outcomes
    ∧ outcomes.*1 = segment video_id_str duration_seconds <$> seq i todo
    ∧ success_count'
      = success_count + Z.of_nat (length (List.filter snd outcomes)).
Proof.
  revert i success_count m.
  induction todo as [|todo IH]; intros i success_count m; simpl.
  - exists []. rewrite app_nil_r. simpl. repeat split; try done; lia.
  - pose proof (download_video_segment_dispatched url
      (video_id_str ++ Py.lit "_" ++ Py.format_0d 2 (Z.of_nat i + 1))
      output_dir
      (Some (Z.of_nat i * Excel.SEGMENT_DURATION_SECONDS))
      (Some (Z.min ((Z.of_nat i + 1) * Excel.SEGMENT_DURATION_SECONDS)
               duration_seconds)) p m) as Hd.
    destruct (Excel.download_video_segment _ _ _ _ _ _ _) as [ok m1].
    specialize (IH (S i) (if ok then success_count + 1 else success_count) m1).
    replace (Z.of_nat (S i)) with (Z.of_nat i + 1) in IH by lia.
    destruct (Excel.segments_loop _ _ _ _ _ _ _ _ _) as [sc' m'].
    destruct IH as (outcomes & Hdisp & Hplan & Hcount).
    eexists (_ :: outcomes). rewrite Hdisp, Hd, <- app_assoc.
    split; [done |]. split; [by rewrite fmap_cons, Hplan |].
    rewrite Hcount. destruct ok; simpl; lia.
Qed.

(** The segments of a video, as a plan: they tile [0, duration). *)
Lemma plan_lookup video_id_str duration (n i : nat) u :
  (segment video_id_str duration <$> seq 0 n) !! i = Some u
  ↔ (i < n)%nat ∧ u = segment video_id_str duration i.
Proof.
  rewrite list_lookup_fmap. destruct (decide (i < n)%nat) as [Hi | Hi].
  - rewrite (lookup_seq_lt _ _ _ Hi). simpl. split.
    + intros [= <-]. done.
    + intros [_ ->]. done.
  - rewrite lookup_seq_ge by lia. simpl. split; [done | intros [? _]; lia].
Qed.

Lemma covers_segment video_id_str duration (i : nat) t :
  covers (segment video_id_str duration i) t
  ↔ Z.of_nat i * 600 <= t < Z.min ((Z.of_nat i + 1) * 600) duration.
Proof.
  unfold covers, segment, Excel.SEGMENT_DURATION_SECONDS. simpl. split.
  - intros (a & b & [= <-] & [= <-] & H). lia.
  - intros H. do 2 eexists. split; [done |]. split; [done | lia].
Qed.

(** C2.  With threshold 1800 and chunk 600: for a YouTube video whose
    probed duration [d] exceeds the threshold, [process_video] dispatches
    the [n] segments [i*600, min((i+1)*600, d)), where [n] is [d / 600]
    rounded up; every second of [0, d) lies in exactly one of them, each
    segment starts where the one before ends, the first starts at 0 and
    the last ends at [d].  Otherwise it dispatches the whole video as one
    unit. *)
Theorem segmentation_plan video_no title url output_dir m :
  let video_id_str := Py.format_0d 3 video_no in
  let p := Excel.get_url_platform url in
  let d :=
    (Excel.probe_duration url p
       (Excel.print (Excel.Heading video_id_str (take 45 title) p) m)).1 in
  let m' := (Excel.process_video video_no title url output_dir m).2 in
  (Excel.SEGMENT_THRESHOLD_SECONDS = 1800
   ∧ Excel.SEGMENT_DURATION_SECONDS = 600)
  ∧ ∃ outcomes : list (Excel.unit_of_work * bool),
      Excel.dispatched m' = Excel.dispatched m ++ outcomes
      ∧ let plan := outcomes.*1 in
        (p = Excel.youtube → Excel.SEGMENT_THRESHOLD_SECONDS < d →
           ∃ n : nat,
             plan = (segment video_id_str d <$> seq 0 n)
             ∧ 600 * (Z.of_nat n - 1) < d <= 600 * Z.of_nat n
             ∧ (∀ t, 0 <= t < d →
                  ∃ i u, plan !! i = Some u ∧ covers u t
                    ∧ ∀ j u', plan !! j = Some u' → covers u' t → j = i)
             ∧ (∀ i u u', plan !! i = Some u → plan !! S i = Some u' →
                  Excel.end_time u = Excel.start_time u')
             ∧ (∃ u, head plan = Some u ∧ Excel.start_time u = Some 0)
             ∧ (∃ u, last plan = Some u ∧ Excel.end_time u = Some d))
        ∧ (p ≠ Excel.youtube ∨ d <= Excel.SEGMENT_THRESHOLD_SECONDS →
           plan = [whole video_id_str]).
Proof.
  intros video_id_str p d m'. split; [done |].
  unfold m', Excel.process_video. fold video_id_str. fold p.
  unfold d. destruct (Excel.probe_duration _ _ _) as [dur m1] eqn:Hprobe.
  assert (Hm1 : Excel.dispatched m1 = Excel.dispatched m).
  { unfold Excel.probe_duration in Hprobe.
    destruct (decide _); [|by injection Hprobe as _ <-].
    unfold Excel.run in Hprobe. simpl in Hprobe.
    destruct (subprocess_run _ _ _). by injection Hprobe as _ <-. }
  cbn [fst].
  destruct (bool_decide (p = Excel.youtube)
            && (Excel.SEGMENT_THRESHOLD_SECONDS <? dur)) eqn:E.
  - apply andb_true_iff in E as [Hp Hd].
    apply bool_decide_eq_true in Hp. apply Z.ltb_lt in Hd.
    set (n := Z.to_nat ((dur + Excel.SEGMENT_DURATION_SECONDS - 1)
                        / Excel.SEGMENT_DURATION_SECONDS)).
    pose proof (segments_loop_spec url video_id_str output_dir p dur n 0 0
      (Excel.print Excel.NeedsSegments
         {| Excel.world := mkdir output_dir (Excel.world m1);
            Excel.console := Excel.console m1;
            Excel.agent_calls := Excel.agent_calls m1;
            Excel.dispatched := Excel.dispatched m1 |})) as Hloop.
    simpl Z.of_nat in Hloop.
    destruct (Excel.segments_loop _ _ _ _ _ _ _ _ _) as [sc m2].
    destruct Hloop as (outcomes & Hdisp & Hplan & _).
    exists outcomes. simpl in Hdisp. rewrite Hm1 in Hdisp.
    split; [done |]. cbn zeta. rewrite Hplan.
    split; [|intros [? | Hle]; [done | exfalso; clear -Hle Hd; lia]].
    intros _ _. exists n.
    change Excel.SEGMENT_THRESHOLD_SECONDS with 1800 in *.
    change Excel.SEGMENT_DURATION_SECONDS with 600 in *.
    assert (Hn : 600 * (Z.of_nat n - 1) < dur <= 600 * Z.of_nat n).
    { unfold n. rewrite Z2Nat.id by (apply Z.div_pos; lia).
      pose proof (Z.div_mod (dur + 600 - 1) 600 ltac:(lia)).
      pose proof (Z.mod_pos_bound (dur + 600 - 1) 600 ltac:(lia)). lia. }
    split; [done |]. split; [done |]. split; [|split; [|split]].
    + intros t Ht. exists (Z.to_nat (t / 600)).
      exists (segment video_id_str dur (Z.to_nat (t / 600))).
      pose proof (Z.div_mod t 600 ltac:(lia)).
      pose proof (Z.mod_pos_bound t 600 ltac:(lia)).
      assert (0 <= t / 600) by (apply Z.div_pos; lia).
      split; [apply plan_lookup; split; [lia | done] |].
      split; [apply covers_segment; lia |].
      intros j u' Hj Hc. apply plan_lookup in Hj as [_ ->].
      apply covers_segment in Hc. lia.
    + intros i u u' Hu Hu'.
      apply plan_lookup in Hu as [_ ->]. apply plan_lookup in Hu' as [? ->].
      unfold segment, Excel.SEGMENT_DURATION_SECONDS. simpl. f_equal. lia.
    + destruct n as [|n']; [lia |]. eexists. split; [done |]. done.
    + destruct n as [|n'] eqn:En; [lia |].
      rewrite seq_S, fmap_app. cbn [fmap list_fmap]. rewrite last_snoc.
      eexists. split; [done |].
      unfold segment, Excel.SEGMENT_DURATION_SECONDS.
      simpl plus. simpl Excel.end_time.
      f_equal. lia.
  - pose proof (download_video_segment_dispatched url video_id_str output_dir
      None None p
      {| Excel.world := mkdir output_dir (Excel.world m1);
         Excel.console := Excel.console m1;
         Excel.agent_calls := Excel.agent_calls m1;
         Excel.dispatched := Excel.dispatched m1 |}) as Hd.
    destruct (Excel.download_video_segment _ _ _ _ _ _ _) as [ok m2].
    simpl in Hd. rewrite Hm1 in Hd. eexists. split; [exact Hd |].
    cbn zeta. split; [|done].
    intros Hp Hlt. apply andb_false_iff in E as [E | E].
    + by apply bool_decide_eq_false in E.
    + apply Z.ltb_ge in E. lia.
Qed.

End Segmentation.

(** ** Aggregation of segment outcomes *)

Section Aggregation.
Context `{RT : Runtime} {World : Type} `{AG : !Agent World}.

Implicit Types m : Excel.machine World.

Lemma count_true_pos (outcomes : list (Excel.unit_of_work * bool)) :
  0 < Z.of_nat (length (List.filter snd outcomes))
  ↔ ∃ u, (u, true) ∈ outcomes.
Proof.
  induction outcomes as [|[u ok] outcomes IH]; simpl.
  - split; [lia | intros [u Hu]; by apply elem_of_nil in Hu].
  - destruct ok; simpl.
    + split; [intros _; exists u; left | lia].
    + rewrite IH. split.
      * intros [u' Hu']. exists u'. by right.
      * intros [u' Hu']. apply elem_of_cons in Hu' as [[= _ ?] | Hu']; eauto.
Qed.

(** What [process_video] does on a segmented video. *)
Lemma process_video_segmented video_no title url output_dir m :
  let video_id_str := Py.format_0d 3 video_no in
  let p := Excel.get_url_platform url in
  let d :=
    (Excel.probe_duration url p
       (Excel.print (Excel.Heading video_id_str (take 45 title) p) m)).1 in
  let '(ok, m') := Excel.process_video video_no title url output_dir m in
  p = Excel.youtube → Excel.SEGMENT_THRESHOLD_SECONDS < d →
  ∃ outcomes : list (Excel.unit_of_work * bool),
    Excel.dispatched m' = Excel.dispatched m ++ outcomes
    ∧ outcomes.*1 = (segment video_id_str d <$> seq 0 (length outcomes))
    ∧ (ok = true ↔ ∃ u, (u, true) ∈ outcomes)
    ∧ ((∀ u b, (u, b) ∈ outcomes → b = false) → ok = false)
    ∧ last (Excel.console m')
      = Some (Excel.SegmentsDone
                (Z.of_nat (length (List.filter snd outcomes)))
                (Py.len outcomes)).
Proof.
  intros video_id_str p d.
  unfold Excel.process_video. fold video_id_str. fold p.
  unfold d. destruct (Excel.probe_duration _ _ _) as [dur m1] eqn:Hprobe.
  assert (Hm1 : Excel.dispatched m1 = Excel.dispatched m).
  { unfold Excel.probe_duration in Hprobe.
    destruct (decide _); [|by injection Hprobe as _ <-].
    unfold Excel.run in Hprobe. simpl in Hprobe.
    destruct (subprocess_run _ _ _). by injection Hprobe as _ <-. }
  cbn [fst].
  destruct (bool_decide (p = Excel.youtube)
            && (Excel.SEGMENT_THRESHOLD_SECONDS <? dur)) eqn:E.
  - set (n := Z.to_nat ((dur + Excel.SEGMENT_DURATION_SECONDS - 1)
                        / Excel.SEGMENT_DURATION_SECONDS)).
    pose proof (segments_loop_spec url video_id_str output_dir p dur n 0 0
      (Excel.print Excel.NeedsSegments
         {| Excel.world := mkdir output_dir (Excel.world m1);
            Excel.console := Excel.console m1;
            Excel.agent_calls := Excel.agent_calls m1;
            Excel.dispatched := Excel.dispatched m1 |})) as Hloop.
    simpl Z.of_nat in Hloop.
    destruct (Excel.segments_loop _ _ _ _ _ _ _ _ _) as [sc m2].
    destruct Hloop as (outcomes & Hdisp & Hplan & Hcount).
    cbv beta iota. intros Hp Hd. exists outcomes.
    simpl in Hdisp. rewrite Hm1 in Hdisp.
    assert (Hlen : length outcomes = n).
    { rewrite <- (length_fmap fst outcomes), Hplan, length_fmap.
      apply length_seq. }
    change Excel.SEGMENT_THRESHOLD_SECONDS with 1800 in *.
    change Excel.SEGMENT_DURATION_SECONDS with 600 in *.
    assert (Hn : Z.of_nat n = (dur + 600 - 1) / 600).
    { unfold n. apply Z2Nat.id, Z.div_pos; lia. }
    rewrite Z.add_0_l in Hcount. subst sc.
    split; [done |]. split; [by rewrite Hlen |].
    split; [by rewrite Z.ltb_lt, count_true_pos |].
    split.
    + intros Hall. apply Z.ltb_ge.
      destruct (decide (0 < Z.of_nat (length (List.filter snd outcomes))))
        as [Hpos | Hpos]; [|lia].
      apply count_true_pos in Hpos as [u Hu]. by apply Hall in Hu.
    + simpl. rewrite last_snoc. unfold Py.len. by rewrite Hlen, Hn.
  - destruct (Excel.download_video_segment _ _ _ _ _ _ _) as [ok m2].
    intros Hp Hd. apply andb_false_iff in E as [E | E].
    + by apply bool_decide_eq_false in E.
    + apply Z.ltb_ge in E. lia.
Qed.

(** C7.  For a segmented video, [process_video] returns [True] exactly
    when the call of [download_video_segment] returned [True] for at
    least one segment, returns [False] when it did for none, and prints
    the number of such segments over the number of segments. *)
Theorem segment_outcomes_aggregate video_no title url output_dir m :
  let video_id_str := Py.format_0d 3 video_no in
  let p := Excel.get_url_platform url in
  let d :=
    (Excel.probe_duration url p
       (Excel.print (Excel.Heading video_id_str (take 45 title) p) m)).1 in
  let result := Excel.process_video video_no title url output_dir m in
  p = Excel.youtube → Excel.SEGMENT_THRESHOLD_SECONDS < d →
  ∃ outcomes : list (Excel.unit_of_work * bool),
    Excel.dispatched result.2 = Excel.dispatched m ++ outcomes
    ∧ outcomes.*1 = (segment video_id_str d <$> seq 0 (length outcomes))
    ∧ (result.1 = true ↔ ∃ u, (u, true) ∈ outcomes)
    ∧ ((∀ u b, (u, b) ∈ outcomes → b = false) → result.1 = false)
    ∧ last (Excel.console result.2)
      = Some (Excel.SegmentsDone
                (Z.of_nat (length (List.filter snd outcomes)))
                (Py.len outcomes)).
Proof.
  intros video_id_str p d result.
  pose proof (process_video_segmented video_no title url output_dir m) as H.
  cbv zeta in H. fold video_id_str p d result in H.
  by destruct result as [ok m'].
Qed.

End Aggregation.

(** ** Duration parsing *)

Section DurationParsing.
Context `{RT : Runtime}.

Lemma int_of_float_finite (f : Py.float) :
  is_finite f → ∃ n, Py.int_of_float f = Py.Ok n.
Proof. destruct f; simpl; intros H; try done; eauto. Qed.

Lemma int_of_float_not_finite (f : Py.float) :
  ¬ is_finite f → ∃ e, Py.int_of_float f = Py.Raise e.
Proof. destruct f; simpl; intros H; try (by destruct H); eauto. Qed.

Lemma total_seconds_finite (t : Excel.timedelta) :
  is_finite (Excel.total_seconds t).
Proof.
  unfold Excel.total_seconds, Py.true_div. destruct (_ =? 0); [done |].
  by destruct (Py.scaled _ _ _).
Qed.

Lemma int_of_digits_within (ds : Py.str) :
  within_digit_limit ds → Excel.int_of_digits ds = Py.Ok (number ds).
Proof.
  unfold within_digit_limit, Excel.int_of_digits, number.
  intros [H0 | Hle].
  - by rewrite H0.
  - destruct (negb _); [|done]. simpl.
    by apply Nat.ltb_ge in Hle as ->.
Qed.

Lemma span_digits_app (s : Py.str) :
  s = (Excel.span_digits s).1 ++ (Excel.span_digits s).2.
Proof.
  induction s as [|c s IH]; simpl; [done |].
  destruct (Excel.is_decimal c); [|done].
  destruct (Excel.span_digits s) as [ds rest]. simpl in *. by f_equal.
Qed.

Lemma span_digits_decimal (s : Py.str) :
  Forall (fun c => Excel.is_decimal c = true) (Excel.span_digits s).1.
Proof.
  induction s as [|c s IH]; simpl; [constructor |].
  destruct (Excel.is_decimal c) eqn:E; [|constructor].
  destruct (Excel.span_digits s) as [ds rest]. simpl in *. by constructor.
Qed.

Lemma lstrip_app (s : Py.str) :
  ∃ ws, s = ws ++ Py.lstrip s ∧ Forall (fun c => Py.isspace c = true) ws.
Proof.
  induction s as [|c s (ws & IH & Hws)]; simpl.
  - by exists [].
  - destruct (Py.isspace c) eqn:E.
    + exists (c :: ws). split; [|by constructor].
      rewrite <- app_comm_cons. by f_equal.
    + by exists [].
Qed.

(** What a match of the minutes pattern is: a run of digits, white
    space, then [min] in any case. *)
Lemma search_mins_sound (s g : Py.str) :
  Excel.search_mins s = Some g →
  ∃ before ws rest,
    s = before ++ g ++ ws ++ rest
    ∧ g ≠ [] ∧ Forall (fun c => Excel.is_decimal c = true) g
    ∧ Forall (fun c => Py.isspace c = true) ws
    ∧ Excel.starts_with_min rest = true.
Proof.
  induction s as [|c s IH]; [done |].
  cbn [Excel.search_mins].
  pose proof (span_digits_app (c :: s)) as Happ.
  pose proof (span_digits_decimal (c :: s)) as Hdec.
  destruct (Excel.span_digits (c :: s)) as [ds rest]. cbn [fst snd] in *.
  assert (Hrec : Excel.search_mins s = Some g →
    ∃ before ws rest0, c :: s = before ++ g ++ ws ++ rest0 ∧ g ≠ []
      ∧ Forall (fun c => Excel.is_decimal c = true) g
      ∧ Forall (fun c => Py.isspace c = true) ws
      ∧ Excel.starts_with_min rest0 = true).
  { intros H. destruct (IH H) as (before & ws & rest0 & -> & ?).
    by exists (c :: before), ws, rest0. }
  destruct ds as [|d ds]; [done |].
  destruct (Excel.starts_with_min (Py.lstrip rest)) eqn:E; [|done].
  intros [= <-]. destruct (lstrip_app rest) as (ws & Hrest & Hws).
  exists [], ws, (Py.lstrip rest). simpl. rewrite <- Hrest. done.
Qed.

(** What a match of the minutes:seconds pattern is. *)
Lemma search_time_sound (s g1 g2 : Py.str) :
  Excel.search_time s = Some (g1, g2) →
  ∃ before after,
    s = before ++ g1 ++ [58%N] ++ g2 ++ after
    ∧ g1 ≠ [] ∧ Forall (fun c => Excel.is_decimal c = true) g1
    ∧ g2 ≠ [] ∧ Forall (fun c => Excel.is_decimal c = true) g2.
Proof.
  induction s as [|c s IH]; [done |].
  cbn [Excel.search_time].
  pose proof (span_digits_app (c :: s)) as Happ.
  pose proof (span_digits_decimal (c :: s)) as Hdec.
  destruct (Excel.span_digits (c :: s)) as [ds rest]. cbn [fst snd] in *.
  assert (Hrec : Excel.search_time s = Some (g1, g2) →
    ∃ before after, c :: s = before ++ g1 ++ [58%N] ++ g2 ++ after
      ∧ g1 ≠ [] ∧ Forall (fun c => Excel.is_decimal c = true) g1
      ∧ g2 ≠ [] ∧ Forall (fun c => Excel.is_decimal c = true) g2).
  { intros H. destruct (IH H) as (before & after & -> & ?).
    by exists (c :: before), after. }
  destruct ds as [|d ds]; [done |].
  destruct rest as [|[|colon] rest]; [done.. |].
  destruct (decide (colon = 58%positive)) as [-> | Hne].
  - pose proof (span_digits_app rest) as Happ2.
    pose proof (span_digits_decimal rest) as Hdec2.
    destruct (Excel.span_digits rest) as [ds2 after]. cbn [fst snd] in *.
    destruct ds2 as [|d2 ds2]; [done |].
    intros [= <- <-]. exists [], after. simpl. rewrite Happ. simpl.
    by rewrite Happ2.
  - repeat (destruct colon as [colon | colon |]; try done).
Qed.

Lemma search_mins_length (s g : Py.str) :
  Excel.search_mins s = Some g → (length g <= length s)%nat.
Proof.
  intros H. apply search_mins_sound in H as (? & ? & ? & -> & _).
  rewrite !length_app. lia.
Qed.

Lemma search_time_length (s g1 g2 : Py.str) :
  Excel.search_time s = Some (g1, g2) →
  (length g1 <= length s)%nat ∧ (length g2 <= length s)%nat.
Proof.
  intros H. apply search_time_sound in H as (? & ? & -> & _).
  rewrite !length_app. lia.
Qed.

Lemma is_decimal_spec c : Excel.is_decimal c = true ↔ is_Some (decimal c).
Proof.
  unfold Excel.is_decimal.
  destruct (decimal c) as [d|]; split; intros H;
    first [done | by eexists | by destruct H].
Qed.

Lemma starts_with_min_spec rest :
  Excel.starts_with_min rest = true ↔ reads_min rest.
Proof.
  unfold reads_min. split.
  - destruct rest as [|m [|i [|n tail]]]; try done. simpl.
    rewrite !andb_true_iff, !orb_true_iff, !N.eqb_eq.
    intros [[Hm Hi] Hn]. exists m, i, n, tail.
    rewrite !elem_of_cons, !elem_of_nil. tauto.
  - intros (m & i & n & tail & -> & Hm & Hi & Hn). simpl.
    rewrite !andb_true_iff, !orb_true_iff, !N.eqb_eq.
    rewrite !elem_of_cons, elem_of_nil in Hm.
    rewrite !elem_of_cons, elem_of_nil in Hi.
    rewrite !elem_of_cons, elem_of_nil in Hn. tauto.
Qed.

Lemma Forall_is_decimal g :
  Forall (fun c => Excel.is_decimal c = true) g
  ↔ Forall (fun c => is_Some (decimal c)) g.
Proof. apply Forall_iff. intros c. apply is_decimal_spec. Qed.

(** A match found is a match. *)
Lemma search_mins_matches s g :
  Excel.search_mins s = Some g → matches_mins s g.
Proof.
  intros H. apply search_mins_sound in H
    as (before & ws & rest & -> & Hg & Hdec & Hws & Hmin).
  exists before, ws, rest.
  rewrite <- Forall_is_decimal, <- starts_with_min_spec.
  done.
Qed.

Lemma search_time_matches s g1 g2 :
  Excel.search_time s = Some (g1, g2) → matches_time s g1 g2.
Proof.
  intros H. apply search_time_sound in H
    as (before & after & -> & Hg1 & Hdec1 & Hg2 & Hdec2).
  exists before, after. rewrite <- !Forall_is_decimal. done.
Qed.

(** Where there is a match, the search finds the one [re.search]
    returns, as long as no decimal digit is also white space, a colon, or
    the letter [m]. *)
Section Completeness.
Hypothesis decimal_apart : digits_apart.

Lemma span_digits_stops g tail :
  Forall (fun c => is_Some (decimal c)) g →
  match tail with
  | c :: _ => Excel.is_decimal c = false
  | [] => True
  end →
  Excel.span_digits (g ++ tail) = (g, tail).
Proof using Type.
  intros Hg Htail. induction Hg as [|c g Hc Hg IH]; cbn [app].
  - destruct tail as [|c tail]; [done |].
    cbn [Excel.span_digits]. by rewrite Htail.
  - apply is_decimal_spec in Hc.
    cbn [Excel.span_digits]. by rewrite Hc, IH.
Qed.

Lemma not_decimal c :
  Py.isspace c = true ∨ c = 58%N ∨ c = 109%N ∨ c = 77%N →
  Excel.is_decimal c = false.
Proof using decimal_apart.
  intros H. apply not_true_iff_false. intros Hc.
  apply is_decimal_spec, decimal_apart in Hc as (Hs & H58 & Hm & HM).
  destruct H as [H | [H | [H | H]]]; congruence.
Qed.

Lemma lstrip_spaces ws rest :
  Forall (fun c => Py.isspace c = true) ws →
  match rest with
  | c :: _ => Py.isspace c = false
  | [] => True
  end →
  Py.lstrip (ws ++ rest) = rest.
Proof using Type.
  intros Hws Hrest. induction Hws as [|c ws Hc Hws IH]; cbn [app].
  - destruct rest as [|c rest]; [done |].
    cbn [Py.lstrip]. by rewrite Hrest.
  - cbn [Py.lstrip]. by rewrite Hc.
Qed.

Lemma search_mins_complete s g :
  matches_mins s g → is_Some (Excel.search_mins s).
Proof using decimal_apart.
  intros (before & ws & rest & -> & Hg & Hdec & Hws & Hmin).
  induction before as [|c before IH].
  - destruct g as [|d g]; [done |].
    destruct Hmin as (m & i & n & tail & -> & Hm & Hi & Hn).
    assert (Hmsp : Py.isspace m = false).
    { rewrite !elem_of_cons in Hm.
      destruct Hm as [-> | [-> | H]]; [done.. | by apply elem_of_nil in H]. }
    assert (Hmdec : Excel.is_decimal m = false).
    { apply not_decimal. rewrite !elem_of_cons in Hm.
      destruct Hm as [-> | [-> | H]]; [tauto.. | by apply elem_of_nil in H]. }
    cbn [app Excel.search_mins].
    change (d :: g ++ ws ++ m :: i :: n :: tail)
      with ((d :: g) ++ ws ++ m :: i :: n :: tail).
    rewrite (span_digits_stops (d :: g) (ws ++ m :: i :: n :: tail) Hdec).
    + rewrite (lstrip_spaces ws (m :: i :: n :: tail) Hws Hmsp).
      assert (Hmin : Excel.starts_with_min (m :: i :: n :: tail) = true).
      { apply starts_with_min_spec. by exists m, i, n, tail. }
      rewrite Hmin. by eexists.
    + destruct Hws as [|c ws Hc Hws]; simpl; [done |].
      apply not_decimal. by left.
  - cbn [app Excel.search_mins].
    destruct (Excel.span_digits _) as [[|d ds] rest0]; [done |].
    destruct (Excel.starts_with_min _); [by eexists | done].
Qed.

Lemma search_time_complete s g1 g2 :
  matches_time s g1 g2 → is_Some (Excel.search_time s).
Proof using decimal_apart.
  intros (before & after & -> & Hg1 & Hdec1 & Hg2 & Hdec2).
  induction before as [|c before IH].
  - destruct g1 as [|d1 g1]; [done |]. destruct g2 as [|d2 g2]; [done |].
    cbn [app Excel.search_time].
    change (d1 :: g1 ++ 58%N :: d2 :: g2 ++ after)
      with ((d1 :: g1) ++ 58%N :: (d2 :: g2) ++ after).
    rewrite (span_digits_stops (d1 :: g1) (58%N :: (d2 :: g2) ++ after) Hdec1)
      by (apply not_decimal; tauto).
    apply Forall_cons in Hdec2 as [Hd2 _].
    apply is_decimal_spec in Hd2.
    cbn [app Excel.span_digits]. rewrite Hd2.
    destruct (Excel.span_digits (g2 ++ after)). by eexists.
  - cbn [app Excel.search_time].
    destruct (Excel.span_digits _) as [[|d ds] [|[|colon] rest0]]; try done.
    destruct (Excel.span_digits rest0) as [[|d2 ds2] ?];
      repeat (destruct colon as [colon | colon |]; try done); by eexists.
Qed.

Lemma mins_at_span tail g :
  mins_at tail g →
  ∃ rest0,
    Excel.span_digits tail = (g, rest0)
    ∧ Excel.starts_with_min (Py.lstrip rest0) = true.
Proof using decimal_apart.
  intros (ws & rest & -> & Hg & Hdec & Hws & Hmin).
  pose proof Hmin as (m & i & n & tail & -> & Hm & Hi & Hn).
  assert (Hmsp : Py.isspace m = false).
  { rewrite !elem_of_cons in Hm.
    destruct Hm as [-> | [-> | H]]; [done.. | by apply elem_of_nil in H]. }
  assert (Hmdec : Excel.is_decimal m = false).
  { apply not_decimal. rewrite !elem_of_cons in Hm.
    destruct Hm as [-> | [-> | H]]; [tauto.. | by apply elem_of_nil in H]. }
  exists (ws ++ m :: i :: n :: tail). split.
  - apply span_digits_stops; [done |].
    destruct Hws as [|c ws Hc Hws]; simpl; [done |].
    apply not_decimal. by left.
  - rewrite (lstrip_spaces ws (m :: i :: n :: tail) Hws Hmsp).
    by apply starts_with_min_spec.
Qed.

Lemma mins_at_here s ds rest :
  Excel.span_digits s = (ds, rest) → ds ≠ [] →
  Excel.starts_with_min (Py.lstrip rest) = true →
  mins_at s ds.
Proof using Type.
  intros Hsp Hds Hmin.
  pose proof (span_digits_app s) as Happ.
  pose proof (span_digits_decimal s) as Hdec.
  rewrite Hsp in Happ, Hdec. cbn [fst snd] in Happ, Hdec.
  destruct (lstrip_app rest) as (ws & Hrest & Hws).
  exists ws, (Py.lstrip rest). rewrite <- Hrest.
  split; [done |]. split; [done |].
  split; [by apply Forall_is_decimal |]. split; [done |].
  by apply starts_with_min_spec.
Qed.

Lemma search_mins_first s g :
  Excel.search_mins s = Some g → first_mins s g.
Proof using decimal_apart.
  induction s as [|c s IH]; [done |].
  cbn [Excel.search_mins].
  destruct (Excel.span_digits (c :: s)) as [ds rest] eqn:Esp.
  assert (Hskip : ds = [] ∨ Excel.starts_with_min (Py.lstrip rest) = false →
            Excel.search_mins s = Some g → first_mins (c :: s) g).
  { intros Hno Hs.
    destruct (IH Hs) as (before & tail & -> & Hat & Hleft & Hgreedy).
    exists (c :: before), tail. split; [done |]. split; [done |].
    split; [|done].
    intros before' tail' g' Heq Hat'. destruct before' as [|c' before'].
    - simpl in Heq. subst tail'.
      pose proof Hat' as (_ & _ & _ & Hg' & _).
      apply mins_at_span in Hat' as (rest0 & Hsp & Hmin).
      rewrite Esp in Hsp. injection Hsp as -> ->.
      destruct Hno as [Hno | Hno]; congruence.
    - injection Heq as _ Heq. simpl.
      apply le_n_S, (Hleft before' tail' g'); done. }
  destruct ds as [|d ds]; [apply Hskip; by left |].
  destruct (Excel.starts_with_min (Py.lstrip rest)) eqn:E;
    [|apply Hskip; by right].
  intros [= <-]. exists [], (c :: s). split; [done |].
  split; [by apply (mins_at_here _ _ rest) |].
  split; [intros; simpl; lia |].
  intros g' Hat'. apply mins_at_span in Hat' as (rest0 & Hsp & _).
  rewrite Esp in Hsp. by injection Hsp as <- _.
Qed.

Lemma first_mins_unique s g g' :
  first_mins s g → first_mins s g' → g = g'.
Proof using decimal_apart.
  intros (b1 & t1 & -> & H1 & L1 & _) (b2 & t2 & Heq & H2 & L2 & _).
  assert (Hlen : length b1 = length b2).
  { pose proof (L1 b2 t2 g' Heq H2).
    pose proof (L2 b1 t1 g eq_refl H1). lia. }
  apply app_inj_1 in Heq as [-> ->]; [|done].
  apply mins_at_span in H1 as (r1 & Hs1 & _).
  apply mins_at_span in H2 as (r2 & Hs2 & _). congruence.
Qed.

Lemma span_digits_run g tail :
  Forall (fun c => is_Some (decimal c)) g →
  Excel.span_digits (g ++ tail)
  = (g ++ (Excel.span_digits tail).1, (Excel.span_digits tail).2).
Proof using Type.
  induction 1 as [|c g Hc Hg IH]; cbn [app].
  - by destruct (Excel.span_digits tail).
  - apply is_decimal_spec in Hc.
    cbn [Excel.span_digits]. by rewrite Hc, IH.
Qed.

Lemma time_at_span tail g1 g2 :
  time_at tail g1 g2 →
  ∃ after more rest2,
    Excel.span_digits tail = (g1, 58%N :: g2 ++ after)
    ∧ Excel.span_digits (g2 ++ after) = (g2 ++ more, rest2).
Proof using decimal_apart.
  intros (after & -> & Hg1 & Hdec1 & Hg2 & Hdec2).
  exists after, (Excel.span_digits after).1, (Excel.span_digits after).2.
  split.
  - apply span_digits_stops; [done |].
    apply not_decimal. tauto.
  - by apply span_digits_run.
Qed.

Lemma time_at_here s ds rest' ds2 after :
  Excel.span_digits s = (ds, 58%N :: rest') → ds ≠ [] →
  Excel.span_digits rest' = (ds2, after) → ds2 ≠ [] →
  time_at s ds ds2.
Proof using Type.
  intros Hsp Hds Hsp2 Hds2.
  pose proof (span_digits_app s) as Happ.
  pose proof (span_digits_decimal s) as Hdec.
  rewrite Hsp in Happ, Hdec. cbn [fst snd] in Happ, Hdec.
  pose proof (span_digits_app rest') as Happ2.
  pose proof (span_digits_decimal rest') as Hdec2.
  rewrite Hsp2 in Happ2, Hdec2. cbn [fst snd] in Happ2, Hdec2.
  exists after. rewrite Happ at 1. rewrite Happ2 at 1.
  split; [done |]. split; [done |].
  split; [by apply Forall_is_decimal |]. split; [done |].
  by apply Forall_is_decimal.
Qed.

Lemma search_time_first s g1 g2 :
  Excel.search_time s = Some (g1, g2) → first_time s g1 g2.
Proof using decimal_apart.
  induction s as [|c s IH]; [done |].
  cbn [Excel.search_time].
  destruct (Excel.span_digits (c :: s)) as [ds rest] eqn:Esp.
  assert (Hskip : (∀ h1 h2, ¬ time_at (c :: s) h1 h2) →
            Excel.search_time s = Some (g1, g2) → first_time (c :: s) g1 g2).
  { intros Hno Hs.
    destruct (IH Hs) as (before & tail & -> & Hat & Hleft & Hgreedy).
    exists (c :: before), tail. split; [done |]. split; [done |].
    split; [|done].
    intros before' tail' h1 h2 Heq Hat'. destruct before' as [|c' before'].
    - simpl in Heq. subst tail'. by apply Hno in Hat'.
    - injection Heq as _ Heq. simpl.
      apply le_n_S, (Hleft before' tail' h1 h2); done. }
  assert (Hspan : ∀ h1 h2, time_at (c :: s) h1 h2 →
            ∃ after more rest2, ds = h1 ∧ rest = 58%N :: h2 ++ after
              ∧ Excel.span_digits (h2 ++ after) = (h2 ++ more, rest2)
              ∧ h1 ≠ [] ∧ h2 ≠ []).
  { intros h1 h2 Hat. pose proof Hat as (_ & _ & Hh1 & _ & Hh2 & _).
    apply time_at_span in Hat as (after & more & rest2 & Hsp & Hsp2).
    rewrite Esp in Hsp. injection Hsp as -> ->. by exists after, more, rest2. }
  destruct ds as [|d ds].
  { apply Hskip. intros h1 h2 Hat.
    apply Hspan in Hat as (? & ? & ? & <- & _ & _ & Hh1 & _). done. }
  destruct rest as [|colon rest].
  { apply Hskip. intros h1 h2 Hat.
    apply Hspan in Hat as (? & ? & ? & _ & ? & _). done. }
  destruct (decide (colon = 58%N)) as [-> | Hne].
  - destruct (Excel.span_digits rest) as [ds2 after] eqn:Esp2.
    destruct ds2 as [|d2 ds2].
    + apply Hskip. intros h1 h2 Hat.
      apply Hspan in Hat as (a & more & r2 & _ & [= ->] & Hsp2 & _ & Hh2).
      rewrite Esp2 in Hsp2. injection Hsp2 as Hnil _.
      symmetry in Hnil. by apply app_eq_nil in Hnil as [? _].
    + intros [= <- <-]. exists [], (c :: s). split; [done |].
      split; [by apply (time_at_here _ _ rest _ after) |].
      split; [intros; simpl; lia |].
      intros h1 h2 Hat.
      apply Hspan in Hat as (a & more & r2 & <- & [= ->] & Hsp2 & _ & _).
      split; [done |]. intros _.
      rewrite Esp2 in Hsp2. injection Hsp2 as -> _.
      rewrite length_app. lia.
  - assert (Hgo : Excel.search_time s = Some (g1, g2) →
                  first_time (c :: s) g1 g2).
    { apply Hskip. intros h1 h2 Hat.
      apply Hspan in Hat as (? & ? & ? & _ & [= ? _] & _). done. }
    destruct colon as [|colon]; [exact Hgo |].
    repeat (destruct colon as [colon | colon |]; try exact Hgo).
    done.
Qed.

Lemma first_time_unique s g1 g2 h1 h2 :
  first_time s g1 g2 → first_time s h1 h2 → g1 = h1 ∧ g2 = h2.
Proof using decimal_apart.
  intros (b1 & t1 & -> & H1 & L1 & G1) (b2 & t2 & Heq & H2 & L2 & G2).
  assert (Hlen : length b1 = length b2).
  { pose proof (L1 b2 t2 h1 h2 Heq H2).
    pose proof (L2 b1 t1 g1 g2 eq_refl H1). lia. }
  apply app_inj_1 in Heq as [-> ->]; [|done].
  destruct (G1 h1 h2 H2) as [_ Hle1]. destruct (G2 g1 g2 H1) as [_ Hle2].
  apply time_at_span in H1 as (a1 & m1 & r1 & Hs1 & Hr1).
  apply time_at_span in H2 as (a2 & m2 & r2 & Hs2 & Hr2).
  rewrite Hs1 in Hs2. injection Hs2 as <- Hrest.
  split; [done |].
  specialize (Hle1 eq_refl). specialize (Hle2 eq_refl).
  rewrite Hrest, Hr2 in Hr1. injection Hr1 as Hruns _.
  apply (f_equal (take (length g2))) in Hruns.
  rewrite take_app_length in Hruns.
  replace (length g2) with (length h2) in Hruns at 1 by lia.
  by rewrite take_app_length in Hruns.
Qed.

End Completeness.

(** C10, amended.  [parse_duration] returns an integer for [None], a
    datetime, a timedelta, an int and a finite float, and raises for a
    float that is not finite.  On a string that holds a match of the
    minutes pattern it returns 60 times the number of the match
    [re.search] returns, the leftmost one; on a string that holds none
    but a match of the minutes:seconds pattern, minutes times 60 plus
    seconds of the leftmost such match; both provided the digit runs
    converted are within the interpreter's digit limit; and 0 when the
    string holds no match of either pattern.  In particular it returns
    an integer for every string no longer than that limit.  That a match
    is found where there is one rests on no decimal digit being white
    space, a colon or the letter [m]. *)
Theorem parse_duration_total :
  Excel.parse_duration Excel.VNone = Py.Ok 0
  ∧ (∀ d, Excel.parse_duration (Excel.VDatetime d)
          = Py.Ok (Excel.hour d * 3600 + Excel.minute d * 60
                   + Excel.second d))
  ∧ (∀ t, ∃ n, Excel.parse_duration (Excel.VTimedelta t) = Py.Ok n)
  ∧ (∀ n, Excel.parse_duration (Excel.VInt n) = Py.Ok n)
  ∧ (∀ f, is_finite f →
          ∃ n, Excel.parse_duration (Excel.VFloat f) = Py.Ok n)
  ∧ (∀ f, ¬ is_finite f →
          ∃ e, Excel.parse_duration (Excel.VFloat f) = Py.Raise e)
  ∧ (∀ v s, v = Excel.VStr s ∨ v = Excel.VOther s →
       match Excel.search_mins s with
       | Some g =>
           matches_mins s g
           ∧ (within_digit_limit g →
              Excel.parse_duration v = Py.Ok (number g * 60))
       | None =>
           match Excel.search_time s with
           | Some (g1, g2) =>
               matches_time s g1 g2
               ∧ (within_digit_limit g1 → within_digit_limit g2 →
                  Excel.parse_duration v
                  = Py.Ok (number g1 * 60 + number g2))
           | None => Excel.parse_duration v = Py.Ok 0
           end
       end)
  ∧ (digits_apart →
     ∀ v s g, v = Excel.VStr s ∨ v = Excel.VOther s →
       matches_mins s g →
       ∃ g0, first_mins s g0
             ∧ (∀ g', first_mins s g' → g' = g0)
             ∧ (within_digit_limit g0 →
                Excel.parse_duration v = Py.Ok (number g0 * 60)))
  ∧ (digits_apart →
     ∀ v s g1 g2, v = Excel.VStr s ∨ v = Excel.VOther s →
       (∀ g, ¬ matches_mins s g) → matches_time s g1 g2 →
       ∃ h1 h2, first_time s h1 h2
                ∧ (∀ h1' h2', first_time s h1' h2' → h1' = h1 ∧ h2' = h2)
                ∧ (within_digit_limit h1 → within_digit_limit h2 →
                   Excel.parse_duration v
                   = Py.Ok (number h1 * 60 + number h2)))
  ∧ (∀ v s, v = Excel.VStr s ∨ v = Excel.VOther s →
       (∀ g, ¬ matches_mins s g) → (∀ g1 g2, ¬ matches_time s g1 g2) →
       Excel.parse_duration v = Py.Ok 0)
  ∧ (∀ v s, v = Excel.VStr s ∨ v = Excel.VOther s →
       within_digit_limit s → ∃ n, Excel.parse_duration v = Py.Ok n).
Proof.
  assert (Hstr : ∀ v s, v = Excel.VStr s ∨ v = Excel.VOther s →
       match Excel.search_mins s with
       | Some g =>
           matches_mins s g
           ∧ (within_digit_limit g →
              Excel.parse_duration v = Py.Ok (number g * 60))
       | None =>
           match Excel.search_time s with
           | Some (g1, g2) =>
               matches_time s g1 g2
               ∧ (within_digit_limit g1 → within_digit_limit g2 →
                  Excel.parse_duration v
                  = Py.Ok (number g1 * 60 + number g2))
           | None => Excel.parse_duration v = Py.Ok 0
           end
       end).
  { intros v s Hv.
    pose proof (search_mins_matches s) as Hmins.
    pose proof (search_time_matches s) as Htime.
    destruct Hv as [-> | ->]; simpl;
      (destruct (Excel.search_mins s) as [g |];
       [split; [by apply Hmins |];
        intros Hg; by rewrite (int_of_digits_within g Hg) |];
       destruct (Excel.search_time s) as [[g1 g2] |]; [|done];
       split; [by apply Htime |];
       intros Hg1 Hg2;
       by rewrite (int_of_digits_within g1 Hg1),
                  (int_of_digits_within g2 Hg2)). }
  split; [done |]. split; [done |].
  split; [intros t; apply int_of_float_finite, total_seconds_finite |].
  split; [done |].
  split; [intros f; apply int_of_float_finite |].
  split; [intros f; apply int_of_float_not_finite |].
  split; [exact Hstr |].
  split; [|split; [|split]].
  - intros Hapart v s g Hv Hm. specialize (Hstr v s Hv).
    destruct (search_mins_complete Hapart s g Hm) as [g0 E].
    rewrite E in Hstr. exists g0.
    pose proof (search_mins_first Hapart s g0 E) as Hfirst.
    split; [exact Hfirst |]. split; [|exact (proj2 Hstr)].
    intros g' Hg'. exact (first_mins_unique Hapart s g' g0 Hg' Hfirst).
  - intros Hapart v s g1 g2 Hv Hno_mins Hm. specialize (Hstr v s Hv).
    destruct (Excel.search_mins s) as [g |].
    { destruct Hstr as [Hg _]. by apply Hno_mins in Hg. }
    destruct (search_time_complete Hapart s g1 g2 Hm) as [[h1 h2] E].
    rewrite E in Hstr. exists h1, h2.
    pose proof (search_time_first Hapart s h1 h2 E) as Hfirst.
    split; [exact Hfirst |]. split; [|exact (proj2 Hstr)].
    intros h1' h2' Hh. exact (first_time_unique Hapart s _ _ _ _ Hh Hfirst).
  - intros v s Hv Hno_mins Hno_time. specialize (Hstr v s Hv).
    destruct (Excel.search_mins s) as [g |].
    + destruct Hstr as [Hm _]. by apply Hno_mins in Hm.
    + destruct (Excel.search_time s) as [[g1 g2] |]; [|done].
      destruct Hstr as [Hm _]. by apply Hno_time in Hm.
  - intros v s Hv Hs. specialize (Hstr v s Hv).
    assert (Hsub : ∀ g, (length g <= length s)%nat → within_digit_limit g).
    { intros g Hg. destruct Hs as [? | ?]; [by left | right; lia]. }
    destruct (Excel.search_mins s) as [g |] eqn:E1.
    + eexists. apply Hstr, Hsub. by apply search_mins_length.
    + destruct (Excel.search_time s) as [[g1 g2] |] eqn:E2; [|eauto].
      apply search_time_length in E2 as [? ?].
      eexists. apply Hstr; by apply Hsub.
Qed.

End DurationParsing.

(** ** Caption text extraction *)

Section Captions.
Context `{RT : Runtime} {World : Type} `{AG : !Agent World}.

Lemma read_content_first vtt_path (w : World) encodings (i : nat)
    encoding content :
  encodings !! i = Some encoding →
  read_text vtt_path encoding w = Some content →
  (∀ (j : nat) e, (j < i)%nat → encodings !! j = Some e →
                  read_text vtt_path e w = None) →
  Vtt.read_content vtt_path encodings w = Some content.
Proof.
  revert i. induction encodings as [|e0 encodings IH]; intros i Hi Hr Hbefore.
  - done.
  - destruct i as [|i]; simpl in *.
    + injection Hi as ->. by rewrite Hr.
    + rewrite (Hbefore 0%nat e0) by (done || lia).
      apply (IH i); [done.. |]. intros j e Hj He.
      apply (Hbefore (S j)); [lia | done].
Qed.

Lemma read_content_none vtt_path (w : World) encodings :
  (∀ e, e ∈ encodings → read_text vtt_path e w = None) →
  Vtt.read_content vtt_path encodings w = None.
Proof.
  induction encodings as [|e0 encodings IH]; intros H; simpl; [done |].
  rewrite (H e0) by left. apply IH. intros e He. apply H. by right.
Qed.

Lemma collect_filter lines text_lines :
  Vtt.collect lines text_lines
  = text_lines ++ List.filter kept (List.map Py.strip lines).
Proof.
  revert text_lines. induction lines as [|line lines IH]; intros text_lines.
  - simpl. by rewrite app_nil_r.
  - cbn [Vtt.collect List.map List.filter]. unfold kept at 1.
    destruct (_ || _ || _); simpl; [apply IH |].
    destruct (Vtt.str_isdigit _); simpl; [apply IH |].
    by rewrite IH, <- app_assoc.
Qed.

Lemma str_isdigit_spec (line : Py.str) :
  Vtt.str_isdigit line = true
  ↔ line ≠ [] ∧ Forall (fun c => isdigit c = true) line.
Proof.
  destruct line as [|c line].
  - simpl. split; [done | by intros [? _]].
  - unfold Vtt.str_isdigit. rewrite forallb_forall, List.Forall_forall.
    split; [by intros H | by intros [_ H]].
Qed.

Lemma kept_not_dropped (line : Py.str) : kept line = true ↔ ¬ dropped line.
Proof.
  unfold kept, dropped.
  rewrite negb_true_iff, !orb_false_iff, !bool_decide_eq_false.
  rewrite <- !not_true_iff_false, contains_spec, str_isdigit_spec. tauto.
Qed.

(** C9.  The content is read under the first of the encodings utf-8,
    utf-8-sig, gbk, gb2312, latin1 that decodes the file; the text
    returned is the stripped lines of the content that are kept, in
    their order, joined by newlines, and the empty text when no encoding
    decodes the file; a stripped line is kept unless it is empty, is the
    header, contains the arrow, or is made of digits only. *)
Theorem vtt_to_text_extracts (vtt_path : Py.str) (w : World) :
  Vtt.encodings
  = [Py.lit "utf-8"; Py.lit "utf-8-sig"; Py.lit "gbk"; Py.lit "gb2312";
     Py.lit "latin1"]
  ∧ (∀ (i : nat) encoding content,
       Vtt.encodings !! i = Some encoding →
       read_text vtt_path encoding w = Some content →
       (∀ (j : nat) e, (j < i)%nat → Vtt.encodings !! j = Some e →
                       read_text vtt_path e w = None) →
       Vtt.vtt_to_text vtt_path w
       = Py.join [10%N]
           (List.filter kept (List.map Py.strip (Py.splitlines content))))
  ∧ ((∀ e, e ∈ Vtt.encodings → read_text vtt_path e w = None) →
     Vtt.vtt_to_text vtt_path w = [])
  ∧ (∀ line, kept line = true ↔ ¬ dropped line).
Proof.
  split; [done |]. split; [|split].
  - intros i encoding content Hi Hr Hbefore. unfold Vtt.vtt_to_text.
    rewrite (read_content_first _ _ _ i encoding content Hi Hr Hbefore).
    by rewrite collect_filter.
  - intros Hnone. unfold Vtt.vtt_to_text.
    by rewrite read_content_none.
  - apply kept_not_dropped.
Qed.

End Captions.

(** * Further properties of the scripts *)

(** ** Keyword lists and known titles: edge cases *)

Section KeywordEdges.
Context `{RT : Runtime}.

(** X1.  [_contains_keyword] on an empty keyword list is false; a
    keyword whose lowered form is empty is found in every text; and a
    keyword list that matches a text still matches it when more keywords
    are put before or after. *)
Theorem contains_keyword_edges (text : Py.str) (keywords : list Py.str) :
  Batch._contains_keyword text [] = false
  ∧ (∀ kw, kw ∈ keywords → lower kw = [] →
       Batch._contains_keyword text keywords = true)
  ∧ (∀ more, Batch._contains_keyword text keywords = true →
       Batch._contains_keyword text (more ++ keywords) = true
       ∧ Batch._contains_keyword text (keywords ++ more) = true).
Proof.
  split; [done | split].
  - intros kw Hkw Hempty. apply _contains_keyword_spec.
    exists kw. split; [done |].
    exists [], (lower text). by rewrite Hempty.
  - intros more H. rewrite !_contains_keyword_app, H.
    split; [apply orb_true_r | done].
Qed.

Lemma is_duplicate_known (max_downloads : Z) (stems : list Py.str)
    (title : Py.str) :
  Batch._is_duplicate (Batch.__init__ max_downloads stems) title = true
  ↔ ∃ known, known ∈ stems
      ∧ 20 < Py.len (normalize title) ∧ 20 < Py.len (normalize known)
      ∧ share_words 3 (normalize title) (normalize known).
Proof.
  unfold Batch._is_duplicate. rewrite _is_duplicate_loop_spec.
  fold (normalize title). split.
  - intros (d & Hd & H). apply elem_of_elements in Hd. simpl in Hd.
    apply elem_of_list_to_set, list_elem_of_In, in_map_iff in Hd
      as (known & <- & Hk).
    exists known. split; [by apply list_elem_of_In | done].
  - intros (known & Hk & H). exists (normalize known). split; [|done].
    apply elem_of_elements. simpl.
    apply elem_of_list_to_set, list_elem_of_In, in_map_iff.
    exists known. split; [done | by apply list_elem_of_In].
Qed.

(** X2.  With no known title nothing is a duplicate; a title of fewer
    than three distinct words is never flagged, whatever is known; a
    known title of more than 20 normalized characters and at least three
    distinct words is flagged when it comes up again; and a title that
    is flagged stays flagged when more titles are known. *)
Theorem duplicate_edges (max_downloads : Z) (stems : list Py.str)
    (title : Py.str) :
  let words : gset Py.str := list_to_set (Py.split (normalize title)) in
  Batch._is_duplicate (Batch.__init__ max_downloads []) title = false
  ∧ ((size words < 3)%nat →
     Batch._is_duplicate (Batch.__init__ max_downloads stems) title = false)
  ∧ (title ∈ stems → 20 < Py.len (normalize title) → (3 <= size words)%nat →
     Batch._is_duplicate (Batch.__init__ max_downloads stems) title = true)
  ∧ (∀ more,
       Batch._is_duplicate (Batch.__init__ max_downloads stems) title = true →
       Batch._is_duplicate (Batch.__init__ max_downloads (more ++ stems))
         title = true).
Proof.
  intros words. split; [done | split; [|split]].
  - intros Hfew. apply not_true_iff_false. rewrite is_duplicate_known.
    intros (known & _ & _ & _ & Hshare).
    apply share_words_size in Hshare.
    assert (size (Batch.common_words (normalize title) (normalize known))
            <= size words)%nat; [|lia].
    apply subseteq_size. unfold Batch.common_words, words. apply intersection_subseteq_l.
  - intros Hin Hlong Hwords. apply is_duplicate_known.
    exists title. repeat split; try done.
    apply share_words_size. unfold Batch.common_words.
    by rewrite (idemp_L (∩)).
  - intros more. rewrite !is_duplicate_known.
    intros (known & Hk & H). exists known. split; [|done].
    apply elem_of_app. by right.
Qed.

End KeywordEdges.

(** ** The filter: what survives *)

Section FilterSurvivors.
Context `{RT : Runtime} (G : Batch.config).
Context (self : Batch.YouTubeDocumentaryDownloader).

Lemma filter_accepted_sublist (videos : list Batch.video_dict) :
  List.filter
    (fun v => bool_decide (first_failing_check G self v = Accepted)) videos
  `sublist_of` videos.
Proof.
  induction videos as [|v videos IH]; simpl; [done |].
  destruct (bool_decide _); by constructor.
Qed.

Lemma filter_videos_accepted (videos filtered : list Batch.video_dict) n :
  Batch._filter_videos G self videos = Py.Ok (filtered, n) →
  filtered
  = List.filter
      (fun v => bool_decide (first_failing_check G self v = Accepted)) videos.
Proof.
  unfold Batch._filter_videos. intros E.
  pose proof (_filter_videos_loop G self videos [] Batch.no_counts) as H.
  rewrite E in H. by destruct H as (_ & -> & _).
Qed.

Lemma not_text_spec (v : Batch.video_dict) :
  first_failing_check G self v = NotText →
  Batch.title v = None ∨ Batch.uploader v = None.
Proof.
  unfold first_failing_check.
  destruct (Batch.title v) as [title |]; [|by left].
  destruct (Batch.uploader v) as [uploader |]; [|by right].
  repeat (destruct (_ : bool); try done).
Qed.

Lemma accepted_spec (v : Batch.video_dict) :
  first_failing_check G self v = Accepted
  ↔ ∃ title uploader,
      Batch.title v = Some title ∧ Batch.uploader v = Some uploader
      ∧ Batch._is_duplicate self title = false
      ∧ Batch._contains_keyword title (Batch.POLITICAL_KEYWORDS G) = false
      ∧ Batch._contains_keyword uploader (Batch.POLITICAL_KEYWORDS G) = false
      ∧ Batch._is_valid_title G title = true
      ∧ Batch.MIN_DURATION_SECONDS G <= default 0 (Batch.duration v).
Proof.
  unfold first_failing_check, Batch._is_valid_title, Batch._is_excluded.
  destruct (Batch.title v) as [title |];
    [| split; [done | by intros (? & ? & ? & _)]].
  destruct (Batch.uploader v) as [uploader |].
  - split.
    + intros H. exists title, uploader.
      destruct (Batch._is_duplicate _ _); [done |].
      destruct (Batch._contains_keyword title (Batch.POLITICAL_KEYWORDS G));
        [done |].
      destruct (Batch._contains_keyword uploader _); [done |].
      destruct (Batch._contains_keyword title
                  (Batch.TITLE_EXCLUDE_KEYWORDS G)); [done |].
      destruct (Batch._contains_keyword title (Batch.TITLE_MUST_CONTAIN G));
        [|done].
      simpl in H. destruct (_ <? _) eqn:E; [done |].
      apply Z.ltb_ge in E. done.
    + intros (t & u & [= <-] & [= <-] & -> & -> & -> & Hv & Hd).
      destruct (Batch._contains_keyword title
                  (Batch.TITLE_EXCLUDE_KEYWORDS G)); [done |].
      destruct (Batch._contains_keyword title (Batch.TITLE_MUST_CONTAIN G));
        [|done].
      simpl. by apply Z.ltb_ge in Hd as ->.
  - split; [|by intros (? & ? & _ & ? & _)].
    repeat (destruct (_ : bool); try done).
Qed.

Lemma filter_accepted_again (videos : list Batch.video_dict) :
  Forall (fun v => first_failing_check G self v = Accepted) videos →
  Batch._filter_videos G self videos = Py.Ok (videos, Batch.no_counts).
Proof.
  intros Hall. unfold Batch._filter_videos.
  pose proof (_filter_videos_loop G self videos [] Batch.no_counts) as H.
  assert (Hnone : ∀ r, r ≠ Accepted →
            tally_of (first_failing_check G self) r videos = 0).
  { intros r Hr. apply tally_of_none.
    eapply Forall_impl; [exact Hall |]. simpl. congruence. }
  assert (Hid : List.filter
                  (fun v => bool_decide
                              (first_failing_check G self v = Accepted))
                  videos = videos).
  { clear H Hnone. induction Hall as [|v videos Hv Hall IH]; simpl; [done |].
    rewrite bool_decide_eq_true_2 by done. by f_equal. }
  destruct (fold_left _ videos _) as [[filtered n] | e].
  - destruct H as (_ & -> & Ht & Hd & Hp & Hdup & Hf).
    rewrite (Hnone TitleMismatch), (Hnone ExcludedTerm) in Ht by done.
    rewrite Hnone in Hd, Hp, Hdup by done. rewrite Hid.
    destruct n. simpl in *. subst. done.
  - destruct H as (_ & v & Hin & Hn).
    rewrite Forall_forall in Hall. apply Hall in Hin. congruence.
Qed.

Lemma filter_videos_raised (videos : list Batch.video_dict) e :
  Batch._filter_videos G self videos = Py.Raise e →
  e = Py.AttributeError
  ∧ ∃ v, v ∈ videos ∧ (Batch.title v = None ∨ Batch.uploader v = None).
Proof.
  unfold Batch._filter_videos. intros E.
  pose proof (_filter_videos_loop G self videos [] Batch.no_counts) as H.
  rewrite E in H. destruct H as (-> & v & Hin & Hn).
  split; [done |]. exists v. split; [done | by apply not_text_spec].
Qed.

(** X3.  What [_filter_videos] returns is a sub-list of its input, in
    the input's order; every video it keeps has a title and an uploader
    that are strings, is no duplicate, has no sensitive term in its
    title or its uploader, has a valid title, and lasts at least
    [MIN_DURATION_SECONDS] (a video without a duration counts as 0
    seconds); and filtering the result again keeps all of it and counts
    nothing.  When it raises, the exception is [AttributeError] and some
    video has no string for a title or for an uploader. *)
Theorem filter_survivors (videos : list Batch.video_dict) :
  match Batch._filter_videos G self videos with
  | Py.Ok (kept, _) =>
      kept `sublist_of` videos
      ∧ (∀ v, v ∈ kept →
           ∃ title uploader,
             Batch.title v = Some title ∧ Batch.uploader v = Some uploader
             ∧ Batch._is_duplicate self title = false
             ∧ Batch._contains_keyword title (Batch.POLITICAL_KEYWORDS G)
               = false
             ∧ Batch._contains_keyword uploader (Batch.POLITICAL_KEYWORDS G)
               = false
             ∧ Batch._is_valid_title G title = true
             ∧ Batch.MIN_DURATION_SECONDS G <= default 0 (Batch.duration v))
      ∧ Batch._filter_videos G self kept = Py.Ok (kept, Batch.no_counts)
  | Py.Raise e =>
      e = Py.AttributeError
      ∧ ∃ v, v ∈ videos ∧ (Batch.title v = None ∨ Batch.uploader v = None)
  end.
Proof.
  destruct (Batch._filter_videos G self videos) as [[kept n] | e] eqn:E.
  - apply filter_videos_accepted in E. subst kept.
    split; [apply filter_accepted_sublist | split].
    + intros v Hv. apply list_elem_of_In, filter_In in Hv as [_ Hv].
      apply bool_decide_eq_true in Hv. by apply accepted_spec.
    + apply filter_accepted_again, Forall_forall. intros v Hv.
      apply list_elem_of_In, filter_In in Hv as [_ Hv].
      by apply bool_decide_eq_true in Hv.
  - by apply filter_videos_raised.
Qed.

End FilterSurvivors.

(** ** The search loop: what it gathers *)

Section Gathering.
Context `{RT : Runtime} {World : Type} `{AG : !Agent World}.

Lemma read_lines_grows lines videos seen :
  videos `prefix_of` (Batch.read_lines lines videos seen).1
  ∧ seen ⊆ (Batch.read_lines lines videos seen).2.
Proof.
  revert videos seen.
  induction lines as [|line lines IH]; intros videos seen;
    cbn [Batch.read_lines]; [done |].
  destruct (Py.strip line); [by apply IH |].
  destruct (json_loads line) as [| |o]; [by apply IH | done |].
  destruct (bool_decide _); [by apply IH |].
  destruct (IH (videos ++ [Batch.video_of_info o]) ({[vi_id o]} ∪ seen))
    as (Hpre & Hsub).
  split.
  - etrans; [|exact Hpre]. by apply prefix_app_r.
  - etrans; [|exact Hsub]. apply union_subseteq_r.
Qed.

Lemma read_lines_coherent lines videos seen :
  coherent videos seen →
  coherent (Batch.read_lines lines videos seen).1
    (Batch.read_lines lines videos seen).2.
Proof.
  revert videos seen.
  induction lines as [|line lines IH]; intros videos seen Hc;
    cbn [Batch.read_lines]; [done |].
  destruct (Py.strip line); [by apply IH |].
  destruct (json_loads line) as [| |o]; [by apply IH | done |].
  destruct (bool_decide _) eqn:E; [by apply IH |].
  apply bool_decide_eq_false in E.
  destruct Hc as (Hnd & Hseen & Hurl).
  apply IH. split; [|split].
  - rewrite fmap_app. apply NoDup_app. repeat split; [done | |].
    + intros x Hx Hx'. apply list_elem_of_singleton in Hx'.
      simpl in Hx'. subst x. by apply Hseen in Hx.
    + apply NoDup_singleton.
  - intros x.
    rewrite fmap_app, elem_of_app, elem_of_union, elem_of_singleton.
    rewrite Hseen. simpl. rewrite list_elem_of_singleton. tauto.
  - apply Forall_app. split; [done |]. by constructor.
Qed.

Lemma search_term_grows term (st : Batch.search_state World) :
  Batch.all_videos st `prefix_of` Batch.all_videos (Batch.search_term term st)
  ∧ Batch.seen_ids st ⊆ Batch.seen_ids (Batch.search_term term st).
Proof.
  unfold Batch.search_term.
  destruct (subprocess_run _ _ _) as [[rc out err| |] w']; simpl; try done.
  destruct (negb _); simpl; [done |].
  pose proof (read_lines_grows (Py.split_on 10 (Py.strip out))
                (Batch.all_videos st) (Batch.seen_ids st)) as H.
  destruct (Batch.read_lines _ _ _) as [videos ids]. exact H.
Qed.

Lemma search_term_coherent term (st : Batch.search_state World) :
  coherent (Batch.all_videos st) (Batch.seen_ids st) →
  coherent (Batch.all_videos (Batch.search_term term st))
    (Batch.seen_ids (Batch.search_term term st)).
Proof.
  intros Hc. unfold Batch.search_term.
  destruct (subprocess_run _ _ _) as [[rc out err| |] w']; simpl; try done.
  destruct (negb _); simpl; [done |].
  pose proof (read_lines_coherent (Py.split_on 10 (Py.strip out))
                _ _ Hc) as H.
  destruct (Batch.read_lines _ _ _) as [videos ids]. exact H.
Qed.

Lemma search_loop_grows n terms (st : Batch.search_state World) :
  Batch.all_videos st
  `prefix_of` Batch.all_videos (Batch.search_loop n terms st)
  ∧ Batch.seen_ids st ⊆ Batch.seen_ids (Batch.search_loop n terms st).
Proof.
  revert st. induction terms as [|term terms IH]; intros st; simpl.
  - done.
  - destruct (_ <=? _); [done |].
    destruct (search_term_grows term st) as (Hpre & Hsub).
    destruct (IH (Batch.search_term term st)) as (Hpre' & Hsub').
    split; by etrans.
Qed.

Lemma search_loop_coherent n terms (st : Batch.search_state World) :
  coherent (Batch.all_videos st) (Batch.seen_ids st) →
  coherent (Batch.all_videos (Batch.search_loop n terms st))
    (Batch.seen_ids (Batch.search_loop n terms st)).
Proof.
  revert st. induction terms as [|term terms IH]; intros st Hc; simpl.
  - done.
  - destruct (_ <=? _); [done |].
    by apply IH, search_term_coherent.
Qed.

Lemma coherent_start : coherent [] ∅.
Proof.
  repeat split; try done.
  - apply NoDup_nil_2.
  - intros H. by apply elem_of_nil in H.
Qed.

Lemma slice_to_sublist {A} (n : Z) (l : list A) :
  Py.slice_to n l `sublist_of` l.
Proof. unfold Py.slice_to. destruct (_ <=? _); apply sublist_take. Qed.


(** X4.  The candidates a search gathers have pairwise distinct ids,
    which are exactly the ids recorded as seen, and each links to the
    watch page of its id.  The videos returned are candidates with
    pairwise distinct ids, each passes every check of the filter, and
    there are at most [max_results] of them.  When the search raises
    instead, the exception is [AttributeError] and some candidate has no
    string for a title or for an uploader. *)
Theorem search_results_distinct (G : Batch.config)
    (self : Batch.YouTubeDocumentaryDownloader)
    (keyword : Py.str) (max_results : option Z) (w : World) :
  let n := default (Batch.max_downloads self) max_results in
  let found := Batch.search_videos G self keyword max_results w in
  let st := found.2 in
  NoDup (Batch.id <$> Batch.all_videos st)
  ∧ (∀ x, x ∈ Batch.seen_ids st ↔ x ∈ Batch.id <$> Batch.all_videos st)
  ∧ (∀ v, v ∈ Batch.all_videos st →
       Batch.url v
       = Py.lit "https://www.youtube.com/watch?v=" ++ Batch.id v)
  ∧ match found.1 with
    | Py.Ok final =>
        NoDup (Batch.id <$> final)
        ∧ (∀ v, v ∈ final →
             v ∈ Batch.all_videos st
             ∧ first_failing_check G self v = Accepted)
        ∧ Py.len final <= Z.max 0 n
    | Py.Raise e =>
        e = Py.AttributeError
        ∧ ∃ v, v ∈ Batch.all_videos st
               ∧ (Batch.title v = None ∨ Batch.uploader v = None)
    end.
Proof.
  intros n found st. subst st found. unfold Batch.search_videos.
  fold n. cbn [fst snd].
  set (start := {| Batch.all_videos := []; Batch.seen_ids := ∅;
                   Batch.world := w; Batch.calls := [] |}).
  set (st := Batch.search_loop n Batch.search_terms start).
  destruct (search_loop_coherent n Batch.search_terms start coherent_start)
    as (Hnd & Hseen & Hurl).
  fold st in Hnd, Hseen, Hurl.
  split; [done | split; [done | split; [by apply Forall_forall |]]].
  destruct (Batch._filter_videos G self (Batch.all_videos st))
    as [[survivors counts] | e] eqn:E; cbn [Py.bind];
    [| exact (filter_videos_raised G self _ _ E)].
  apply filter_videos_accepted in E.
  assert (Hsub : Py.slice_to n (Py.sort_by Batch.upload_time survivors)
                 ⊆ survivors).
  { intros v Hv.
    apply (sublist_subseteq _ _ (slice_to_sublist n _)) in Hv.
    by rewrite (sort_by_perm Batch.upload_time survivors) in Hv. }
  split; [| split].
  - eapply sublist_NoDup; [| apply fmap_sublist, slice_to_sublist].
    rewrite (sort_by_perm Batch.upload_time survivors).
    eapply sublist_NoDup; [exact Hnd |].
    apply fmap_sublist. rewrite E. apply filter_accepted_sublist.
  - intros v Hv. apply Hsub in Hv. rewrite E in Hv.
    apply list_elem_of_In, filter_In in Hv as [Hin Hv].
    apply bool_decide_eq_true in Hv. split; [by apply list_elem_of_In | done].
  - destruct (Z.le_gt_cases 0 n) as [Hn | Hn].
    + unfold Py.slice_to, Py.len.
      rewrite (proj2 (Z.leb_le 0 n) Hn), length_take. lia.
    + assert (Hst : st = start).
      { unfold st. apply search_loop_stop. unfold Py.len. simpl. lia. }
      rewrite Hst in E. simpl in E. subst survivors. simpl.
      unfold Py.slice_to, Py.len.
      destruct (_ <=? _); rewrite ?take_nil; simpl; lia.
Qed.

(** X5.  Searching never loses a candidate: the candidates held before a
    term, or before the whole loop, are still there afterwards, at the
    head of the list and in their order, and so are the seen ids.  A term
    whose search fails (the agent times out, raises, or ends with a
    non-zero code) changes neither. *)
Theorem search_keeps_candidates (n : Z) (terms : list Py.str)
    (st : Batch.search_state World) :
  (Batch.all_videos st
   `prefix_of` Batch.all_videos (Batch.search_loop n terms st)
   ∧ Batch.seen_ids st ⊆ Batch.seen_ids (Batch.search_loop n terms st))
  ∧ ∀ term,
      Batch.all_videos st
      `prefix_of` Batch.all_videos (Batch.search_term term st)
      ∧ ((∀ stdout stderr,
            (subprocess_run (Batch.search_cmd term) 180 (Batch.world st)).1
            ≠ Completed 0 stdout stderr) →
         Batch.all_videos (Batch.search_term term st) = Batch.all_videos st
         ∧ Batch.seen_ids (Batch.search_term term st) = Batch.seen_ids st).
Proof.
  split.
  - apply search_loop_grows.
  - intros term. split; [apply search_term_grows |].
    unfold Batch.search_term.
    destruct (subprocess_run _ _ _) as [[rc out err| |] w']; simpl; try done.
    intros Hfail. destruct (rc =? 0) eqn:E; simpl; [|done].
    apply Z.eqb_eq in E. subst rc. by destruct (Hfail out err).
Qed.

(** X6.  Asked for no video, or for a negative number of videos,
    [search_videos] hands no command to the agent and returns the empty
    list. *)
Theorem search_nothing_wanted (G : Batch.config)
    (self : Batch.YouTubeDocumentaryDownloader)
    (keyword : Py.str) (max_results : option Z) (w : World) :
  default (Batch.max_downloads self) max_results <= 0 →
  Batch.search_videos G self keyword max_results w
  = (Py.Ok [], {| Batch.all_videos := []; Batch.seen_ids := ∅;
                  Batch.world := w; Batch.calls := [] |}).
Proof.
  intros Hn. unfold Batch.search_videos.
  rewrite search_loop_stop by (unfold Py.len; simpl; lia). simpl.
  unfold Py.slice_to. destruct (_ <=? _); by rewrite take_nil.
Qed.

End Gathering.

(** ** Stripping *)

Section Stripping.

Lemma lstrip_head (s : Py.str) :
  match Py.lstrip s with
  | c :: _ => Py.isspace c = false
  | [] => True
  end.
Proof.
  induction s as [|c s IH]; simpl; [done |].
  destruct (Py.isspace c) eqn:E; [exact IH | exact E].
Qed.

Lemma lstrip_id (s : Py.str) :
  match s with
  | c :: _ => Py.isspace c = false
  | [] => True
  end →
  Py.lstrip s = s.
Proof. destruct s as [|c s]; simpl; [done |]. by intros ->. Qed.

Lemma rstrip_app (s : Py.str) : ∃ ws, s = Py.rstrip s ++ ws.
Proof.
  unfold Py.rstrip. destruct (lstrip_app (rev s)) as (ws & Heq & _).
  exists (rev ws). apply (f_equal (@rev N)) in Heq.
  by rewrite rev_involutive, rev_app_distr in Heq.
Qed.

Lemma strip_idem (s : Py.str) : Py.strip (Py.strip s) = Py.strip s.
Proof.
  unfold Py.strip. set (t := Py.lstrip s).
  assert (Hl : Py.lstrip (Py.rstrip t) = Py.rstrip t).
  { apply lstrip_id. destruct (rstrip_app t) as (ws & Heq).
    destruct (Py.rstrip t) as [|c u]; [done |].
    pose proof (lstrip_head s) as Hh. fold t in Hh.
    rewrite Heq in Hh. exact Hh. }
  rewrite Hl. unfold Py.rstrip at 1. unfold Py.rstrip at 1.
  rewrite rev_involutive. unfold Py.rstrip. f_equal.
  apply lstrip_id, lstrip_head.
Qed.

Lemma strip_sublist (s : Py.str) : Py.strip s `sublist_of` s.
Proof.
  unfold Py.strip. transitivity (Py.lstrip s).
  - destruct (rstrip_app (Py.lstrip s)) as (ws & Heq).
    assert (H : ∀ a b : Py.str, b = a ++ ws → a `sublist_of` b).
    { intros a b ->. by apply sublist_inserts_r. }
    by apply H.
  - destruct (lstrip_app s) as (ws & Heq & _).
    assert (H : ∀ a b : Py.str, b = ws ++ a → a `sublist_of` b).
    { intros a b ->. by apply sublist_inserts_l. }
    by apply H.
Qed.

End Stripping.

(** ** Downloading and recording the hits *)

Section Downloading.
Context `{RT : Runtime} {World : Type} `{AG : !Agent World}.
Context `{LB : !Batch.Library World}.
Context (G : Batch.config) (EXCEL_AVAILABLE : bool) (output_dir : Py.str).

Lemma download_titled_facts (video_info : Batch.entry) (title : Py.str)
    (s : Batch.session World) :
  let r := Batch.download_titled output_dir video_info title s in
  Batch.commands r.2
  = Batch.commands s
    ++ [Batch.download_cmd output_dir (Batch.url (Batch.hit video_info))]
  ∧ Batch.hit r.1.2 = Batch.hit video_info
  ∧ is_Some (Batch.status r.1.2)
  ∧ Batch.downloaded_info r.2 = Batch.downloaded_info s
  ∧ Batch.filtered_info r.2 = Batch.filtered_info s
  ∧ Batch.saved r.2 = Batch.saved s.
Proof.
  unfold Batch.download_titled, Batch.run. simpl.
  destruct (subprocess_run _ _ _) as [[rc out err| |] w']; simpl.
  - destruct (rc =? 0); simpl; repeat split; eauto.
  - repeat split; eauto.
  - repeat split; eauto.
Qed.

(** X7.  [download_video] hands exactly one command to the agent, with
    the link of the video as its last word.  It returns [True] exactly
    when the agent ends with code 0, and exactly then the status it
    records is the one for success; a time-out, an exception and a
    non-zero code all give [False] and another status.  The time of
    download is recorded on success only, and the lists of the object
    are not touched.  On a title that is [None] it raises [TypeError]
    and hands nothing to the agent. *)
Theorem download_video_outcome (video_info : Batch.entry)
    (s : Batch.session World) :
  let cmd :=
    Batch.download_cmd output_dir (Batch.url (Batch.hit video_info)) in
  let reply := (subprocess_run cmd 900 (Batch.outside s)).1 in
  match Batch.title (Batch.hit video_info) with
  | None =>
      Batch.download_video output_dir video_info s = Py.Raise Py.TypeError
  | Some _ =>
      ∃ r, Batch.download_video output_dir video_info s = Py.Ok r
        ∧ (Batch.commands r.2 = Batch.commands s ++ [cmd]
           ∧ last cmd = Some (Batch.url (Batch.hit video_info)))
        ∧ (r.1.1 = true ↔ ∃ stdout stderr, reply = Completed 0 stdout stderr)
        ∧ (r.1.1 = true ↔ Batch.status r.1.2 = Some (Py.lit "成功"))
        ∧ is_Some (Batch.status r.1.2)
        ∧ (r.1.1 = true → is_Some (Batch.downloaded_at r.1.2))
        ∧ (r.1.1 = false →
           Batch.downloaded_at r.1.2 = Batch.downloaded_at video_info)
        ∧ Batch.hit r.1.2 = Batch.hit video_info
        ∧ Batch.downloaded_info r.2 = Batch.downloaded_info s
        ∧ Batch.filtered_info r.2 = Batch.filtered_info s
  end.
Proof.
  intros cmd reply. unfold Batch.download_video.
  destruct (Batch.title (Batch.hit video_info)) as [title |]; [|done].
  eexists. split; [reflexivity |].
  set (r := Batch.download_titled output_dir video_info title s).
  destruct (download_titled_facts video_info title s)
    as (Hcmd & Hhit & Hst & Hd & Hf & _).
  fold r in Hcmd, Hhit, Hst, Hd, Hf.
  split; [split; [exact Hcmd | done] |].
  assert (Hne1 : Py.lit "失败" ≠ Py.lit "成功") by (by vm_compute).
  assert (Hne2 : Py.lit "超时" ≠ Py.lit "成功") by (by vm_compute).
  assert (Hne3 : Py.lit "错误" ≠ Py.lit "成功") by (by vm_compute).
  repeat (split; [| by auto]).
  clear Hcmd Hhit Hst Hd Hf.
  subst r reply cmd. unfold Batch.download_titled, Batch.run. simpl.
  destruct (subprocess_run _ _ _) as [[rc out err| |] w']; simpl.
  - destruct (rc =? 0) eqn:E; simpl.
    + apply Z.eqb_eq in E. subst rc. repeat split; eauto; done.
    + apply Z.eqb_neq in E.
      repeat split;
        first [ done | by intros (? & ? & [= ? ? ?]) | by intros [= ?] ].
  - repeat split; first [ done | by intros (? & ? & ?) | by intros [= ?] ].
  - repeat split; first [ done | by intros (? & ? & ?) | by intros [= ?] ].
Qed.



End Downloading.

(** ** The rows of the record files *)

Section Records.


End Records.

(** ** The title that is printed *)

Section SafeTitle.
Context {World : Type} `{LB : !Batch.Library World}.

Lemma strip_head (s : Py.str) :
  match Py.strip s with
  | c :: _ => Py.isspace c = false
  | [] => True
  end.
Proof.
  unfold Py.strip. destruct (rstrip_app (Py.lstrip s)) as (ws & Heq).
  destruct (Py.rstrip (Py.lstrip s)) as [|c u]; [done |].
  pose proof (lstrip_head s) as Hh. rewrite Heq in Hh. exact Hh.
Qed.

(** X10.  The title [download_video] prints is made of characters of the
    title, in their order, each of them alphanumeric or one of space,
    [-], [_] and [.]; it has at most 80 characters and does not start
    with white space. *)
Theorem safe_title_safe (title : Py.str) :
  Batch.safe_title title `sublist_of` title
  ∧ Forall
      (fun c => Batch.isalnum c = true ∨ c ∈ [32%N; 45%N; 95%N; 46%N])
      (Batch.safe_title title)
  ∧ (length (Batch.safe_title title) <= 80)%nat
  ∧ match Batch.safe_title title with
    | c :: _ => Py.isspace c = false
    | [] => True
    end.
Proof.
  unfold Batch.safe_title. cbn zeta.
  set (kept := List.filter _ title).
  change (Py.slice_to 80 (Py.strip kept)) with (take 80 (Py.strip kept)).
  assert (Hsub : take 80 (Py.strip kept) `sublist_of` kept).
  { etrans; [apply sublist_take | apply strip_sublist]. }
  assert (Hkept : kept `sublist_of` title).
  { unfold kept. clear. induction title as [|c title IH]; simpl; [done |].
    destruct (_ || _); by constructor. }
  split; [by etrans |]. split; [| split].
  - apply Forall_forall. intros c Hc.
    apply (sublist_subseteq _ _ Hsub) in Hc.
    apply list_elem_of_In, filter_In in Hc as [_ Hc].
    apply orb_true_iff in Hc as [Hc | Hc]; [by left | right].
    by apply bool_decide_eq_true in Hc.
  - rewrite length_take. lia.
  - pose proof (strip_head kept) as Hh.
    destruct (Py.strip kept) as [|c u]; [done | exact Hh].
Qed.

End SafeTitle.

(** ** From the record file back to seconds *)

Section LengthRoundTrip.
Context `{RT : Runtime}.




Section AsciiDigits.
Hypothesis ascii_digits :
  ∀ c, (48 <= c <= 57)%N → decimal c = Some (c - 48)%N.



End AsciiDigits.



End LengthRoundTrip.

(** ** The id of a video in its link *)

Section VideoId.

Lemma id_group_spec (s g : Py.str) :
  Excel.id_group s = Some g
  ↔ ∃ after, s = g ++ after ∧ length g = 11%nat
             ∧ Forall (fun c => Excel.is_id_char c = true) g.
Proof.
  unfold Excel.id_group. split.
  - destruct (_ && _) eqn:E; [|done]. intros [= <-].
    apply andb_true_iff in E as [Hlen Hall].
    apply Nat.eqb_eq in Hlen.
    exists (drop 11 s). split; [by rewrite take_drop | split; [done |]].
    apply Forall_forall. intros c Hc.
    rewrite forallb_forall in Hall. by apply Hall, list_elem_of_In.
  - intros (after & -> & Hlen & Hall).
    rewrite <- Hlen, take_app_length, Hlen. simpl.
    assert (H : forallb Excel.is_id_char g = true).
    { apply forallb_forall. intros c Hc.
      rewrite Forall_forall in Hall. by apply Hall, list_elem_of_In. }
    by rewrite H.
Qed.

Lemma match_at_sound (alternatives : list Py.str) (s g : Py.str) :
  Excel.match_at alternatives s = Some g →
  id_after alternatives s g ∧ ∃ marker after, s = marker ++ g ++ after.
Proof.
  induction alternatives as [|p rest IH]; simpl; [done |].
  assert (Hrest : Excel.match_at rest s = Some g →
                  id_after (p :: rest) s g
                  ∧ ∃ marker after, s = marker ++ g ++ after).
  { intros H. destruct (IH H) as ((b & mk & a & ? & ? & ?) & ?).
    split; [|done]. exists b, mk, a. split; [done |].
    split; [by right | done]. }
  destruct (Py.startswith p s) eqn:Ep; [|exact Hrest].
  destruct (Excel.id_group _) as [g'|] eqn:Eg; [|exact Hrest].
  intros [= ->].
  apply startswith_spec in Ep as (tail & ->).
  rewrite drop_app_length in Eg.
  apply id_group_spec in Eg as (after & -> & Hlen & Hall).
  split; [| by exists p, after].
  exists [], p, after. split; [done |]. split; [by left | done].
Qed.

Lemma match_at_complete (alternatives : list Py.str) (marker g after : Py.str) :
  marker ∈ alternatives → length g = 11%nat →
  Forall (fun c => Excel.is_id_char c = true) g →
  is_Some (Excel.match_at alternatives (marker ++ g ++ after)).
Proof.
  intros Hin Hlen Hall.
  induction alternatives as [|p rest IH]; [by apply elem_of_nil in Hin |].
  simpl. destruct (decide (p = marker)) as [-> | Hne].
  - assert (Hs : Py.startswith marker (marker ++ g ++ after) = true).
    { apply startswith_spec. by eexists. }
    rewrite Hs, drop_app_length.
    assert (Hg : Excel.id_group (g ++ after) = Some g).
    { apply id_group_spec. by exists after. }
    rewrite Hg. by eexists.
  - apply elem_of_cons in Hin as [-> | Hin]; [done |].
    destruct (Py.startswith p _); [|by apply IH].
    destruct (Excel.id_group _); [by eexists | by apply IH].
Qed.

Lemma search_id_sound (alternatives : list Py.str) (s g : Py.str) :
  Excel.search_id alternatives s = Some g → id_after alternatives s g.
Proof.
  induction s as [|c s IH]; simpl.
  - destruct (Excel.match_at alternatives []) eqn:E; [|done].
    intros [= ->]. by apply match_at_sound in E as [? _].
  - destruct (Excel.match_at alternatives (c :: s)) eqn:E.
    + intros [= ->]. by apply match_at_sound in E as [? _].
    + intros H. destruct (IH H) as (b & mk & a & -> & ? & ?).
      by exists (c :: b), mk, a.
Qed.

Lemma search_id_complete (alternatives : list Py.str) (s g : Py.str) :
  id_after alternatives s g → is_Some (Excel.search_id alternatives s).
Proof.
  intros (before & marker & after & -> & Hin & Hlen & Hall).
  induction before as [|c before IH].
  - destruct (match_at_complete alternatives marker g after Hin Hlen Hall)
      as [g' Hg'].
    simpl. destruct (marker ++ g ++ after); simpl; by rewrite Hg'; eexists.
  - simpl. destruct (Excel.match_at _ _); [by eexists | exact IH].
Qed.

(** X12.  [format_video_id] returns eleven characters out of letters,
    digits, [_] and [-] that stand in the link right after [v=], [/v/]
    or [youtu.be/]; it returns [None] exactly when the link holds no
    such run.  Its second pattern never decides: the result is that of
    the first pattern alone. *)
Theorem format_video_id_spec (url : Py.str) :
  let markers := [Py.lit "v="; Py.lit "/v/"; Py.lit "youtu.be/"] in
  (∀ g, Excel.format_video_id url = Some g → id_after markers url g)
  ∧ (Excel.format_video_id url = None ↔ ∀ g, ¬ id_after markers url g)
  ∧ Excel.format_video_id url = Excel.search_id markers url.
Proof.
  intros markers.
  assert (Hsecond : Excel.search_id markers url = None →
                    Excel.search_id [Py.lit "watch?v="] url = None).
  { intros Hnone.
    destruct (Excel.search_id [Py.lit "watch?v="] url) as [g|] eqn:E;
      [|done].
    apply search_id_sound in E as (b & mk & a & -> & Hmk & Hlen & Hall).
    apply list_elem_of_singleton in Hmk. subst mk.
    assert (Hsome : is_Some (Excel.search_id markers
                               (b ++ Py.lit "watch?v=" ++ g ++ a))).
    { apply (search_id_complete markers _ g).
      exists (b ++ Py.lit "watch?"), (Py.lit "v="), a.
      split; [by rewrite <- !app_assoc | split; [by left | done]]. }
    rewrite Hnone in Hsome. by destruct Hsome. }
  assert (Heq : Excel.format_video_id url = Excel.search_id markers url).
  { unfold Excel.format_video_id. fold markers.
    destruct (Excel.search_id markers url) eqn:E; [done |].
    by apply Hsecond. }
  split; [| split; [| exact Heq]].
  - intros g. rewrite Heq. apply search_id_sound.
  - rewrite Heq. split.
    + intros Hnone g Hg. apply search_id_complete in Hg.
      rewrite Hnone in Hg. by destruct Hg.
    + intros Hno. destruct (Excel.search_id markers url) as [g|] eqn:E;
        [|done].
      by apply search_id_sound, Hno in E.
Qed.

End VideoId.

(** ** One download attempt *)

Section Attempt.
Context `{RT : Runtime} {World : Type} `{AG : !Agent World}.

Lemma download_cmd_off_youtube url output_name output_dir
    start_time end_time p :
  p ≠ Excel.youtube →
  Excel.download_cmd url output_name output_dir start_time end_time p
  = Excel.download_cmd url output_name output_dir None None p.
Proof.
  intros Hp. unfold Excel.download_cmd.
  destruct start_time as [start|]; [|done].
  by destruct (decide (p = Excel.youtube)).
Qed.

(** X13.  A time range is used on YouTube only: for any other platform
    [download_video_segment] builds the same command, gets the same
    answer, prints the same lines and leaves the same world as without
    the range.  On YouTube the range is the last option before the link,
    [*start-end]; an end of 0 is taken as no end. *)
Theorem range_only_on_youtube url output_name output_dir
    (start : Z) (end_time : option Z) p (m : Excel.machine World) :
  (p ≠ Excel.youtube →
   let r := Excel.download_video_segment url output_name output_dir
              (Some start) end_time p m in
   let r0 := Excel.download_video_segment url output_name output_dir
               None None p m in
   Excel.download_cmd url output_name output_dir (Some start) end_time p
   = Excel.download_cmd url output_name output_dir None None p
   ∧ r.1 = r0.1
   ∧ Excel.world r.2 = Excel.world r0.2
   ∧ Excel.console r.2 = Excel.console r0.2
   ∧ Excel.agent_calls r.2 = Excel.agent_calls r0.2)
  ∧ (∃ options,
       Excel.download_cmd url output_name output_dir None None Excel.youtube
       = options ++ [url]
       ∧ Excel.download_cmd url output_name output_dir (Some start) end_time
           Excel.youtube
         = options
           ++ [Py.lit "--download-sections";
               match end_time with
               | Some e =>
                   if e =? 0 then Py.lit "*" ++ Py.str_of_int start ++ Py.lit "-"
                   else Py.lit "*" ++ Py.str_of_int start ++ Py.lit "-"
                        ++ Py.str_of_int e
               | None => Py.lit "*" ++ Py.str_of_int start ++ Py.lit "-"
               end; url]).
Proof.
  split.
  - intros Hp r r0. subst r r0.
    pose proof (download_cmd_off_youtube url output_name output_dir
                  (Some start) end_time p Hp) as Hcmd.
    split; [exact Hcmd |].
    unfold Excel.download_video_segment. rewrite Hcmd.
    destruct (path_exists _ _); [done |].
    unfold Excel.run. simpl.
    destruct (subprocess_run _ _ _) as [[rc out err| |] w']; simpl;
      try done.
    destruct (rc =? 0); simpl; [done |].
    unfold Excel.report_failure. destruct err; [done |].
    repeat (destruct (Py.contains _ _); simpl; try done).
  - exists [Py.lit "yt-dlp"; Py.lit "--remote-components"; Py.lit "ejs:github";
            Py.lit "-f"; Excel.VIDEO_QUALITY;
            Py.lit "--no-playlist"; Py.lit "--no-check-certificate";
            Py.lit "--merge-output-format"; Py.lit "mp4";
            Py.lit "-o"; Excel.output_path output_dir output_name;
            Py.lit "--write-subs";
            Py.lit "--sub-lang"; Py.lit "en,zh-Hans,zh-Hant,zh";
            Py.lit "--convert-subs"; Py.lit "vtt"].
    unfold Excel.download_cmd.
    rewrite (decide_True (P := Excel.youtube = Excel.youtube)) by done.
    rewrite (decide_True
               (P := Excel.youtube = Excel.youtube
                     ∨ Excel.youtube = Excel.bilibili)) by (by left).
    split; [reflexivity |].
    cbn [app]. do 17 f_equal.
    destruct end_time as [e|]; [|reflexivity].
    unfold Excel.truthy. destruct (e =? 0); reflexivity.
Qed.

(** X14.  A call of [download_video_segment] hands at most one command
    to the agent: none when the file is there, one otherwise.  It
    returns [False] exactly when the file is missing and the agent does
    not end with code 0: a time-out and an exception of the agent are
    reported as a failure of the unit, they do not end the run. *)
Theorem download_attempt_outcome url output_name output_dir
    start_time end_time p (m : Excel.machine World) :
  let there :=
    path_exists (Excel.output_path output_dir output_name) (Excel.world m) in
  let cmd :=
    Excel.download_cmd url output_name output_dir start_time end_time p in
  let reply := subprocess_run cmd 900 (Excel.world m) in
  let r :=
    Excel.download_video_segment url output_name output_dir
      start_time end_time p m in
  Excel.agent_calls r.2
  = Excel.agent_calls m ++ (if there then [] else [cmd])
  ∧ Excel.world r.2 = (if there then Excel.world m else reply.2)
  ∧ (r.1 = false
     ↔ there = false
       ∧ ∀ stdout stderr, reply.1 ≠ Completed 0 stdout stderr)
  ∧ (there = false → reply.1 = TimeoutExpired →
     r.1 = false
     ∧ Excel.console r.2
       = Excel.console m
         ++ [Excel.Downloading p output_name; Excel.TimedOut output_name])
  ∧ (there = false → reply.1 = OtherException →
     r.1 = false
     ∧ Excel.console r.2
       = Excel.console m
         ++ [Excel.Downloading p output_name; Excel.Errored output_name]).
Proof.
  intros there cmd reply r. subst there cmd reply r.
  unfold Excel.download_video_segment.
  destruct (path_exists _ _); simpl.
  - rewrite app_nil_r. repeat split; try done. by intros [? _].
  - unfold Excel.run. simpl.
    destruct (subprocess_run _ _ _) as [[rc out err| |] w']; simpl.
    + destruct (rc =? 0) eqn:E; simpl.
      * apply Z.eqb_eq in E. subst rc.
        repeat split; try done. intros [_ H]. by destruct (H out err).
      * apply Z.eqb_neq in E.
        assert (Hrf : ∀ m0 : Excel.machine World,
                  Excel.agent_calls (Excel.report_failure output_name err m0)
                  = Excel.agent_calls m0
                  ∧ Excel.world (Excel.report_failure output_name err m0)
                    = Excel.world m0).
        { intros m0. unfold Excel.report_failure. destruct err; [done |].
          repeat (destruct (Py.contains _ _); simpl; try done). }
        destruct (Hrf {| Excel.world := w';
                         Excel.console :=
                           Excel.console m
                           ++ [Excel.Downloading p output_name];
                         Excel.agent_calls :=
                           Excel.agent_calls m
                           ++ [Excel.download_cmd url output_name output_dir
                                 start_time end_time p];
                         Excel.dispatched := Excel.dispatched m |})
          as [Hc Hw].
        split; [exact Hc | split; [exact Hw |]].
        repeat split; try done. intros ? ? [= ? ? ?]. done.
    + repeat split; try done. by rewrite <- app_assoc.
    + repeat split; try done. by rewrite <- app_assoc.
Qed.

End Attempt.

(** ** Reporting a failed download, probing the duration *)

Section Reporting.
Context `{RT : Runtime} {World : Type} `{AG : !Agent World}.

Lemma report_failure_nonempty (output_name stderr : Py.str)
    (m : Excel.machine World) :
  stderr ≠ [] →
  Excel.report_failure output_name stderr m
  = let m := Excel.print (Excel.Failed output_name) m in
    let stderr_lower := lower stderr in
    if Py.contains (Py.lit "private video") stderr_lower
       || Py.contains (Py.lit "privat") stderr_lower
    then Excel.print Excel.ReasonPrivate m
    else if Py.contains (Py.lit "is not available") stderr_lower
    then Excel.print Excel.ReasonNotAvailable m
    else if Py.contains (Py.lit "login required") stderr_lower
    then Excel.print Excel.ReasonLoginRequired m
    else Excel.print (Excel.ReasonOther (Py.last_chars 200 stderr)) m.
Proof. by destruct stderr. Qed.

(** X15.  After a non-zero exit code [download_video_segment] prints
    that the unit failed and then at most one reason, chosen from the
    lowered error text in a fixed order: private (the text holds
    [privat]; the test for [private video] adds nothing), not available,
    login required, else the last 200 characters of the text.  An empty
    error text gives no reason.  Reporting changes nothing but what is
    printed. *)
Theorem failure_reason_order (output_name stderr : Py.str)
    (m : Excel.machine World) :
  let says (phrase : Py.str) :=
    ∃ before after, lower stderr = before ++ phrase ++ after in
  let m' := Excel.report_failure output_name stderr m in
  (Excel.world m' = Excel.world m
   ∧ Excel.agent_calls m' = Excel.agent_calls m
   ∧ Excel.dispatched m' = Excel.dispatched m)
  ∧ ∃ reason,
      Excel.console m'
      = Excel.console m ++ Excel.Failed output_name :: reason
      ∧ (stderr = [] → reason = [])
      ∧ (stderr ≠ [] → says (Py.lit "privat") →
         reason = [Excel.ReasonPrivate])
      ∧ (stderr ≠ [] → ¬ says (Py.lit "privat") →
         says (Py.lit "is not available") →
         reason = [Excel.ReasonNotAvailable])
      ∧ (stderr ≠ [] → ¬ says (Py.lit "privat") →
         ¬ says (Py.lit "is not available") →
         says (Py.lit "login required") →
         reason = [Excel.ReasonLoginRequired])
      ∧ (stderr ≠ [] → ¬ says (Py.lit "privat") →
         ¬ says (Py.lit "is not available") →
         ¬ says (Py.lit "login required") →
         ∃ tail head,
           reason = [Excel.ReasonOther tail]
           ∧ stderr = head ++ tail
           ∧ length tail = Nat.min (length stderr) 200).
Proof.
  intros says m'. subst m'.
  destruct (decide (stderr = [])) as [-> | Hne].
  { split; [done |]. exists []. repeat split; done. }
  rewrite (report_failure_nonempty _ _ _ Hne). cbn zeta.
  assert (Hpv : Py.contains (Py.lit "private video") (lower stderr) = true →
                Py.contains (Py.lit "privat") (lower stderr) = true).
  { rewrite !contains_spec. intros (b & a & H).
    exists b, (Py.lit "e video" ++ a). rewrite H.
    change (Py.lit "private video")
      with (Py.lit "privat" ++ Py.lit "e video").
    by rewrite <- !app_assoc. }
  assert (Hsays : ∀ phrase,
            Py.contains phrase (lower stderr) = true ↔ says phrase).
  { intros phrase. apply contains_spec. }
  destruct (Py.contains (Py.lit "privat") (lower stderr)) eqn:E1.
  { rewrite orb_true_r. split; [done |].
    exists [Excel.ReasonPrivate]. simpl.
    apply Hsays in E1.
    split; [by rewrite <- app_assoc |].
    split; [done |]. split; [done |].
    split; [intros; exfalso; solve [eauto] |].
    split; intros; exfalso; solve [eauto]. }
  assert (E0 : Py.contains (Py.lit "private video") (lower stderr) = false).
  { apply not_true_iff_false. intros H. apply Hpv in H. congruence. }
  rewrite E0. simpl.
  assert (N1 : ¬ says (Py.lit "privat")).
  { intros H. apply Hsays in H. congruence. }
  destruct (Py.contains (Py.lit "is not available") (lower stderr)) eqn:E2.
  { split; [done |]. exists [Excel.ReasonNotAvailable]. simpl.
    apply Hsays in E2.
    split; [by rewrite <- app_assoc |].
    split; [done |]. split; [intros; exfalso; solve [eauto] |].
    split; [done |].
    split; intros; exfalso; solve [eauto]. }
  assert (N2 : ¬ says (Py.lit "is not available")).
  { intros H. apply Hsays in H. congruence. }
  destruct (Py.contains (Py.lit "login required") (lower stderr)) eqn:E3.
  { split; [done |]. exists [Excel.ReasonLoginRequired]. simpl.
    apply Hsays in E3.
    split; [by rewrite <- app_assoc |].
    split; [done |]. split; [intros; exfalso; solve [eauto] |].
    split; [intros; exfalso; solve [eauto] |].
    split; [done |]. intros; exfalso; solve [eauto]. }
  assert (N3 : ¬ says (Py.lit "login required")).
  { intros H. apply Hsays in H. congruence. }
  split; [done |].
  exists [Excel.ReasonOther (Py.last_chars 200 stderr)]. simpl.
  split; [by rewrite <- app_assoc |].
  split; [done |]. split; [intros; exfalso; solve [eauto] |].
  split; [intros; exfalso; solve [eauto] |].
  split; [intros; exfalso; solve [eauto] |].
  intros _ _ _ _.
  exists (Py.last_chars 200 stderr), (take (length stderr - 200) stderr).
  unfold Py.last_chars. split; [done | split].
  - by rewrite take_drop.
  - rewrite length_drop. lia.
Qed.

(** X16.  The duration probe is made for YouTube and Bilibili links
    only, with one command; for the other platforms the duration is 0
    and nothing is run or printed.  The duration is 0 unless the probe
    ends with code 0 and prints something [int] can read: a time-out, an
    exception, a non-zero code, an empty answer and an answer that is no
    number all give 0. *)
Theorem probe_duration_cases (url : Py.str) (p : Excel.platform)
    (m : Excel.machine World) :
  let cmd := [Py.lit "yt-dlp"; Py.lit "--print"; Py.lit "%(duration)s";
              Py.lit "--no-download"; url] in
  let reply := (subprocess_run cmd 30 (Excel.world m)).1 in
  let r := Excel.probe_duration url p m in
  (p = Excel.rthk ∨ p = Excel.other → r = (0, m))
  ∧ (p = Excel.youtube ∨ p = Excel.bilibili →
     Excel.agent_calls r.2 = Excel.agent_calls m ++ [cmd]
     ∧ Excel.console r.2
       = Excel.console m ++ [Excel.Duration (r.1 / 60) (r.1 mod 60)]
     ∧ Excel.dispatched r.2 = Excel.dispatched m)
  ∧ (r.1 ≠ 0 →
     (p = Excel.youtube ∨ p = Excel.bilibili)
     ∧ ∃ stdout stderr,
         reply = Completed 0 stdout stderr
         ∧ Py.strip stdout ≠ []
         ∧ int_of_text (Py.strip stdout) = Some r.1).
Proof.
  intros cmd reply r. subst r reply cmd. unfold Excel.probe_duration.
  destruct (decide (p = Excel.youtube ∨ p = Excel.bilibili)) as [Hp | Hp].
  - unfold Excel.run.
    destruct (subprocess_run _ _ _) as [[rc out err| |] w']; simpl.
    + split; [intros [-> | ->]; by destruct Hp |].
      split; [done |].
      destruct (rc =? 0) eqn:E; simpl; [|done].
      apply Z.eqb_eq in E. subst rc.
      destruct (bool_decide (Py.strip out = [])) eqn:E2; simpl; [done |].
      apply bool_decide_eq_false in E2.
      destruct (int_of_text (Py.strip out)) as [d|] eqn:E3; simpl; [|done].
      intros _. split; [done |]. by exists out, err.
    + split; [intros [-> | ->]; by destruct Hp |]. done.
    + split; [intros [-> | ->]; by destruct Hp |]. done.
  - simpl. split; [done |]. split; [done |]. done.
Qed.

End Reporting.

(** ** File names *)

Section FileNames.


Lemma format_0d_nonempty (w : nat) (z : Z) : Py.format_0d w z ≠ [].
Proof.
  unfold Py.format_0d. destruct (z <? 0); [done |].
  destruct (digits_spec (Z.to_N (Z.abs z))) as (_ & Hne & _).
  intros H. by apply app_eq_nil in H as [_ H].
Qed.





End FileNames.

(** ** What one video costs *)

Section Budget.
Context `{RT : Runtime} {World : Type} `{AG : !Agent World}.

Lemma download_video_segment_calls url output_name output_dir
    start_time end_time p (m : Excel.machine World) :
  let r :=
    Excel.download_video_segment url output_name output_dir
      start_time end_time p m in
  Excel.agent_calls r.2
  = Excel.agent_calls m
    ++ (if path_exists (Excel.output_path output_dir output_name)
             (Excel.world m)
        then []
        else [Excel.download_cmd url output_name output_dir
                start_time end_time p]).
Proof.
  unfold Excel.download_video_segment.
  destruct (path_exists _ _); simpl; [by rewrite app_nil_r |].
  unfold Excel.run. simpl.
  destruct (subprocess_run _ _ _) as [[rc out err| |] w']; simpl;
    try done.
  destruct (rc =? 0); simpl; [done |].
  unfold Excel.report_failure. destruct err; [done |].
  repeat (destruct (Py.contains _ _); simpl; try done).
Qed.

Lemma segments_loop_calls url video_id_str output_dir p duration_seconds
    (todo : nat) seg_idx success_count (m : Excel.machine World) :
  let r :=
    Excel.segments_loop url video_id_str output_dir p duration_seconds
      todo seg_idx success_count m in
  ∃ calls units,
    Excel.agent_calls r.2 = Excel.agent_calls m ++ calls
    ∧ Excel.dispatched r.2 = Excel.dispatched m ++ units
    ∧ length units = todo
    ∧ (length calls <= todo)%nat.
Proof.
  revert seg_idx success_count m.
  induction todo as [|todo IH]; intros seg_idx success_count m.
  - exists [], []. simpl. by rewrite !app_nil_r.
  - cbn zeta. cbn [Excel.segments_loop].
    match goal with
    | |- context [Excel.download_video_segment ?u ?n ?d ?s ?e ?q m] =>
        pose proof (download_video_segment_calls u n d s e q m) as Hc;
        pose proof (download_video_segment_dispatched u n d s e q m) as Hd
    end.
    cbn zeta in Hc.
    destruct (Excel.download_video_segment _ _ _ _ _ _ _) as [ok m1].
    simpl in Hc.
    match goal with
    | |- context [Excel.segments_loop _ _ _ _ _ todo ?i ?sc m1] =>
        destruct (IH i sc m1) as (calls & units & Hc' & Hd' & Hu & Hl)
    end.
    cbn zeta in Hc', Hd'. cbn beta iota zeta in Hd.
    match type of Hc with
    | _ = _ ++ ?c =>
        match type of Hd with
        | _ = _ ++ [?u] => exists (c ++ calls), (u :: units)
        end
    end.
    rewrite Hc', Hc, Hd', Hd, <- !app_assoc.
    split; [done |]. split; [done |]. split; [simpl; lia |].
    rewrite length_app. destruct (path_exists _ _); simpl; lia.
Qed.

(** X18.  Processing one video dispatches at least one unit, and hands
    the agent at most one command per unit besides the one probe of the
    duration; for a link that is neither YouTube nor Bilibili there is
    no probe and exactly one unit, so at most one command. *)
Theorem process_video_budget (video_no : Z) (title url output_dir : Py.str)
    (m : Excel.machine World) :
  let r := Excel.process_video video_no title url output_dir m in
  let p := Excel.get_url_platform url in
  ∃ calls units,
    Excel.agent_calls r.2 = Excel.agent_calls m ++ calls
    ∧ Excel.dispatched r.2 = Excel.dispatched m ++ units
    ∧ (1 <= length units)%nat
    ∧ (length calls <= 1 + length units)%nat
    ∧ (p = Excel.rthk ∨ p = Excel.other →
       length units = 1%nat ∧ (length calls <= 1)%nat)
    ∧ (p ≠ Excel.youtube → length units = 1%nat).
Proof.
  intros r p. subst r. unfold Excel.process_video. fold p.
  set (m0 := Excel.print _ m).
  assert (Hprobe : ∃ probe,
            Excel.agent_calls (Excel.probe_duration url p m0).2
            = Excel.agent_calls m ++ probe
            ∧ Excel.dispatched (Excel.probe_duration url p m0).2
              = Excel.dispatched m
            ∧ (length probe <= 1)%nat
            ∧ (p = Excel.rthk ∨ p = Excel.other → probe = [])).
  { unfold Excel.probe_duration.
    destruct (decide (p = Excel.youtube ∨ p = Excel.bilibili)) as [Hp | Hp].
    - unfold Excel.run. destruct (subprocess_run _ _ _) as [res w'].
      simpl. eexists. split; [done |]. split; [done |].
      split; [simpl; lia |]. intros [Hq | Hq]; rewrite Hq in Hp;
        by destruct Hp.
    - exists []. simpl. rewrite app_nil_r.
      repeat split; first [done | lia]. }
  destruct Hprobe as (probe & Hpc & Hpd & Hpl & Hpn).
  destruct (Excel.probe_duration url p m0) as [d m1]. simpl in Hpc, Hpd.
  destruct (bool_decide (p = Excel.youtube)
            && (Excel.SEGMENT_THRESHOLD_SECONDS <? d)) eqn:E.
  - apply andb_true_iff in E as [Hp Hd].
    apply bool_decide_eq_true in Hp. apply Z.ltb_lt in Hd.
    match goal with
    | |- context [Excel.segments_loop ?u ?v ?o ?q ?dd ?todo ?i ?sc ?mm] =>
        destruct (segments_loop_calls u v o q dd todo i sc mm)
          as (calls & units & Hc & Hu & Hn & Hl)
    end.
    cbn zeta in Hc, Hu.
    destruct (Excel.segments_loop _ _ _ _ _ _ _ _ _) as [sc m2].
    simpl in Hc, Hu. simpl.
    exists (probe ++ calls), units.
    rewrite Hc, Hu, Hpc, Hpd, <- app_assoc.
    split; [done |]. split; [done |].
    assert (Hn4 : (4 <= length units)%nat).
    { rewrite Hn.
      change Excel.SEGMENT_THRESHOLD_SECONDS with 1800 in Hd.
      change Excel.SEGMENT_DURATION_SECONDS with 600.
      assert (4 <= (d + 600 - 1) / 600).
      { apply Z.div_le_lower_bound; lia. }
      lia. }
    split; [lia |]. split; [rewrite length_app; lia |].
    split.
    + intros [Hq | Hq]; rewrite Hq in Hp; done.
    + intros Hq. done.
  - match goal with
    | |- context [Excel.download_video_segment ?u ?n ?o ?s ?e ?q ?mm] =>
        pose proof (download_video_segment_calls u n o s e q mm) as Hc;
        pose proof (download_video_segment_dispatched u n o s e q mm) as Hd
    end.
    cbn zeta in Hc.
    destruct (Excel.download_video_segment _ _ _ _ _ _ _) as [ok m2].
    simpl in Hc. cbn beta iota zeta in Hd. simpl.
    match type of Hc with
    | _ = _ ++ ?c =>
        match type of Hd with
        | _ = _ ++ [?u] => exists (probe ++ c), [u]
        end
    end.
    rewrite Hc, Hd, Hpc, Hpd, <- app_assoc.
    split; [done |]. split; [done |]. split; [simpl; lia |].
    split; [| split].
    + rewrite length_app. destruct (path_exists _ _); simpl; lia.
    + intros Hq. rewrite (Hpn Hq). split; [done |].
      destruct (path_exists _ _); simpl; lia.
    + done.
Qed.

End Budget.

(** ** The loop of main *)

Section MainLoop.
Context `{RT : Runtime} {World : Type} `{AG : !Agent World}.

Lemma main_body_tally n i t (m : Excel.machine World) video :
  let r := Excel.main_body n (i, t, m) video in
  total r.1.2 = total t + 1
  ∧ Excel.success_count t <= Excel.success_count r.1.2
  ∧ Excel.fail_count t <= Excel.fail_count r.1.2
  ∧ Excel.skip_count t <= Excel.skip_count r.1.2.
Proof.
  unfold Excel.main_body, total.
  destruct (path_exists _ _); simpl; [lia |].
  destruct (Excel.process_video _ _ _ _ _) as [[|] m']; simpl; lia.
Qed.

Lemma main_fold_tally n videos i t (m : Excel.machine World) :
  let r := fold_left (Excel.main_body n) videos (i, t, m) in
  total r.1.2 = total t + Py.len videos
  ∧ Excel.success_count t <= Excel.success_count r.1.2
  ∧ Excel.fail_count t <= Excel.fail_count r.1.2
  ∧ Excel.skip_count t <= Excel.skip_count r.1.2.
Proof.
  revert i t m. induction videos as [|video videos IH]; intros i t m.
  - unfold Py.len. simpl. lia.
  - cbn zeta. cbn [fold_left].
    pose proof (main_body_tally n i t m video) as Hb. cbn zeta in Hb.
    destruct (Excel.main_body n (i, t, m) video) as [[i1 t1] m1].
    simpl in Hb.
    pose proof (IH i1 t1 m1) as Hr. cbn zeta in Hr.
    unfold Py.len in *. rewrite length_cons, Nat2Z.inj_succ. lia.
Qed.

Lemma main_body_skip n i t (m : Excel.machine World) video :
  path_exists
    (Excel.output_path Excel.OUTPUT_DIR (Py.format_0d 3 (Excel.no video)))
    (Excel.world m) = true →
  let r := Excel.main_body n (i, t, m) video in
  Excel.skip_count r.1.2 = Excel.skip_count t + 1
  ∧ Excel.world r.2 = Excel.world m
  ∧ Excel.agent_calls r.2 = Excel.agent_calls m
  ∧ Excel.dispatched r.2 = Excel.dispatched m.
Proof.
  intros Hex. unfold Excel.main_body. simpl. by rewrite Hex.
Qed.

Lemma main_fold_skip n videos i t (m : Excel.machine World) :
  (∀ v, v ∈ videos →
     path_exists
       (Excel.output_path Excel.OUTPUT_DIR (Py.format_0d 3 (Excel.no v)))
       (Excel.world m) = true) →
  let r := fold_left (Excel.main_body n) videos (i, t, m) in
  Excel.skip_count r.1.2 = Excel.skip_count t + Py.len videos
  ∧ Excel.world r.2 = Excel.world m
  ∧ Excel.agent_calls r.2 = Excel.agent_calls m
  ∧ Excel.dispatched r.2 = Excel.dispatched m.
Proof.
  revert i t m. induction videos as [|video videos IH]; intros i t m Hex.
  - unfold Py.len. simpl. repeat split; lia.
  - cbn zeta. cbn [fold_left].
    pose proof (main_body_skip n i t m video
                  (Hex video ltac:(by left))) as Hb.
    cbn zeta in Hb.
    destruct (Excel.main_body n (i, t, m) video) as [[i1 t1] m1].
    simpl in Hb. destruct Hb as (Hs & Hw & Hc & Hd).
    destruct (IH i1 t1 m1) as (Hs' & Hw' & Hc' & Hd').
    { intros v Hv. rewrite Hw. apply Hex. by right. }
    cbn zeta in Hs', Hw', Hc', Hd'.
    rewrite Hs', Hw', Hc', Hd', Hs.
    unfold Py.len. rewrite length_cons, Nat2Z.inj_succ.
    repeat split; try done. lia.
Qed.

(** X19.  The three counts [main] prints add up to the number of
    videos: every video is counted once, as a success, a failure or a
    skip.  When the file of every video is there already, all are
    skipped: the agent gets no command, no unit is dispatched and the
    world stays as it is. *)
Theorem main_loop_tally (videos : list Excel.row)
    (m : Excel.machine World) :
  let r := Excel.main_loop videos m in
  (total r.1 = Py.len videos
   ∧ 0 <= Excel.success_count r.1
   ∧ 0 <= Excel.fail_count r.1
   ∧ 0 <= Excel.skip_count r.1)
  ∧ ((∀ v, v ∈ videos →
        path_exists
          (Excel.output_path Excel.OUTPUT_DIR
             (Py.format_0d 3 (Excel.no v)))
          (Excel.world m) = true) →
     Excel.skip_count r.1 = Py.len videos
     ∧ Excel.world r.2 = Excel.world m
     ∧ Excel.agent_calls r.2 = Excel.agent_calls m
     ∧ Excel.dispatched r.2 = Excel.dispatched m).
Proof.
  intros r. subst r. unfold Excel.main_loop.
  match goal with
  | |- context [fold_left _ videos (?i, ?t, m)] =>
      pose proof (main_fold_tally (Py.len videos) videos i t m) as Ht;
      pose proof (main_fold_skip (Py.len videos) videos i t m) as Hs
  end.
  cbn zeta in Ht, Hs.
  destruct (fold_left _ videos _) as [[i1 t1] m1].
  unfold total in Ht. simpl in Ht, Hs. simpl. unfold total.
  split; [lia |].
  intros Hex. destruct (Hs Hex) as (? & ? & ? & ?).
  repeat split; first [done | lia].
Qed.

End MainLoop.

(** ** Reading the spreadsheet *)

Section Sheet.
Context `{RT : Runtime}.

Lemma count_of_snoc p videos v :
  count_of p (videos ++ [v])
  = count_of p videos + (if bool_decide (v.2 = p) then 1 else 0).
Proof.
  unfold count_of. rewrite List.filter_app, length_app, Nat2Z.inj_add.
  simpl. by destruct (bool_decide _).
Qed.

Lemma count_of_total videos :
  count_of Excel.youtube videos + count_of Excel.bilibili videos
  + count_of Excel.rthk videos + count_of Excel.other videos
  = Py.len videos.
Proof.
  unfold count_of, Py.len.
  induction videos as [|[r p] videos IH]; simpl; [done |].
  destruct p; simpl; lia.
Qed.

Lemma read_excel_videos_body_spec videos n cells :
  sheet_invariant videos n →
  match Excel.read_excel_videos_body (videos, n) cells with
  | None => unreadable cells
  | Some (videos', n') =>
      sheet_invariant videos' n'
      ∧ (videos' = videos
         ∨ ∃ v c, videos' = videos ++ [v]
                  ∧ cells !! 0%nat = Some c
                  ∧ (Excel.cell_truth c = false →
                     Excel.no v.1 = Py.len videos + 1))
  end.
Proof.
  intros Hinv. unfold Excel.read_excel_videos_body.
  destruct (cells !! 0%nat) as [no|] eqn:E0.
  2: { left. apply lookup_ge_None in E0. lia. }
  destruct (cells !! 1%nat) as [title|] eqn:E1.
  2: { left. apply lookup_ge_None in E1. lia. }
  destruct (cells !! 6%nat) as [url|] eqn:E6.
  2: { left. apply lookup_ge_None in E6. lia. }
  destruct (negb (Excel.cell_truth url)); [by split; [|left] |].
  destruct (bool_decide _ && _) eqn:Elist; [by split; [|left] |].
  destruct (Excel.cell_truth no) eqn:Eno.
  - destruct (Excel.cell_int no) as [k|] eqn:Ek.
    + split.
      * destruct Hinv as (Hall & Hy & Hb & Hr & Ho).
        split.
        { apply Forall_app. split; [done |]. constructor; [|done].
          simpl. split; [done |]. intros Hp.
          rewrite Hp in Elist. rewrite bool_decide_eq_true_2 in Elist by done.
          done. }
        rewrite !count_of_snoc. simpl.
        destruct (Excel.get_url_platform (Excel.cell_str url)); simpl;
          repeat split; lia.
      * right. eexists _, no. split; [done |]. split; [done |]. congruence.
    + right. by exists no.
  - split.
    + destruct Hinv as (Hall & Hy & Hb & Hr & Ho).
      split.
      { apply Forall_app. split; [done |]. constructor; [|done].
        simpl. split; [done |]. intros Hp.
        rewrite Hp in Elist. rewrite bool_decide_eq_true_2 in Elist by done.
        done. }
      rewrite !count_of_snoc. simpl.
      destruct (Excel.get_url_platform (Excel.cell_str url)); simpl;
        repeat split; lia.
    + right. eexists _, no. split; [done |]. split; [done |]. done.
Qed.

Lemma read_excel_videos_loop_spec rows videos n :
  sheet_invariant videos n →
  match Excel.read_excel_videos_loop rows (videos, n) with
  | None => ∃ cells, cells ∈ rows ∧ unreadable cells
  | Some (videos', n') =>
      sheet_invariant videos' n'
      ∧ (length videos' <= length videos + length rows)%nat
  end.
Proof.
  revert videos n. induction rows as [|cells rows IH]; intros videos n Hinv.
  - simpl. split; [done | lia].
  - cbn [Excel.read_excel_videos_loop].
    pose proof (read_excel_videos_body_spec videos n cells Hinv) as Hb.
    destruct (Excel.read_excel_videos_body (videos, n) cells)
      as [[videos1 n1]|].
    2: { exists cells. split; [by left | done]. }
    destruct Hb as (Hinv1 & Hstep).
    pose proof (IH videos1 n1 Hinv1) as Hr.
    destruct (Excel.read_excel_videos_loop rows (videos1, n1))
      as [[videos' n']|].
    2: { destruct Hr as (c & Hc & Hu). exists c. split; [by right | done]. }
    destruct Hr as (Hinv' & Hlen).
    split; [done |].
    destruct Hstep as [-> | (v1 & c1 & -> & _)].
    + simpl; lia.
    + rewrite length_app in Hlen. simpl in *. lia.
Qed.

Lemma read_excel_videos_loop_numbered rows videos n :
  sheet_invariant videos n →
  (∀ cells, cells ∈ rows →
     ∀ c, cells !! 0%nat = Some c → Excel.cell_truth c = false) →
  numbered videos →
  match Excel.read_excel_videos_loop rows (videos, n) with
  | None => True
  | Some (videos', _) => numbered videos'
  end.
Proof.
  revert videos n.
  induction rows as [|cells rows IH]; intros videos n Hinv Hfalsy Hnum.
  - done.
  - cbn [Excel.read_excel_videos_loop].
    pose proof (read_excel_videos_body_spec videos n cells Hinv) as Hb.
    destruct (Excel.read_excel_videos_body (videos, n) cells)
      as [[videos1 n1]|]; [|done].
    destruct Hb as (Hinv1 & Hstep).
    apply IH; [done | intros cs Hcs; apply Hfalsy; by right |].
    destruct Hstep as [-> | (v1 & c1 & -> & Hc1 & Hv1)]; [done |].
    intros i v Hv. apply lookup_app_Some in Hv as [Hv | [Hi Hv]].
    + by apply Hnum.
    + apply list_lookup_singleton_Some in Hv as [Hi0 <-].
      assert (i = length videos) as -> by lia.
      rewrite (Hv1 (Hfalsy cells ltac:(by left) c1 Hc1)).
      unfold Py.len. lia.
Qed.

(** X20.  [read_excel_videos] keeps at most one video per row, in the
    order of the rows.  Each video it keeps carries the platform of its
    link, and no YouTube link that names a playlist is kept.  The four
    counts it prints are the numbers of videos of each platform, and add
    up to the number of videos.  When no row gives a number, the videos
    are numbered 1, 2, ... in the order they are kept, whatever rows
    were left out in between.  It raises only on a row of fewer than
    seven cells or on a number that [int] cannot read. *)
Theorem read_excel_videos_spec (rows : list (list Excel.cell)) :
  match Excel.read_excel_videos rows with
  | Some (videos, n) =>
      (length videos <= length rows)%nat
      ∧ (∀ v, v ∈ videos →
           v.2 = Excel.get_url_platform (Excel.url v.1)
           ∧ (v.2 = Excel.youtube →
              Py.contains (Py.lit "&list=") (Excel.url v.1) = false))
      ∧ (Excel.youtube_count n = count_of Excel.youtube videos
         ∧ Excel.bilibili_count n = count_of Excel.bilibili videos
         ∧ Excel.rthk_count n = count_of Excel.rthk videos
         ∧ Excel.other_count n = count_of Excel.other videos)
      ∧ Excel.youtube_count n + Excel.bilibili_count n
        + Excel.rthk_count n + Excel.other_count n = Py.len videos
      ∧ ((∀ cells, cells ∈ rows →
            ∀ c, cells !! 0%nat = Some c → Excel.cell_truth c = false) →
         ∀ (i : nat) v, videos !! i = Some v →
                        Excel.no v.1 = Z.of_nat i + 1)
  | None => ∃ cells, cells ∈ rows ∧ unreadable cells
  end.
Proof.
  unfold Excel.read_excel_videos.
  set (n0 := {| Excel.youtube_count := 0; Excel.bilibili_count := 0;
                Excel.rthk_count := 0; Excel.other_count := 0 |}).
  assert (Hinv0 : sheet_invariant [] n0) by (by repeat split).
  pose proof (read_excel_videos_loop_spec rows [] n0 Hinv0) as Hspec.
  pose proof (read_excel_videos_loop_numbered rows [] n0 Hinv0) as Hnum.
  destruct (Excel.read_excel_videos_loop rows ([], n0)) as [[videos n]|];
    [|exact Hspec].
  destruct Hspec as ((Hall & Hy & Hb & Hr & Ho) & Hlen).
  split; [simpl in Hlen; lia |].
  split; [by apply Forall_forall |].
  split; [done |].
  split; [rewrite Hy, Hb, Hr, Ho; apply count_of_total |].
  intros Hfalsy. apply Hnum; [done |]. intros i v Hv. done.
Qed.

End Sheet.

(** ** main *)

Section Main.
Context `{RT : Runtime} {World : Type} `{AG : !Agent World}.
Context `{SP : !Excel.Spreadsheet World}.


End Main.

(** ** Extracting twice *)

Section Lines.

Lemma splitlines_aux_no_break (n : nat) (cur s : Py.str) :
  (length s <= n)%nat → Forall no_break cur →
  Forall (Forall no_break) (Py.splitlines_aux cur s).
Proof.
  revert cur s. induction n as [|n IH]; intros cur s Hn Hcur.
  - destruct s; [|simpl in Hn; lia]. simpl.
    destruct cur; [done |]. constructor; [|done]. by apply Forall_rev.
  - destruct s as [|c s]; simpl.
    + destruct cur; [done |]. constructor; [|done]. by apply Forall_rev.
    + simpl in Hn. destruct (c =? 13)%N eqn:E13.
      * destruct s as [|c' s].
        -- constructor; [by apply Forall_rev |]. apply IH; [simpl; lia | done].
        -- destruct (N.eq_dec c' 10%N) as [-> | Hne].
           ++ constructor; [by apply Forall_rev |].
              apply IH; [simpl in *; lia | done].
           ++ assert (Hgoal : Forall (Forall no_break)
                       (rev cur :: Py.splitlines_aux [] (c' :: s))).
              { constructor; [by apply Forall_rev |].
                apply IH; [simpl in *; lia | done]. }
              destruct c' as [|p]; [exact Hgoal |].
              do 4 (destruct p as [p|p|]; try exact Hgoal).
              by destruct Hne.
      * destruct (Py.islinebreak c) eqn:Eb.
        -- constructor; [by apply Forall_rev |]. apply IH; [lia | done].
        -- apply IH; [lia |]. by constructor.
Qed.

Lemma splitlines_no_break (s : Py.str) :
  Forall (Forall no_break) (Py.splitlines s).
Proof. by apply (splitlines_aux_no_break (length s)). Qed.

Lemma splitlines_aux_app (cur l rest : Py.str) :
  Forall no_break l →
  Py.splitlines_aux cur (l ++ rest) = Py.splitlines_aux (rev l ++ cur) rest.
Proof.
  intros Hl. revert cur. induction Hl as [|c l Hc Hl IH]; intros cur; [done |].
  cbn [app Py.splitlines_aux].
  assert (H13 : (c =? 13)%N = false).
  { apply N.eqb_neq. intros ->. by vm_compute in Hc. }
  rewrite H13, Hc, IH. simpl. by rewrite <- app_assoc.
Qed.

Lemma splitlines_join (lines : list Py.str) :
  Forall (fun l => l ≠ [] ∧ Forall no_break l) lines →
  Py.splitlines (Py.join [10%N] lines) = lines.
Proof.
  unfold Py.splitlines.
  induction 1 as [|l lines [Hne Hl] Hlines IH]; [done |].
  destruct lines as [|l2 lines].
  - simpl. rewrite <- (app_nil_r l) at 1.
    rewrite splitlines_aux_app, app_nil_r by done. simpl.
    destruct (rev l) eqn:E.
    + apply (f_equal (@rev N)) in E. rewrite rev_involutive in E.
      simpl in E. done.
    + by rewrite <- E, rev_involutive.
  - change (Py.join [10%N] (l :: l2 :: lines))
      with (l ++ [10%N] ++ Py.join [10%N] (l2 :: lines)).
    rewrite splitlines_aux_app, app_nil_r by done.
    cbn [app Py.splitlines_aux].
    change ((10 =? 13)%N) with false. change (Py.islinebreak 10) with true.
    cbn iota. by rewrite rev_involutive, IH.
Qed.

End Lines.

Section Extraction.
Context `{RT : Runtime} {World : Type} `{AG : !Agent World}.

Lemma kept_nonempty (line : Py.str) : kept line = true → line ≠ [].
Proof. intros H ->. by vm_compute in H. Qed.

Lemma kept_lines_fixed (lines : list Py.str) :
  Forall (fun l => kept l = true ∧ Py.strip l = l) lines →
  List.filter kept (List.map Py.strip lines) = lines.
Proof.
  induction 1 as [|l lines [Hk Hs] Hlines IH]; [done |].
  simpl. by rewrite Hs, Hk, IH.
Qed.

Lemma collect_lines (content : Py.str) :
  Forall (fun l => (kept l = true ∧ Py.strip l = l)
                   ∧ l ≠ [] ∧ Forall no_break l)
    (Vtt.collect (Py.splitlines content) []).
Proof.
  rewrite collect_filter. simpl.
  apply Forall_forall. intros l Hl.
  apply list_elem_of_In, filter_In in Hl as [Hin Hk].
  apply in_map_iff in Hin as (l0 & <- & Hl0).
  split; [split; [done | apply strip_idem] |].
  split; [by apply kept_nonempty |].
  pose proof (splitlines_no_break content) as Hall.
  rewrite Forall_forall in Hall.
  specialize (Hall l0 (proj2 (list_elem_of_In _ _) Hl0)).
  rewrite Forall_forall in Hall. apply Forall_forall. intros c Hc.
  by apply Hall, (sublist_subseteq _ _ (strip_sublist l0)).
Qed.

(** X22.  Extracting the text of a file that holds the text extracted
    before gives that text again: what [vtt_to_text] returns is made of
    stripped, non-empty lines that hold no line break, no header, no
    timestamp and are not numbers, so a second pass finds nothing to
    drop. *)
Theorem vtt_to_text_idempotent (vtt_path txt_path : Py.str) (w w' : World) :
  Vtt.read_content txt_path Vtt.encodings w'
  = Some (Vtt.vtt_to_text vtt_path w) →
  Vtt.vtt_to_text txt_path w' = Vtt.vtt_to_text vtt_path w
  ∧ ∃ lines,
      Vtt.vtt_to_text vtt_path w = Py.join [10%N] lines
      ∧ Forall (fun l => kept l = true ∧ Py.strip l = l) lines
      ∧ Py.splitlines (Vtt.vtt_to_text vtt_path w) = lines.
Proof.
  intros Hread.
  assert (Hlines : ∃ lines,
            Vtt.vtt_to_text vtt_path w = Py.join [10%N] lines
            ∧ Forall (fun l => kept l = true ∧ Py.strip l = l) lines
            ∧ Py.splitlines (Vtt.vtt_to_text vtt_path w) = lines).
  { unfold Vtt.vtt_to_text.
    destruct (Vtt.read_content vtt_path Vtt.encodings w) as [content|].
    - exists (Vtt.collect (Py.splitlines content) []).
      pose proof (collect_lines content) as Hall.
      split; [done | split].
      + eapply Forall_impl; [exact Hall |]. by intros l [? _].
      + apply splitlines_join.
        eapply Forall_impl; [exact Hall |]. by intros l [_ ?].
    - by exists []. }
  split; [|exact Hlines].
  destruct Hlines as (lines & Hjoin & Hall & Hsplit).
  unfold Vtt.vtt_to_text at 1. rewrite Hread. cbn zeta.
  rewrite Hsplit, collect_filter, kept_lines_fixed by done.
  simpl. by rewrite Hjoin.
Qed.

End Extraction.

(** * The theorems on the sample inputs *)

Section Instances.
Local Existing Instance Sample.runtime.
Local Existing Instance Sample.agent.
Local Existing Instance Sample.library.
Local Existing Instance Sample.spreadsheet.

(** The title "A walk in Hong Kong" holds a must-contain term and no
    unwanted one, and is accepted also under the reversed lists. *)
Lemma valid_title_iff_witness :
  ((∃ kw, kw ∈ Batch.TITLE_MUST_CONTAIN Batch.module_globals
          ∧ occurs_in kw (Py.lit "A walk in Hong Kong"))
   ∧ (∀ kw, kw ∈ Batch.TITLE_EXCLUDE_KEYWORDS Batch.module_globals
                 ++ Batch.POLITICAL_KEYWORDS Batch.module_globals →
            ¬ occurs_in kw (Py.lit "A walk in Hong Kong")))
  ∧ Batch._is_valid_title Batch.module_globals (Py.lit "A walk in Hong Kong")
    = Batch._is_valid_title Sample.reversed_globals
        (Py.lit "A walk in Hong Kong").
Proof.
  split.
  - apply (proj1 (proj1 (valid_title_iff Batch.module_globals
                           (Py.lit "A walk in Hong Kong")))).
    vm_compute. reflexivity.
  - apply (proj2 (valid_title_iff Batch.module_globals
                    (Py.lit "A walk in Hong Kong")) Sample.reversed_globals);
      apply Permutation_rev.
Defined.

(** The 2023 episode is a duplicate of the known 2024 episode; "Hong
    Kong Food" is too short to be one. *)
Lemma is_duplicate_iff_witness :
  (∃ known, known ∈ Sample.known_stems
     ∧ 20 < Py.len (normalize
                    (Py.lit "Hong Kong Hidden Markets Tour Full Episode 2023"))
     ∧ 20 < Py.len (normalize known)
     ∧ share_words 3
         (normalize (Py.lit "Hong Kong Hidden Markets Tour Full Episode 2023"))
         (normalize known))
  ∧ Py.len (normalize (Py.lit "Hong Kong Food")) <= 20
  ∧ Batch._is_duplicate Sample.downloader (Py.lit "Hong Kong Food") = false.
Proof.
  split; [|split].
  - apply (proj1 (proj1 (is_duplicate_iff 50 Sample.known_stems
             (Py.lit "Hong Kong Hidden Markets Tour Full Episode 2023")))).
    vm_compute. reflexivity.
  - vm_compute. discriminate.
  - apply (proj2 (is_duplicate_iff 50 Sample.known_stems
                    (Py.lit "Hong Kong Food"))).
    vm_compute. discriminate.
Defined.

(** The filter on the two sample hits: it returns, and keeps those the
    checks accept. *)
Lemma filter_pipeline_order_witness :
  ∃ filtered n,
    Batch._filter_videos Batch.module_globals Sample.downloader
      [Sample.harbour_walk; Sample.apartment_walk]
    = Py.Ok (filtered, n)
    ∧ filtered
      = List.filter
          (fun v => bool_decide
             (first_failing_check Batch.module_globals Sample.downloader v
              = Accepted))
          [Sample.harbour_walk; Sample.apartment_walk]
    ∧ Batch.excluded_by_title n + Batch.excluded_by_filter n
      = tally_of (first_failing_check Batch.module_globals Sample.downloader)
          TitleMismatch [Sample.harbour_walk; Sample.apartment_walk]
        + tally_of (first_failing_check Batch.module_globals
                      Sample.downloader)
            ExcludedTerm [Sample.harbour_walk; Sample.apartment_walk].
Proof.
  pose proof (filter_pipeline_order Batch.module_globals Sample.downloader
                [Sample.harbour_walk; Sample.apartment_walk]) as [H _].
  cbn zeta in H.
  destruct (Batch._filter_videos _ _ _) as [[filtered n] | e] eqn:E.
  - exists filtered, n. split; [reflexivity |].
    split; [exact (proj1 H) |].
    exact (proj1 (proj2 (proj2 (proj2 (proj2 (proj2 (proj2 H))))))).
  - exfalso. vm_compute in E. discriminate E.
Defined.

(** As the specification words the order, a hit of title "Hong Kong
    harbour walk" uploaded by "Cage Films" fails the second check; the
    filter keeps it and counts nothing. *)
Lemma filter_order_as_worded_fails :
  Batch.title Sample.harbour_walk = Some (Py.lit "Hong Kong harbour walk")
  ∧ Batch.uploader Sample.harbour_walk = Some (Py.lit "Cage Films")
  ∧ first_failing_check_as_worded Batch.module_globals Sample.downloader
      (Py.lit "Hong Kong harbour walk") (Py.lit "Cage Films")
      (Batch.duration Sample.harbour_walk)
    = SensitiveTerm
  ∧ Batch._filter_videos Batch.module_globals Sample.downloader
      [Sample.harbour_walk]
    = Py.Ok ([Sample.harbour_walk], Batch.no_counts).
Proof. repeat split; vm_compute; reflexivity. Qed.

(** One result asked for on the sample search world: the first of the
    ranked survivors is returned; the survivor at index 1 has no upload
    time, so the one at index 0 has none; a date of three characters is
    not reformatted. *)
Lemma search_videos_ranking_witness :
  let found :=
    Batch.search_videos Batch.module_globals Sample.downloader
      (Py.lit "Hong Kong documentary") (Some 1) Sample.search_world in
  ∃ survivors counts,
    Batch._filter_videos Batch.module_globals Sample.downloader
      (Batch.all_videos found.2)
    = Py.Ok (survivors, counts)
    ∧ let ranked := Py.sort_by Batch.upload_time survivors in
      found.1 = Py.Ok (take 1 ranked)
      ∧ (∃ a b, ranked !! 0%nat = Some a ∧ ranked !! 1%nat = Some b
                ∧ Batch.upload_time b = [] ∧ Batch.upload_time a = [])
      ∧ reformat_upload_date (Py.lit "fff") = None
      ∧ Batch.upload_time
          (Batch.video_of_info
             {| vi_id := Py.lit "bbb"; vi_title := Some (Py.lit "Hong Kong");
                vi_duration := None; vi_uploader := Some [];
                vi_upload_date := Py.lit "fff"; vi_view_count := None |})
        = [].
Proof.
  intros found.
  destruct (search_videos_ranking Batch.module_globals Sample.downloader
              (Py.lit "Hong Kong documentary") (Some 1) Sample.search_world)
    as (Hres & Hdate & _).
  cbn zeta in Hres. fold found in Hres.
  destruct (Batch._filter_videos _ _ _) as [[survivors counts] | e] eqn:E.
  - exists survivors, counts. split; [reflexivity |].
    destruct Hres as (Hres & _ & _ & _ & Hfirst).
    set (ranked := Py.sort_by Batch.upload_time survivors) in *.
    assert (Hs : Py.Ok (survivors, counts)
                 = Batch._filter_videos Batch.module_globals
                     Sample.downloader (Batch.all_videos found.2))
      by (symmetry; exact E).
    assert (Hb : ∃ b, ranked !! 1%nat = Some b ∧ Batch.upload_time b = []).
    { vm_compute in Hs. injection Hs as -> _.
      eexists. split; vm_compute; reflexivity. }
    assert (Ha : ∃ a, ranked !! 0%nat = Some a).
    { vm_compute in Hs. injection Hs as -> _.
      eexists. vm_compute. reflexivity. }
    destruct Hb as (b & Hb & Hbt), Ha as (a & Ha).
    split; [exact Hres |]. split; [|split].
    + exists a, b. split; [exact Ha |]. split; [exact Hb |].
      split; [exact Hbt |].
      exact (Hfirst 0%nat 1%nat a b (Nat.lt_0_succ 0) Ha Hb Hbt).
    + vm_compute. reflexivity.
    + apply Hdate. vm_compute. reflexivity.
  - exfalso. vm_compute in E. discriminate E.
Defined.

(** One result asked for: the bound 3 is reached after the first search
    term, and the loop ends in the state it had then, with one command
    issued. *)
Lemma search_early_exit_witness :
  let start := {| Batch.all_videos := []; Batch.seen_ids := ∅;
                  Batch.world := Sample.search_world; Batch.calls := [] |} in
  let st :=
    (Batch.search_videos Batch.module_globals Sample.downloader
       (Py.lit "Hong Kong documentary") (Some 1) Sample.search_world).2 in
  1 * 3 <= Py.len (Batch.all_videos
                     (Batch.search_loop 1 (take 1 Batch.search_terms) start))
  ∧ st = Batch.search_loop 1 (take 1 Batch.search_terms) start
  ∧ Py.len (Batch.all_videos
              (Batch.search_loop 1 (take 0 Batch.search_terms) start)) < 1 * 3
  ∧ Batch.calls st = [Batch.search_cmd (Py.lit "Hong Kong documentary")].
Proof.
  intros start st.
  destruct (search_early_exit Batch.module_globals Sample.downloader
              (Py.lit "Hong Kong documentary") (Some 1) Sample.search_world)
    as ((k & Hk & Hcalls & Hbelow & Hstop) & Hexit).
  assert (Hreached : 1 * 3 <= Py.len (Batch.all_videos
            (Batch.search_loop 1 (take 1 Batch.search_terms) start))).
  { vm_compute. discriminate. }
  assert (Hone : Batch.calls st
                 = [Batch.search_cmd (Py.lit "Hong Kong documentary")]).
  { vm_compute. reflexivity. }
  split; [exact Hreached |]. split; [exact (Hexit 1%nat Hreached) |].
  split; [|exact Hone].
  apply (Hbelow 0%nat).
  apply (f_equal length) in Hcalls. fold st in Hcalls.
  rewrite Hone, length_map, length_take in Hcalls. simpl in Hcalls. lia.
Defined.

(** Unit 005 of the sample world exists: it is skipped, twice, and the
    loop of [main] skips video 5. *)
Lemma skip_if_exists_witness :
  path_exists (Excel.output_path (Py.lit "out") (Py.lit "005"))
    Sample.excel_world = true
  ∧ path_exists
      (Excel.output_path Excel.OUTPUT_DIR (Py.format_0d 3 5))
      Sample.excel_world = true
  ∧ (Excel.download_video_segment Sample.youtube_url (Py.lit "005")
       (Py.lit "out") None None Excel.youtube
       (Sample.machine_of Sample.excel_world)).1 = true
  ∧ Excel.agent_calls
      (Excel.download_video_segment Sample.youtube_url (Py.lit "005")
         (Py.lit "out") None None Excel.youtube
         (Sample.machine_of Sample.excel_world)).2 = []
  ∧ Excel.skip_count
      (Excel.main_body 1 (1, {| Excel.success_count := 0;
                                Excel.fail_count := 0;
                                Excel.skip_count := 0 |},
                          Sample.machine_of Sample.excel_world)
         {| Excel.no := 5; Excel.title := Py.lit "Test";
            Excel.url := Sample.youtube_url |}).1.2 = 0 + 1.
Proof.
  assert (H1 : path_exists (Excel.output_path (Py.lit "out") (Py.lit "005"))
                 Sample.excel_world = true) by (vm_compute; reflexivity).
  assert (H2 : path_exists
                 (Excel.output_path Excel.OUTPUT_DIR (Py.format_0d 3 5))
                 Sample.excel_world = true) by (vm_compute; reflexivity).
  split; [exact H1 |]. split; [exact H2 |].
  pose proof (skip_if_exists Sample.youtube_url (Py.lit "005") (Py.lit "out")
                None None Excel.youtube
                (Sample.machine_of Sample.excel_world) H1) as H.
  destruct (Excel.download_video_segment _ _ _ _ _ _ _) as [ok m'].
  destruct (Excel.download_video_segment _ _ _ _ _ _ m') as [ok2 m''].
  destruct H as ((Hok & _ & Hcalls & _) & _ & Hmain).
  split; [exact Hok |]. split; [exact Hcalls |].
  specialize (Hmain 1 1 {| Excel.success_count := 0; Excel.fail_count := 0;
                           Excel.skip_count := 0 |}
                {| Excel.no := 5; Excel.title := Py.lit "Test";
                   Excel.url := Sample.youtube_url |} H2).
  destruct (Excel.main_body _ _ _) as [[i t'] m1]. exact (proj1 Hmain).
Defined.

(** Video 7 of the sample world is on YouTube and lasts 2150 seconds: it
    is dispatched in segments, and second 2000 lies in exactly one.  The
    RTHK video is dispatched whole. *)
Lemma segmentation_plan_witness :
  let m := Sample.machine_of Sample.excel_world in
  let p := Excel.get_url_platform Sample.youtube_url in
  let d :=
    (Excel.probe_duration Sample.youtube_url p
       (Excel.print
          (Excel.Heading (Py.format_0d 3 7) (take 45 (Py.lit "T")) p) m)).1 in
  let plan :=
    (Excel.dispatched
       (Excel.process_video 7 (Py.lit "T") Sample.youtube_url
          (Py.lit "out") m).2).*1 in
  (p = Excel.youtube ∧ Excel.SEGMENT_THRESHOLD_SECONDS < d ∧ 0 <= 2000 < d)
  ∧ (∃ n : nat, plan = (segment (Py.format_0d 3 7) d <$> seq 0 n)
                ∧ 600 * (Z.of_nat n - 1) < d <= 600 * Z.of_nat n)
  ∧ (∃ i u, plan !! i = Some u ∧ covers u 2000)
  ∧ Excel.get_url_platform Sample.rthk_url = Excel.rthk
  ∧ (Excel.dispatched
       (Excel.process_video 5 (Py.lit "T") Sample.rthk_url
          (Py.lit "out") m).2).*1
    = [whole (Py.format_0d 3 5)].
Proof.
  intros m p d plan.
  assert (Hp : p = Excel.youtube) by (vm_compute; reflexivity).
  assert (Hd : Excel.SEGMENT_THRESHOLD_SECONDS < d)
    by (vm_compute; reflexivity).
  assert (Ht : 0 <= 2000 < d)
    by (split; vm_compute; [discriminate | reflexivity]).
  assert (Hp' : Excel.get_url_platform Sample.rthk_url = Excel.rthk)
    by (vm_compute; reflexivity).
  split; [by repeat split |].
  destruct (segmentation_plan 7 (Py.lit "T") Sample.youtube_url
              (Py.lit "out") m)
    as (_ & outcomes & Hdisp & Hseg & _).
  change (Excel.dispatched m ++ outcomes) with outcomes in Hdisp.
  destruct (Hseg Hp Hd) as (n & Hplan & Hn & Hcover & _).
  destruct (Hcover 2000 Ht) as (i & u & Hi & Hu & _).
  unfold plan. rewrite Hdisp.
  split; [exists n; split; [exact Hplan | exact Hn] |].
  split; [exists i, u; split; [exact Hi | exact Hu] |].
  split; [exact Hp' |].
  destruct (segmentation_plan 5 (Py.lit "T") Sample.rthk_url
              (Py.lit "out") m)
    as (_ & outcomes' & Hdisp' & _ & Hwhole).
  change (Excel.dispatched m ++ outcomes') with outcomes' in Hdisp'.
  rewrite Hdisp'. apply Hwhole. left. rewrite Hp'. discriminate.
Defined.

(** In the sample world the first segment of video 7 is downloaded and
    the video succeeds; in the failing world no segment is and the video
    fails. *)
Lemma segment_outcomes_aggregate_witness :
  let p := Excel.get_url_platform Sample.youtube_url in
  let d (w : Sample.world) :=
    (Excel.probe_duration Sample.youtube_url p
       (Excel.print
          (Excel.Heading (Py.format_0d 3 7) (take 45 (Py.lit "T")) p)
          (Sample.machine_of w))).1 in
  let result (w : Sample.world) :=
    Excel.process_video 7 (Py.lit "T") Sample.youtube_url (Py.lit "out")
      (Sample.machine_of w) in
  (p = Excel.youtube
   ∧ Excel.SEGMENT_THRESHOLD_SECONDS < d Sample.excel_world
   ∧ Excel.SEGMENT_THRESHOLD_SECONDS < d Sample.failing_world)
  ∧ (segment (Py.format_0d 3 7) 2150 0, true)
    ∈ Excel.dispatched (result Sample.excel_world).2
  ∧ (result Sample.excel_world).1 = true
  ∧ (∀ u b, (u, b) ∈ Excel.dispatched (result Sample.failing_world).2 →
            b = false)
  ∧ (result Sample.failing_world).1 = false.
Proof.
  intros p d result.
  assert (Hp : p = Excel.youtube) by (vm_compute; reflexivity).
  assert (Hd : Excel.SEGMENT_THRESHOLD_SECONDS < d Sample.excel_world)
    by (vm_compute; reflexivity).
  assert (Hd' : Excel.SEGMENT_THRESHOLD_SECONDS < d Sample.failing_world)
    by (vm_compute; reflexivity).
  assert (Hfirst : head (Excel.dispatched (result Sample.excel_world).2)
                   = Some (segment (Py.format_0d 3 7) 2150 0, true))
    by (vm_compute; reflexivity).
  assert (Hall : forallb (fun ub : Excel.unit_of_work * bool => negb ub.2)
                   (Excel.dispatched (result Sample.failing_world).2) = true)
    by (vm_compute; reflexivity).
  split; [by repeat split |].
  destruct (segment_outcomes_aggregate 7 (Py.lit "T") Sample.youtube_url
              (Py.lit "out") (Sample.machine_of Sample.excel_world) Hp Hd)
    as (outcomes & Hdisp & _ & Hiff & _).
  destruct (segment_outcomes_aggregate 7 (Py.lit "T") Sample.youtube_url
              (Py.lit "out") (Sample.machine_of Sample.failing_world) Hp Hd')
    as (outcomes' & Hdisp' & _ & _ & Hnone & _).
  change (Excel.dispatched (Sample.machine_of Sample.excel_world) ++ outcomes)
    with outcomes in Hdisp.
  change (Excel.dispatched (Sample.machine_of Sample.failing_world)
          ++ outcomes') with outcomes' in Hdisp'.
  fold (result Sample.excel_world) in Hdisp, Hiff.
  fold (result Sample.failing_world) in Hdisp', Hnone.
  assert (Hin : (segment (Py.format_0d 3 7) 2150 0, true)
                ∈ Excel.dispatched (result Sample.excel_world).2).
  { destruct (Excel.dispatched (result Sample.excel_world).2) as [|x l];
      [discriminate Hfirst | injection Hfirst as ->; left]. }
  assert (Hfalse : ∀ u b,
            (u, b) ∈ Excel.dispatched (result Sample.failing_world).2 →
            b = false).
  { intros u b Hub. rewrite forallb_forall in Hall.
    apply list_elem_of_In, Hall in Hub. by destruct b. }
  split; [exact Hin |].
  split; [apply (proj2 Hiff); eexists; rewrite <- Hdisp; exact Hin |].
  split; [exact Hfalse |].
  apply Hnone. rewrite <- Hdisp'. exact Hfalse.
Defined.

(** The sample caption file decodes as gbk, the third encoding tried;
    two lines of text are kept.  With no file that decodes the text is
    empty. *)
Lemma vtt_to_text_extracts_witness :
  Vtt.encodings !! 2%nat = Some (Py.lit "gbk")
  ∧ read_text (Py.lit "a.vtt") (Py.lit "gbk") Sample.caption_world
    = Some Sample.captions
  ∧ Vtt.vtt_to_text (Py.lit "a.vtt") Sample.caption_world
    = Py.join [10%N]
        (List.filter kept
           (List.map Py.strip (Py.splitlines Sample.captions)))
  ∧ Vtt.vtt_to_text (Py.lit "a.vtt") Sample.caption_world
    = Sample.text ["Hello there"; "world 12"]%string
  ∧ Vtt.vtt_to_text (Py.lit "a.vtt") Sample.empty_world = [].
Proof.
  assert (Hi : Vtt.encodings !! 2%nat = Some (Py.lit "gbk")) by reflexivity.
  assert (Hr : read_text (Py.lit "a.vtt") (Py.lit "gbk") Sample.caption_world
               = Some Sample.captions) by (vm_compute; reflexivity).
  destruct (vtt_to_text_extracts (Py.lit "a.vtt") Sample.caption_world)
    as (_ & Hsome & _ & _).
  destruct (vtt_to_text_extracts (Py.lit "a.vtt") Sample.empty_world)
    as (_ & _ & Hnone & _).
  split; [exact Hi |]. split; [exact Hr |]. split; [|split].
  - apply (Hsome 2%nat (Py.lit "gbk") Sample.captions Hi Hr).
    intros [|[|j]] e Hj He; [| |lia].
    + injection He as <-. vm_compute. reflexivity.
    + injection He as <-. vm_compute. reflexivity.
  - vm_compute. reflexivity.
  - apply Hnone. intros e _. reflexivity.
Defined.

(** ASCII digits are neither white space, nor a colon, nor [m]. *)
Lemma ascii_decimal_apart (c : N) :
  is_Some (decimal c) →
  Py.isspace c = false ∧ c ≠ 58%N ∧ c ≠ 109%N ∧ c ≠ 77%N.
Proof.
  simpl. unfold Sample.ascii_decimal.
  destruct ((48 <=? c)%N && (c <=? 57)%N) eqn:E; [|by intros [? ?]].
  intros _. apply andb_true_iff in E as [Hlo Hhi].
  apply N.leb_le in Hlo, Hhi.
  assert (Hc : c ∈ [48; 49; 50; 51; 52; 53; 54; 55; 56; 57]%N).
  { rewrite !elem_of_cons. lia. }
  rewrite !elem_of_cons, elem_of_nil in Hc.
  repeat (destruct Hc as [-> | Hc]; [by vm_compute |]). done.
Qed.

(** [parse_duration] on a finite float, on NaN, on the two patterns and
    on a string that holds no match of either. *)
Lemma parse_duration_total_witness :
  (is_finite (S754_finite true 11 (-2))
   ∧ ∃ n, Excel.parse_duration (Excel.VFloat (S754_finite true 11 (-2)))
          = Py.Ok n)
  ∧ (¬ is_finite S754_nan
     ∧ ∃ e, Excel.parse_duration (Excel.VFloat S754_nan) = Py.Raise e)
  ∧ (within_digit_limit (Py.lit "84")
     ∧ Excel.parse_duration (Excel.VStr (Py.lit "84mins"))
       = Py.Ok (number (Py.lit "84") * 60))
  ∧ (within_digit_limit (Py.lit "20") ∧ within_digit_limit (Py.lit "35")
     ∧ Excel.parse_duration (Excel.VStr (Py.lit "20:35"))
       = Py.Ok (number (Py.lit "20") * 60 + number (Py.lit "35")))
  ∧ (digits_apart
     ∧ matches_mins (Py.lit "84mins") (Py.lit "84")
     ∧ ∃ g0, first_mins (Py.lit "84mins") g0
             ∧ (∀ g', first_mins (Py.lit "84mins") g' → g' = g0)
             ∧ (within_digit_limit g0 →
                Excel.parse_duration (Excel.VStr (Py.lit "84mins"))
                = Py.Ok (number g0 * 60)))
  ∧ ((∀ g, ¬ matches_mins (Py.lit "20:35") g)
     ∧ matches_time (Py.lit "20:35") (Py.lit "20") (Py.lit "35")
     ∧ ∃ h1 h2, first_time (Py.lit "20:35") h1 h2
                ∧ (∀ h1' h2', first_time (Py.lit "20:35") h1' h2' →
                     h1' = h1 ∧ h2' = h2)
                ∧ (within_digit_limit h1 → within_digit_limit h2 →
                   Excel.parse_duration (Excel.VStr (Py.lit "20:35"))
                   = Py.Ok (number h1 * 60 + number h2)))
  ∧ ((∀ g, ¬ matches_mins (Py.lit "soon") g)
     ∧ (∀ g1 g2, ¬ matches_time (Py.lit "soon") g1 g2)
     ∧ Excel.parse_duration (Excel.VOther (Py.lit "soon")) = Py.Ok 0)
  ∧ (within_digit_limit (Py.lit "soon")
     ∧ ∃ n, Excel.parse_duration (Excel.VOther (Py.lit "soon")) = Py.Ok n).
Proof.
  destruct parse_duration_total
    as (_ & _ & _ & _ & Hfinite & Hnot & Hstr & Hmins & Htime & Hnone
        & Htotal).
  assert (Hlimit : ∀ s : Py.str,
            (length s <=? 4300)%nat = true → within_digit_limit s).
  { intros s Hs. right. apply Nat.leb_le. exact Hs. }
  assert (H84 : within_digit_limit (Py.lit "84"))
    by (apply Hlimit; vm_compute; reflexivity).
  assert (H20 : within_digit_limit (Py.lit "20"))
    by (apply Hlimit; vm_compute; reflexivity).
  assert (H35 : within_digit_limit (Py.lit "35"))
    by (apply Hlimit; vm_compute; reflexivity).
  assert (Hsoon : within_digit_limit (Py.lit "soon"))
    by (apply Hlimit; vm_compute; reflexivity).
  assert (Hno : ∀ s : Py.str, Excel.search_mins s = None →
            ∀ g, ¬ matches_mins s g).
  { intros s E g Hm. apply (search_mins_complete ascii_decimal_apart) in Hm.
    rewrite E in Hm. by destruct Hm. }
  assert (Hno_mins : ∀ g, ¬ matches_mins (Py.lit "soon") g)
    by (apply Hno; vm_compute; reflexivity).
  assert (Hno_mins' : ∀ g, ¬ matches_mins (Py.lit "20:35") g)
    by (apply Hno; vm_compute; reflexivity).
  assert (Hno_time : ∀ g1 g2, ¬ matches_time (Py.lit "soon") g1 g2).
  { intros g1 g2 Hm. apply (search_time_complete ascii_decimal_apart) in Hm.
    assert (E : Excel.search_time (Py.lit "soon") = None)
      by (vm_compute; reflexivity).
    rewrite E in Hm. by destruct Hm. }
  assert (Hm84 : matches_mins (Py.lit "84mins") (Py.lit "84")).
  { apply search_mins_matches. vm_compute. reflexivity. }
  assert (Hm20 : matches_time (Py.lit "20:35") (Py.lit "20") (Py.lit "35")).
  { apply search_time_matches. vm_compute. reflexivity. }
  split; [split; [exact I | apply Hfinite; exact I] |].
  split; [split; [intros [] | apply Hnot; intros []] |].
  split; [split; [exact H84 |] |].
  { pose proof (Hstr (Excel.VStr (Py.lit "84mins")) (Py.lit "84mins")
                  (or_introl eq_refl)) as H.
    assert (E : Excel.search_mins (Py.lit "84mins") = Some (Py.lit "84"))
      by (vm_compute; reflexivity).
    rewrite E in H. exact (proj2 H H84). }
  split; [split; [exact H20 | split; [exact H35 |]] |].
  { pose proof (Hstr (Excel.VStr (Py.lit "20:35")) (Py.lit "20:35")
                  (or_introl eq_refl)) as H.
    assert (E : Excel.search_mins (Py.lit "20:35") = None)
      by (vm_compute; reflexivity).
    assert (E' : Excel.search_time (Py.lit "20:35")
                 = Some (Py.lit "20", Py.lit "35"))
      by (vm_compute; reflexivity).
    rewrite E, E' in H. exact (proj2 H H20 H35). }
  split.
  { split; [exact ascii_decimal_apart |]. split; [exact Hm84 |].
    exact (Hmins ascii_decimal_apart (Excel.VStr (Py.lit "84mins"))
             (Py.lit "84mins") (Py.lit "84") (or_introl eq_refl) Hm84). }
  split.
  { split; [exact Hno_mins' |]. split; [exact Hm20 |].
    exact (Htime ascii_decimal_apart (Excel.VStr (Py.lit "20:35"))
             (Py.lit "20:35") (Py.lit "20") (Py.lit "35")
             (or_introl eq_refl) Hno_mins' Hm20). }
  split.
  { split; [exact Hno_mins |]. split; [exact Hno_time |].
    exact (Hnone (Excel.VOther (Py.lit "soon")) (Py.lit "soon")
             (or_intror eq_refl) Hno_mins Hno_time). }
  split; [exact Hsoon |].
  exact (Htotal (Excel.VOther (Py.lit "soon")) (Py.lit "soon")
           (or_intror eq_refl) Hsoon).
Defined.

(** [parse_duration] raises on NaN, on an infinity, and on a string of
    4301 digits followed by [mins] under the default digit limit. *)
Lemma parse_duration_raises :
  Excel.parse_duration (Excel.VFloat S754_nan) = Py.Raise Py.ValueError
  ∧ Excel.parse_duration (Excel.VFloat (S754_infinity false))
    = Py.Raise Py.OverflowError
  ∧ Excel.parse_duration
      (Excel.VStr (replicate 4301 57%N ++ Py.lit "mins"))
    = Py.Raise Py.ValueError.
Proof. repeat split; vm_compute; reflexivity. Qed.

(** No video asked for: nothing is searched and nothing returned. *)
Lemma search_nothing_wanted_witness :
  default (Batch.max_downloads Sample.downloader) (Some 0) <= 0
  ∧ Batch.search_videos Batch.module_globals Sample.downloader
      (Py.lit "Hong Kong documentary") (Some 0) Sample.search_world
    = (Py.Ok [],
       {| Batch.all_videos := []; Batch.seen_ids := ∅;
          Batch.world := Sample.search_world; Batch.calls := [] |}).
Proof.
  assert (H : default (Batch.max_downloads Sample.downloader) (Some 0) <= 0)
    by (vm_compute; discriminate).
  split; [exact H |].
  exact (search_nothing_wanted Batch.module_globals Sample.downloader
           (Py.lit "Hong Kong documentary") (Some 0) Sample.search_world H).
Defined.


(** The text extracted from the sample caption file, extracted again. *)
Lemma vtt_to_text_idempotent_witness :
  Vtt.read_content (Py.lit "a.txt") Vtt.encodings Sample.text_world
  = Some (Vtt.vtt_to_text (Py.lit "a.vtt") Sample.caption_world)
  ∧ Vtt.vtt_to_text (Py.lit "a.txt") Sample.text_world
    = Vtt.vtt_to_text (Py.lit "a.vtt") Sample.caption_world.
Proof.
  assert (H : Vtt.read_content (Py.lit "a.txt") Vtt.encodings
                Sample.text_world
              = Some (Vtt.vtt_to_text (Py.lit "a.vtt") Sample.caption_world))
    by (vm_compute; reflexivity).
  split; [exact H |].
  exact (proj1 (vtt_to_text_idempotent (Py.lit "a.vtt") (Py.lit "a.txt")
                  Sample.caption_world Sample.text_world H)).
Defined.

(** ** The definitions on concrete inputs *)

Example split_words :
  Py.split (Py.lit "  Hong   Kong food ")
  = [Py.lit "Hong"; Py.lit "Kong"; Py.lit "food"].
Proof. vm_compute. reflexivity. Qed.

Example splitlines_drops_last_break :
  Py.splitlines [97; 13; 10; 98; 10; 10; 99; 10]%N
  = [[97]; [98]; []; [99]]%N.
Proof. vm_compute. reflexivity. Qed.

Example format_numbers :
  Py.format_0d 3 5 = Py.lit "005" ∧ Py.format_0d 3 1234 = Py.lit "1234"
  ∧ Py.format_0d 2 7 = Py.lit "07" ∧ Py.format_0d 3 (-5) = Py.lit "-05".
Proof. repeat split; vm_compute; reflexivity. Qed.

Example slices :
  Py.slice_to 2 [1; 2; 3] = [1; 2] ∧ Py.slice_to 5 [1; 2; 3] = [1; 2; 3]
  ∧ Py.slice_to (-1) [1; 2; 3] = [1; 2].
Proof. repeat split; vm_compute; reflexivity. Qed.

(** The example of the specification: the known 2024 episode makes the
    2023 episode a duplicate; "Hong Kong Food" is none. *)
Example duplicate_episode :
  Batch._is_duplicate Sample.downloader
    (Py.lit "Hong Kong Hidden Markets Tour Full Episode 2023") = true
  ∧ Batch._is_duplicate Sample.downloader (Py.lit "Hong Kong Food") = false.
Proof. split; vm_compute; reflexivity. Qed.

Example titles :
  Batch._is_valid_title Batch.module_globals (Py.lit "香港 street food")
  = true
  ∧ Batch._is_valid_title Batch.module_globals (Py.lit "HONG KONG apartment")
    = false
  ∧ Batch._is_valid_title Batch.module_globals (Py.lit "Tokyo by night")
    = false.
Proof. repeat split; vm_compute; reflexivity. Qed.

(** The example of the specification: 2150 seconds give four segments. *)
Example segments_of_2150 :
  List.map (fun u => (Excel.start_time u.1, Excel.end_time u.1, u.2))
    (Excel.dispatched
       (Excel.process_video 7 (Py.lit "T") Sample.youtube_url (Py.lit "out")
          (Sample.machine_of Sample.excel_world)).2)
  = [(Some 0, Some 600, true); (Some 600, Some 1200, false);
     (Some 1200, Some 1800, false); (Some 1800, Some 2150, false)].
Proof. vm_compute. reflexivity. Qed.

Example segment_names :
  List.map (fun u => Excel.output_name u.1)
    (Excel.dispatched
       (Excel.process_video 7 (Py.lit "T") Sample.youtube_url (Py.lit "out")
          (Sample.machine_of Sample.excel_world)).2)
  = [Py.lit "007_01"; Py.lit "007_02"; Py.lit "007_03"; Py.lit "007_04"].
Proof. vm_compute. reflexivity. Qed.

Example durations :
  Excel.parse_duration (Excel.VStr (Py.lit "84mins")) = Py.Ok 5040
  ∧ Excel.parse_duration (Excel.VStr (Py.lit "26 Mins")) = Py.Ok 1560
  ∧ Excel.parse_duration (Excel.VStr (Py.lit "20:35")) = Py.Ok 1235
  ∧ Excel.parse_duration (Excel.VOther (Py.lit "00:20:35")) = Py.Ok 20
  ∧ Excel.parse_duration (Excel.VStr (Py.lit "unknown")) = Py.Ok 0
  ∧ Excel.parse_duration (Excel.VFloat (S754_finite true 11 (-2)))
    = Py.Ok (-2).
Proof. repeat split; vm_compute; reflexivity. Qed.

(** [int(t.total_seconds())] follows the rounding of the division: one
    microsecond below a whole second, far out, gives the whole second. *)
Example timedelta_seconds :
  Excel.parse_duration
    (Excel.VTimedelta {| Excel.days := 200000; Excel.seconds := 86399;
                         Excel.microseconds := 999999 |})
  = Py.Ok 17280086400
  ∧ Excel.parse_duration
      (Excel.VTimedelta {| Excel.days := -1; Excel.seconds := 86399;
                           Excel.microseconds := 500000 |})
    = Py.Ok 0.
Proof. split; vm_compute; reflexivity. Qed.

Example video_ids :
  Excel.format_video_id
    (Py.lit "https://www.youtube.com/watch?v=dQw4w9WgXcQ&t=3")
  = Some (Py.lit "dQw4w9WgXcQ")
  ∧ Excel.format_video_id (Py.lit "https://youtu.be/dQw4w9WgXcQ")
    = Some (Py.lit "dQw4w9WgXcQ")
  ∧ Excel.format_video_id (Py.lit "https://youtu.be/short") = None.
Proof. repeat split; vm_compute; reflexivity. Qed.

Example thousands :
  Py.format_thousands 1234567 = Py.lit "1,234,567"
  ∧ Py.format_thousands 999 = Py.lit "999"
  ∧ Py.format_thousands (-1000) = Py.lit "-1,000".
Proof. repeat split; vm_compute; reflexivity. Qed.

Example record_rows :
  Batch.csv_row (Batch.found Sample.harbour_walk)
  = [Py.lit "Hong Kong harbour walk"; Py.lit "2020-01-01";
     Py.lit "Cage Films"; Py.lit "10"; Py.lit "10:00";
     Py.lit "https://www.youtube.com/watch?v=v01"]
  ∧ Batch.excel_row (Batch.found Sample.harbour_walk)
    = Some <$> Batch.csv_row (Batch.found Sample.harbour_walk).
Proof. repeat split; vm_compute; reflexivity. Qed.

Example null_title :
  Batch._filter_videos Batch.module_globals Sample.downloader
    [Sample.harbour_walk;
     {| Batch.id := Py.lit "v03"; Batch.title := None;
        Batch.url := Py.lit "https://www.youtube.com/watch?v=v03";
        Batch.duration := Some 600; Batch.uploader := Some (Py.lit "Walker");
        Batch.upload_time := []; Batch.views := 0 |}]
  = Py.Raise Py.AttributeError.
Proof. vm_compute. reflexivity. Qed.

Example sheet :
  Excel.read_excel_videos Sample.sheet_rows
  = Some
      ([({| Excel.no := 7; Excel.title := Py.lit "Harbour";
            Excel.url :=
              Py.lit "https://www.youtube.com/watch?v=abcdefghijk" |},
         Excel.youtube);
        ({| Excel.no := 2; Excel.title := Py.lit "Video_2";
            Excel.url := Py.lit "https://www.bilibili.com/video/BV1" |},
         Excel.bilibili)],
       {| Excel.youtube_count := 1; Excel.bilibili_count := 1;
          Excel.rthk_count := 0; Excel.other_count := 0 |}).
Proof. vm_compute. reflexivity. Qed.

Example no_workbook :
  (Excel.main
     {| Excel.world := Sample.empty_world; Excel.console := [];
        Excel.agent_calls := []; Excel.dispatched := [] |}).1
  = Excel.Exit 1.
Proof. vm_compute. reflexivity. Qed.

Example one_download :
  match
    Batch.download_all Batch.module_globals true (Py.lit "out")
      Sample.downloader (Py.lit "Hong Kong documentary") (Some 1)
      {| Batch.downloaded_info := []; Batch.filtered_info := [];
         Batch.outside := Sample.search_world; Batch.console := [];
         Batch.commands := []; Batch.saved := [] |}
  with
  | Py.Ok s =>
      Batch.status <$> Batch.downloaded_info s = [Some (Py.lit "超时")]
      ∧ Batch.status <$> Batch.filtered_info s = [None]
      ∧ length (Batch.commands s) = 2%nat
      ∧ (fst <$> Batch.saved s)
        = [Py.lit "out/doc_collection_Hong Kong docum_20240101_000000.csv";
           Py.lit "out/doc_collection_Hong Kong docum_20240101_000000.xlsx"]
  | Py.Raise _ => False
  end.
Proof. vm_compute. repeat split; reflexivity. Qed.

Example caption_text :
  Vtt.vtt_to_text (Py.lit "a.vtt") Sample.caption_world
  = Sample.text ["Hello there"; "world 12"]%string.
Proof. vm_compute. reflexivity. Qed.

End Instances.
